(** * ai-quran: retrieval and quota-gated generation pipeline

    A shallow embedding of [utils.ts] (keyword extraction, relevance
    ranking, prompt construction, neuron metering) and of the [/api/ask]
    branch of the worker's [fetchHandler], followed by the properties the
    specification states about them.

    Conventions of the embedding:
    - a JavaScript [number] is an IEEE-754 binary64 value, i.e. a primitive
      [float]; arithmetic and comparisons are the primitive ones;
    - a JavaScript string is a [string] whose characters are the UTF-16 code
      units U+0000..U+00FF (one [ascii] per code unit), on which
      [toLowerCase] and the regular-expression classes [\w] and [\s] are the
      ECMAScript ones;
    - integers that are never used in floating-point arithmetic (ids, string
      lengths, scores, the result limit) are [Z];
    - the KV namespace, the console and the clock are explicit state and
      inputs; a rejected KV or AI call is the outcome [Thrown]. *)

From Stdlib Require Import ZArith List String Ascii Floats Lia Bool.
From Stdlib Require Import DecimalString DecimalPos Sorted Permutation.
From stdpp Require Import gmap strings.

Open Scope string_scope.
Set Warnings "-inexact-float".

(* ================================================================== *)
(** * Part I. The embedding                                            *)
(* ================================================================== *)

(** ** JavaScript numbers *)

Module JS.

Abbreviation number := float.

(** [ToString] applied to an integer-valued number below 10^21: its decimal
    digits, with a leading minus sign when negative. *)
Definition Z_toString (z : Z) : string := NilZero.string_of_int (Z.to_int z).

(** An integer (a string length, a count) as a number; exact below 2^53. *)
Definition of_Z (z : Z) : number := of_uint63 (Uint63.of_Z z).

(** The built-ins of the runtime in which the embedding is parametric:
    [Number.prototype.toString], the global [parseFloat], and the source
    text [Function.prototype.toString] gives for the built-in function that
    [Object.prototype] holds under a name, which ECMAScript leaves to the
    implementation. *)
Class NumberConversions := {
  Number_toString : number -> string;
  parseFloat : string -> number;
  Function_toString : string -> string
}.

(** [-0] read as [0]: the one distinction [Number::toString] drops. *)
Definition normal_zero (v : number) : number :=
  if (v =? 0)%float then 0%float else v.

(** What ECMAScript guarantees about the pair: the digits produced by
    [Number::toString] denote the number itself ([-0] prints as [0]), and
    are never empty. *)
Definition toString_round_trips `{NumberConversions} : Prop :=
  forall v : number, parseFloat (Number_toString v) = normal_zero v.

Definition toString_nonempty `{NumberConversions} : Prop :=
  forall v : number, Number_toString v <> "".

(** [Math.max(a, b)]: NaN if either argument is NaN, and +0 is larger
    than -0. *)
Definition Math_max (a b : number) : number :=
  if (is_nan a || is_nan b)%bool then nan
  else if (a <? b)%float then b
  else if (b <? a)%float then a
  else if get_sign a then b else a.

(** The integer [n] for which [n / 10^f - x] is as close to zero as
    possible, the larger one if there are two, for a non-negative finite
    [x] given by its exact binary expansion. *)
Definition scaled_round (x : spec_float) (f : nat) : Z :=
  match x with
  | S754_finite _ m e =>
      let num := (Zpos m * 10 ^ Z.of_nat f)%Z in
      if (0 <=? e)%Z then (num * 2 ^ e)%Z
      else ((2 * num + 2 ^ (- e)) / 2 ^ (1 - e))%Z
  | _ => 0%Z
  end.

Definition zeros (n : nat) : string := string_of_list_ascii (repeat "0"%char n).

(** Steps 11-12 of [Number.prototype.toFixed]: the digits of [n], padded
    with leading zeros to [f + 1] characters, with a point before the last
    [f] of them. *)
Definition fixed_digits (x : spec_float) (f : nat) : string :=
  let m := Z_toString (scaled_round x f) in
  match f with
  | O => m
  | S _ =>
      let m := if (String.length m <=? f)%nat
               then zeros (f + 1 - String.length m) ++ m else m in
      let k := String.length m in
      substring 0 (k - f) m ++ "." ++ substring (k - f) f m
  end.

(** [x.toFixed(fd)] for [0 <= fd <= 100]. *)
Definition toFixed `{NumberConversions} (x : number) (fd : nat) : string :=
  if negb (is_finite x) then Number_toString x
  else
    let negative := (x <? 0)%float in
    let x := if negative then (- x)%float else x in
    let s := if negative then "-" else "" in
    if (1e21 <=? x)%float then s ++ Number_toString x
    else s ++ fixed_digits (Prim2SF x) fd.

End JS.

Export JS.

(** ** JavaScript strings *)

Module JSString.

Definition code (c : ascii) : N := N_of_ascii c.

Definition in_range (lo hi : N) (c : ascii) : bool :=
  ((lo <=? code c) && (code c <=? hi))%N.

(** The class [\w]: [A-Za-z0-9_]. *)
Definition is_word (c : ascii) : bool :=
  in_range 65 90 c || in_range 97 122 c || in_range 48 57 c || (code c =? 95)%N.

(** The class [\s] on U+0000..U+00FF: TAB, LF, VT, FF, CR, SPACE, NBSP. *)
Definition is_space (c : ascii) : bool :=
  in_range 9 13 c || (code c =? 32)%N || (code c =? 160)%N.

(** The lower-case mapping on U+0000..U+00FF: [A-Z], and the Latin-1
    capitals U+00C0..U+00DE other than the multiplication sign U+00D7, move
    up by 32. *)
Definition char_toLowerCase (c : ascii) : ascii :=
  if in_range 65 90 c || (in_range 192 222 c && negb (code c =? 215)%N)
  then ascii_of_N (code c + 32) else c.

Fixpoint map_chars (f : ascii -> ascii) (s : string) : string :=
  match s with
  | EmptyString => EmptyString
  | String c r => String (f c) (map_chars f r)
  end.

Definition toLowerCase (s : string) : string := map_chars char_toLowerCase s.

(** [s.replace(/[^\w\s]/g, ' ')]. *)
Definition blank_punctuation (c : ascii) : ascii :=
  if negb (is_word c) && negb (is_space c) then " "%char else c.

Definition replace_punctuation (s : string) : string :=
  map_chars blank_punctuation s.

(** [s.split(sep)] for a separator pattern matching the maximal non-empty
    runs of characters in the class [sep]: the pieces between the runs, with
    an empty first (last) piece when [s] starts (ends) with a run.
    [in_run] tells that the previous character belonged to a run; the head
    of the result is the piece under construction. *)
Fixpoint split_runs (sep : ascii -> bool) (in_run : bool) (s : string)
  : list string :=
  match s with
  | EmptyString => [EmptyString]
  | String c r =>
      if sep c then
        if in_run then split_runs sep true r
        else EmptyString :: split_runs sep true r
      else
        match split_runs sep false r with
        | piece :: pieces => String c piece :: pieces
        | [] => [String c EmptyString]
        end
  end.

(** [s.split(/\s+/)]. *)
Definition split_whitespace (s : string) : list string :=
  split_runs is_space false s.

(** [s.includes(k)]: [k] occurs in [s] at some position. *)
Fixpoint includes (s k : string) : bool :=
  if String.prefix k s then true
  else match s with
       | EmptyString => false
       | String _ r => includes r k
       end.

(** [pieces.join(sep)]. *)
Fixpoint join (sep : string) (pieces : list string) : string :=
  match pieces with
  | [] => ""
  | [p] => p
  | p :: ps => p ++ sep ++ join sep ps
  end.

End JSString.

Export JSString.

(** Truthiness of strings, and [a || b] on them: the empty string (like an
    absent property) is falsy. *)
Definition truthy (s : string) : bool := negb (String.eqb s "").

Definition or_else (a b : string) : string := if truthy a then a else b.

Definition dq : string := String "034" EmptyString.

(** ** utils.ts: data *)

Module QuranVerse.
Record t := { id : Z; text : string; translation : string }.
End QuranVerse.

Module QuranSurah.
Record t := {
  id : Z;
  name : string;
  transliteration : string;
  translation : string;
  type : string;
  total_verses : Z;
  verses : list QuranVerse.t
}.
End QuranSurah.

(** The objects [findRelevantVerses] collects; [reference] is the property
    its final [map] adds. *)
Record RelevantVerse := {
  surah_id : Z;
  surah_name : string;
  surah_name_arabic : string;
  verse_id : Z;
  verse_text_arabic : string;
  verse_text_translation : string;
  score : Z;
  reference : option string
}.

(** ** utils.ts: keyword extraction *)

Definition stopWords : gset string := list_to_set [
  "apa"; "siapa"; "dimana"; "kapan"; "mengapa"; "bagaimana";
  "yang"; "dan"; "atau"; "dari"; "ke"; "di"; "pada"; "dengan";
  "untuk"; "tentang"; "seperti"; "adalah"; "itu"; "ini"; "saya";
  "kamu"; "kita"; "mereka"; "dalam"; "oleh"; "the"; "what"; "who";
  "where"; "when"; "why"; "how"; "is"; "are"; "and"; "or"; "from";
  "to"; "in"; "on"; "with"; "for"; "about"; "like"; "that"; "this"
].

Definition has (set : gset string) (word : string) : bool :=
  bool_decide (word ∈ set).

Definition is_keyword (word : string) : bool :=
  (2 <? String.length word)%nat && negb (has stopWords word).

Definition extractKeywords (question : string) : list string :=
  List.filter is_keyword
    (split_whitespace (replace_punctuation (toLowerCase question))).

(** ** utils.ts: relevance ranking *)

(** [Array.prototype.sort(cmp)] is stable: with a consistent comparator
    the result is the one of a stable insertion sort, where an element
    moves in front of the elements it does not compare greater than. *)
Fixpoint sort_insert {A} (cmp : A -> A -> Z) (x : A) (l : list A) : list A :=
  match l with
  | [] => [x]
  | y :: l' => if (cmp x y <=? 0)%Z then x :: y :: l'
               else y :: sort_insert cmp x l'
  end.

Fixpoint Array_sort {A} (cmp : A -> A -> Z) (l : list A) : list A :=
  match l with
  | [] => []
  | x :: l' => sort_insert cmp x (Array_sort cmp l')
  end.

(** [l.slice(0, end)] for an integer [end]: a negative [end] counts from
    the end of the array. *)
Definition Array_slice0 {A} (l : list A) (finish : Z) : list A :=
  let len := Z.of_nat (length l) in
  let final := if (finish <? 0)%Z then Z.max (len + finish) 0
               else Z.min finish len in
  firstn (Z.to_nat final) l.

(** The body of [for (const keyword of keywords)]. *)
Definition add_keyword (verseText : string) (score : Z) (keyword : string) : Z :=
  if includes verseText keyword
  then (score + Z.of_nat (String.length keyword))%Z else score.

Definition verse_score (verseText : string) (keywords : list string) : Z :=
  fold_left (add_keyword verseText) keywords 0%Z.

(** The body of [for (const verse of surah.verses)]: [relevantVerses] is
    the array being filled. *)
Definition scan_verse (keywords : list string) (surah : QuranSurah.t)
    (relevantVerses : list RelevantVerse) (verse : QuranVerse.t)
  : list RelevantVerse :=
  if negb (truthy (QuranVerse.translation verse)) then relevantVerses
  else
    let verseText := toLowerCase (QuranVerse.translation verse) in
    let verseArabic := or_else (QuranVerse.text verse) "" in
    let score := verse_score verseText keywords in
    if (0 <? score)%Z then
      relevantVerses ++ [{|
        surah_id := QuranSurah.id surah;
        surah_name := QuranSurah.name surah;
        surah_name_arabic := QuranSurah.name surah;
        verse_id := QuranVerse.id verse;
        verse_text_arabic := verseArabic;
        verse_text_translation := QuranVerse.translation verse;
        score := score;
        reference := None
      |}]
    else relevantVerses.

(** The body of [for (const surah of quranData)]; a [verses] that is not
    an array, like a verse that is missing, is excluded by the types. *)
Definition scan_surah (keywords : list string)
    (relevantVerses : list RelevantVerse) (surah : QuranSurah.t)
  : list RelevantVerse :=
  fold_left (scan_verse keywords surah) (QuranSurah.verses surah) relevantVerses.

(** The array [relevantVerses] when the loops are over. *)
Definition collect_relevant (quranData : list QuranSurah.t)
    (keywords : list string) : list RelevantVerse :=
  fold_left (scan_surah keywords) quranData [].

Definition reference_of (v : RelevantVerse) : string :=
  surah_name v ++ " (" ++ Z_toString (surah_id v) ++ ":" ++ Z_toString (verse_id v) ++ ")".

Definition with_reference (v : RelevantVerse) : RelevantVerse := {|
  surah_id := surah_id v;
  surah_name := surah_name v;
  surah_name_arabic := surah_name_arabic v;
  verse_id := verse_id v;
  verse_text_arabic := verse_text_arabic v;
  verse_text_translation := verse_text_translation v;
  score := score v;
  reference := Some (reference_of v)
|}.

Definition by_score_desc (a b : RelevantVerse) : Z := (score b - score a)%Z.

Definition findRelevantVerses (quranData : list QuranSurah.t)
    (keywords : list string) (limit : Z) : list RelevantVerse :=
  map with_reference
    (Array_slice0 (Array_sort by_score_desc (collect_relevant quranData keywords))
       limit).

(** ** utils.ts: prompt construction *)

Definition verse_context (language : string) (v : RelevantVerse) : string :=
  if String.eqb language "id" then
    "Surah " ++ or_else (surah_name_arabic v) (surah_name v) ++ " (" ++ Z_toString (surah_id v) ++ ":" ++ Z_toString (verse_id v) ++ ")
Ayat Arab: " ++ dq ++ verse_text_arabic v ++ dq ++ "
Terjemahan Indonesia: " ++ dq ++ verse_text_translation v ++ dq
  else
    "Surah " ++ or_else (surah_name_arabic v) (surah_name v) ++ " (" ++ Z_toString (surah_id v) ++ ":" ++ Z_toString (verse_id v) ++ ")
Arabic Verse: " ++ dq ++ verse_text_arabic v ++ dq ++ "
English Translation: " ++ dq ++ verse_text_translation v ++ dq.

Definition createQuranPrompt (question : string)
    (relevantVerses : list RelevantVerse) (language : string) : string :=
  match relevantVerses with
  | [] =>
    if String.eqb language "id" then
      "Anda adalah asisten AI khusus Al-Quran yang sangat berpengetahuan.
      Anda hanya menjawab pertanyaan berdasarkan Al-Quran dan tafsir yang sahih.
      Jika tidak tahu, katakan dengan jujur.

      Pertanyaan: " ++ dq ++ question ++ dq ++ "

      Berikan jawaban yang:
      1. Berdasarkan pengetahuan Al-Quran yang sahih
      2. Jelas dan mudah dipahami
      3. Menggunakan bahasa Indonesia yang baik
      4. Sertakan referensi ayat yang relevan jika ada
      5. Jika perlu, tambahkan tafsir singkat

      Jawaban:"
    else
      "You are a knowledgeable Quran AI assistant.
      You only answer questions based on the Quran and authentic interpretations.
      If you don't know, say so honestly.

      Question: " ++ dq ++ question ++ dq ++ "

      Provide an answer that:
      1. Is based on authentic Quran knowledge
      2. Clear and understandable
      3. Uses proper English
      4. Include relevant verse references if available
      5. Add brief interpretation if needed

      Answer:"
  | _ :: _ =>
    let versesContext :=
      join (String "010" (String "010" EmptyString))
        (map (verse_context language) relevantVerses) in
    if String.eqb language "id" then
      "Anda adalah asisten AI khusus Al-Quran yang sangat berpengetahuan.
Tugas Anda hanya menjawab berdasarkan ayat-ayat Al-Quran di bawah ini:

Pertanyaan: " ++ dq ++ question ++ dq ++ "

AYAT-AL-QURAN YANG RELEVAN:
" ++ versesContext ++ "

INSTRUKSI JAWABAN:
1. Jawab HANYA berdasarkan ayat-ayat di atas
2. Setiap kali menyebut ayat, TULISKAN teks Arab-nya
3. Di bawah teks Arab, berikan terjemahannya
4. Gunakan format:
   [Nama Surah Ayat X]
   [Teks Arab]
   [Terjemahan]
5. Jawaban maksimal 3 paragraf
6. Jika tidak ada di ayat-ayat ini, katakan " ++ dq ++ "Berdasarkan ayat-ayat yang tersedia..." ++ dq ++ "

JAWABAN:"
    else
      "You are a knowledgeable Quran AI assistant.
You must answer ONLY based on the Quran verses below:

Question: " ++ dq ++ question ++ dq ++ "

RELEVANT QURAN VERSES:
" ++ versesContext ++ "

ANSWER INSTRUCTIONS:
1. Answer ONLY based on the verses above
2. Whenever mentioning a verse, WRITE the Arabic text
3. Below the Arabic text, provide the translation
4. Use format:
   [Surah Name Verse X]
   [Arabic Text]
   [Translation]
5. Maximum 3 paragraphs
6. If not in these verses, say " ++ dq ++ "Based on the available verses..." ++ dq ++ "

ANSWER:"
  end.

(** ** utils.ts: neuron accounting *)

Definition INPUT_TOKEN_NEURON_RATE : number := (26668 / 1000000)%float.

Definition OUTPUT_TOKEN_NEURON_RATE : number := (204805 / 1000000)%float.

Definition calculateNeuronsConsumed (promptTokens completionTokens : number)
  : number :=
  let inputNeurons := (promptTokens * INPUT_TOKEN_NEURON_RATE)%float in
  let outputNeurons := (completionTokens * OUTPUT_TOKEN_NEURON_RATE)%float in
  (inputNeurons + outputNeurons)%float.

Definition formatNeurons `{NumberConversions} (neurons : number) : string :=
  if (neurons <? 1000)%float then toFixed neurons 2
  else if (neurons <? 1000000)%float then toFixed (neurons / 1000)%float 2 ++ "k"
  else toFixed (neurons / 1000000)%float 4 ++ "M".

Record CostEstimate := {
  inputCost : number;
  outputCost : number;
  totalCost : number
}.

Definition estimateCost (promptTokens completionTokens : number) : CostEstimate :=
  let INPUT_COST_PER_TOKEN := (0.293 / 1000000)%float in
  let OUTPUT_COST_PER_TOKEN := (2.253 / 1000000)%float in
  {| inputCost := (promptTokens * INPUT_COST_PER_TOKEN)%float;
     outputCost := (completionTokens * OUTPUT_COST_PER_TOKEN)%float;
     totalCost := (promptTokens * INPUT_COST_PER_TOKEN
                   + completionTokens * OUTPUT_COST_PER_TOKEN)%float |}.

(** ** The worker's environment

    The contents of the [NEURON_LIMITER] namespace and the console are the
    state a request reads and writes. What a request cannot decide --
    the clock, whether the KV binding rejects a call, what the AI binding
    answers -- is its [Ambient] input. *)

Record KVEntry := {
  value : string;
  expiration : Z        (* instant, in seconds, at which the entry expires *)
}.

Record World := {
  NEURON_LIMITER : gmap string KVEntry;
  console : list string
}.

Inductive outcome (A : Type) : Type :=
| Returned (a : A)
| Thrown.
Arguments Returned {A} a.
Arguments Thrown {A}.

Record AIUsage := {
  prompt_tokens : number;
  completion_tokens : number;
  total_tokens : number
}.

(** An absent property is [None]. *)
Record AIResponse := {
  response : option string;
  content : option string;
  answer : option string;
  usage : option AIUsage
}.

Inductive Role := system | user | assistant.

(** The content of a message: a string or, where the code reads it from an
    object under a name that the object only inherits, the member of
    [Object.prototype] of that name, which is not a string. *)
Inductive Content :=
| Text (s : string)
| Inherited (name : string).

Record ChatMessage := { role : Role; msg_content : Content }.

(** The second argument of [env.AI.run]. *)
Record AIRunInput := {
  messages : list ChatMessage;
  max_tokens : Z;
  temperature : number
}.

Record Ambient := {
  now : Z;                  (* the clock of the KV store, in seconds *)
  isoNow : string;          (* [new Date().toISOString()] *)
  get_rejects : bool;       (* [NEURON_LIMITER.get] throws *)
  put_rejects : bool;       (* [NEURON_LIMITER.put] throws *)
  AI_run : string -> AIRunInput -> outcome AIResponse   (* [env.AI.run] *)
}.

(** State passing over the world. *)
Definition M (A : Type) : Type := World -> A * World.

Definition ret {A} (a : A) : M A := fun w => (a, w).

Definition bind {A B} (m : M A) (k : A -> M B) : M B :=
  fun w => let (a, w') := m w in k a w'.

Notation "'let*' x ':=' m 'in' k" := (bind m (fun x => k))
  (at level 10, x name, m at level 100, k at level 200).

Definition console_error (msg : string) : M unit :=
  fun w => (tt, {| NEURON_LIMITER := NEURON_LIMITER w;
                   console := console w ++ [msg] |}).

(** [await env.NEURON_LIMITER.get(key)]: the value of a live entry. *)
Definition KV_get (amb : Ambient) (key : string) : M (outcome (option string)) :=
  fun w =>
    if get_rejects amb then (Thrown, w)
    else
      (Returned
         match NEURON_LIMITER w !! key with
         | Some e => if (now amb <? expiration e)%Z then Some (value e) else None
         | None => None
         end, w).

(** [await env.NEURON_LIMITER.put(key, value, { expirationTtl })]. *)
Definition KV_put (amb : Ambient) (key val : string) (expirationTtl : Z)
  : M (outcome unit) :=
  fun w =>
    if put_rejects amb then (Thrown, w)
    else
      (Returned tt,
       {| NEURON_LIMITER :=
            <[key := {| value := val; expiration := (now amb + expirationTtl)%Z |}]>
              (NEURON_LIMITER w);
          console := console w |}).

(** [new Date().toISOString().split('T')[0]]. *)
Definition today (amb : Ambient) : string :=
  hd "" (split_runs (Ascii.eqb "T") false (isoNow amb)).

(** ** utils.ts: the daily limit *)

Record LimitCheck := {
  allowed : bool;
  consumed : number;
  remaining : number;
  dailyLimit : number;
  message : option string
}.

Definition DAILY_NEURON_LIMIT : number := 10000%float.

Definition KV_KEY (amb : Ambient) : string := "neuron_usage:" ++ today amb.

(** The first [try] block: the stored total, or 0 when there is none or the
    read throws. *)
Definition read_currentNeurons `{NumberConversions} (amb : Ambient) : M number :=
  let* r := KV_get amb (KV_KEY amb) in
  match r with
  | Returned stored =>
      ret match stored with
          | Some stored => if truthy stored then parseFloat stored else 0%float
          | None => 0%float
          end
  | Thrown => let* _ := console_error "Error reading neuron usage:" in ret 0%float
  end.

Definition checkAndUpdateNeuronLimit `{NumberConversions} (amb : Ambient)
    (promptTokens completionTokens : number) : M LimitCheck :=
  let consumedNeurons := calculateNeuronsConsumed promptTokens completionTokens in
  let* currentNeurons := read_currentNeurons amb in
  let newTotal := (currentNeurons + consumedNeurons)%float in
  if (DAILY_NEURON_LIMIT <? newTotal)%float then
    ret {| allowed := false;
           consumed := consumedNeurons;
           remaining := Math_max 0 (DAILY_NEURON_LIMIT - currentNeurons)%float;
           dailyLimit := DAILY_NEURON_LIMIT;
           message := Some ("Batas harian neuron terlampaui. Tersisa: "
                            ++ formatNeurons (DAILY_NEURON_LIMIT - currentNeurons)%float
                            ++ " neurons") |}
  else
    let* r := KV_put amb (KV_KEY amb) (Number_toString newTotal) 86400 in
    let* _ := match r with
         | Returned _ => ret tt
         | Thrown => console_error "Error updating neuron usage:"
         end in
    ret {| allowed := true;
           consumed := consumedNeurons;
           remaining := (DAILY_NEURON_LIMIT - newTotal)%float;
           dailyLimit := DAILY_NEURON_LIMIT;
           message := None |}.

(** [Math.ceil]. *)
Definition Math_ceil (x : number) : number :=
  match Prim2SF x with
  | S754_finite s m e =>
      if (0 <=? e)%Z then x
      else
        let q := (Zpos m / 2 ^ (- e))%Z in
        if s then (- of_Z q)%float
        else if (Zpos m mod 2 ^ (- e) =? 0)%Z then of_Z q else of_Z (q + 1)
  | _ => x
  end.

Definition estimateTokens (text : string) : number :=
  Math_ceil (of_Z (Z.of_nat (String.length text)) / 4)%float.

(** ** utils.ts: the response *)

Module VerseData.
Record t := {
  surah_id : Z;
  surah_name : string;
  surah_name_arabic : string;
  verse_id : Z;
  verse_arabic : string;
  verse_translation : string;
  reference : option string
}.
End VerseData.

Record TokenUsage := { input : number; output : number; total : number }.

Record NeuronUsage := {
  neurons_consumed : number;
  formatted : string;
  neurons_remaining : number;
  daily_limit : number
}.

Record CostStrings := { input_usd : string; output_usd : string; total_usd : string }.

Record UsageInfo := {
  tokens : TokenUsage;
  neurons : NeuronUsage;
  cost_estimate : CostStrings
}.

Record LimitInfo := {
  li_consumed : number;
  li_remaining : number;
  li_daily_limit : number;
  li_message : option string
}.

Module AIResponseOutput.
Record t := {
  success : bool;
  answer : string;
  verses_data : list VerseData.t;
  language : string;
  timestamp : string;
  disclaimer : string;
  usage : option UsageInfo;
  error : option string;
  limit_info : option LimitInfo
}.
End AIResponseOutput.

(** The projection every branch applies to the ranked verses. *)
Definition verse_data (v : RelevantVerse) : VerseData.t := {|
  VerseData.surah_id := surah_id v;
  VerseData.surah_name := surah_name v;
  VerseData.surah_name_arabic := surah_name_arabic v;
  VerseData.verse_id := verse_id v;
  VerseData.verse_arabic := verse_text_arabic v;
  VerseData.verse_translation := verse_text_translation v;
  VerseData.reference := reference v
|}.

Definition formatResponse (amb : Ambient) (aiAnswer : string)
    (relevantVerses : list RelevantVerse) (language : string)
    (usageInfo : option UsageInfo) : AIResponseOutput.t := {|
  AIResponseOutput.success := true;
  AIResponseOutput.answer := aiAnswer;
  AIResponseOutput.verses_data := map verse_data relevantVerses;
  AIResponseOutput.language := language;
  AIResponseOutput.timestamp := isoNow amb;
  AIResponseOutput.disclaimer :=
    if String.eqb language "id"
    then "Jawaban AI untuk referensi. Verifikasi dengan ulama dan tafsir sahih."
    else "AI answer for reference. Verify with scholars and authentic tafsir.";
  AIResponseOutput.usage := usageInfo;
  AIResponseOutput.error := None;
  AIResponseOutput.limit_info := None
|}.

(** ** index.ts: the [/api/ask] branch of [fetchHandler] *)

Definition MODEL_ID : string := "@cf/meta/llama-3.3-70b-instruct-fp8-fast".

Definition SYSTEM_PROMPTS_id : string :=
  "Anda adalah asisten AI khusus Al-Quran yang sangat berpengetahuan.
  Nama Anda: Ustad AI.
  Tugas Anda:
  1. Hanya menjawab berdasarkan Al-Quran dan tafsir yang sahih
  2. Jika tidak tahu, katakan dengan jujur
  3. Selalu sertakan referensi ayat Al-Quran
  4. Gunakan bahasa Indonesia yang baik dan mudah dipahami
  5. Berikan penjelasan yang jelas dan mendidik
  6. Hindari spekulasi atau pendapat pribadi

  Sifat Anda:
  - Santun dan sabar
  - Ilmiah dan objektif
  - Berbasis dalil yang kuat
  - Mengutamakan kebenaran".

Definition SYSTEM_PROMPTS_en : string :=
  "You are a knowledgeable Quran AI assistant.
  Your name: Ustad AI.
  Your responsibilities:
  1. Answer only based on the Quran and authentic interpretations
  2. If you don't know, say so honestly
  3. Always include Quran verse references
  4. Use clear and understandable English
  5. Provide clear and educational explanations
  6. Avoid speculation or personal opinions

  Your character:
  - Polite and patient
  - Scientific and objective
  - Based on strong evidence
  - Prioritizing truth".

(** The names under which an object literal finds a member of
    [Object.prototype]: its twelve properties, those of Annex B among
    them. Each is a function, but for [__proto__], which is the prototype
    itself; all are truthy. *)
Definition Object_prototype_members : list string := [
  "constructor"; "__defineGetter__"; "__defineSetter__"; "hasOwnProperty";
  "__lookupGetter__"; "__lookupSetter__"; "isPrototypeOf";
  "propertyIsEnumerable"; "toString"; "valueOf"; "__proto__";
  "toLocaleString"
].

Definition inherited (name : string) : bool :=
  existsb (String.eqb name) Object_prototype_members.

(** [SYSTEM_PROMPTS[language]]: an own property of the object literal, or
    an inherited member; [None] is [undefined]. *)
Definition SYSTEM_PROMPTS (language : string) : option Content :=
  if String.eqb language "id" then Some (Text SYSTEM_PROMPTS_id)
  else if String.eqb language "en" then Some (Text SYSTEM_PROMPTS_en)
  else if inherited language then Some (Inherited language)
  else None.

(** [ToString] of a content, as [+] with a string applies it: an inherited
    function gives its source text, the prototype [[object Object]]. *)
Definition Content_toString `{NumberConversions} (c : Content) : string :=
  match c with
  | Text s => s
  | Inherited name =>
      if String.eqb name "__proto__" then "[object Object]"
      else Function_toString name
  end.

(** [a || b] where [a] may be an absent property. *)
Definition prop_or_else (a : option string) (b : string) : string :=
  match a with
  | Some a => or_else a b
  | None => b
  end.

(** [n || d] on numbers: 0, -0, NaN and an absent value are falsy. *)
Definition num_or_else (n : option number) (d : number) : number :=
  match n with
  | Some n => if (is_zero n || is_nan n)%bool then d else n
  | None => d
  end.

Record AIRequest := {
  question : option string;
  req_language : option string
}.

Inductive ResponseBody :=
| ErrorBody (error : string) (message suggestion : option string)
| AskBody (body : AIResponseOutput.t).

Record Response := { status : Z; json : ResponseBody }.

Definition limit_exceeded_response (amb : Ambient) (question language : string)
    (relevantVerses : list RelevantVerse) (limitCheck : LimitCheck)
  : AIResponseOutput.t :=
  let fallbackAnswer :=
    if String.eqb language "id"
    then "Batas harian neuron terlampaui. Berikut ayat-ayat terkait " ++ dq ++ question ++ dq ++ ":"
    else "Daily neuron limit exceeded. Here are relevant Quran verses about " ++ dq ++ question ++ dq ++ ":" in
  {| AIResponseOutput.success := false;
     AIResponseOutput.answer := fallbackAnswer;
     AIResponseOutput.verses_data := map verse_data relevantVerses;
     AIResponseOutput.language := language;
     AIResponseOutput.timestamp := isoNow amb;
     AIResponseOutput.error := Some "neuron_limit_exceeded";
     AIResponseOutput.disclaimer :=
       if String.eqb language "id"
       then "AI sedang offline karena batas harian neuron. Hanya menampilkan ayat-ayat Al-Quran yang relevan."
       else "AI is offline due to daily neuron limit. Only displaying relevant Quran verses.";
     AIResponseOutput.usage := None;
     AIResponseOutput.limit_info := Some {|
       li_consumed := consumed limitCheck;
       li_remaining := remaining limitCheck;
       li_daily_limit := dailyLimit limitCheck;
       li_message := message limitCheck |} |}.

(** The [catch (aiError)] block. *)
Definition ai_error_response (amb : Ambient) (question language : string)
    (relevantVerses : list RelevantVerse) : AIResponseOutput.t :=
  let fallbackAnswer :=
    if String.eqb language "id"
    then "Berdasarkan pertanyaan Anda tentang " ++ dq ++ question ++ dq ++ ", berikut beberapa ayat Al-Quran yang relevan:"
    else "Based on your question about " ++ dq ++ question ++ dq ++ ", here are some relevant Quran verses:" in
  {| AIResponseOutput.success := false;
     AIResponseOutput.answer := fallbackAnswer;
     AIResponseOutput.verses_data := map verse_data relevantVerses;
     AIResponseOutput.language := language;
     AIResponseOutput.timestamp := isoNow amb;
     AIResponseOutput.error := Some "AI service temporarily unavailable";
     AIResponseOutput.disclaimer :=
       if String.eqb language "id"
       then "AI sedang mengalami gangguan. Hanya menampilkan ayat-ayat Al-Quran yang relevan."
       else "AI service is currently unavailable. Only displaying relevant Quran verses.";
     AIResponseOutput.usage := None;
     AIResponseOutput.limit_info := None |}.

(** The answer text, probed under three property names. *)
Definition answer_of (aiResponse : AIResponse) : string :=
  prop_or_else (response aiResponse)
    (prop_or_else (content aiResponse)
       (prop_or_else (answer aiResponse) "")).

(** The token counts: those the gateway reports, else estimates. *)
Definition promptTokens_of `{NumberConversions} (aiResponse : AIResponse)
    (systemPrompt : Content) (userPrompt : string) : number :=
  num_or_else (option_map prompt_tokens (usage aiResponse))
    (estimateTokens (Content_toString systemPrompt ++ userPrompt)).

Definition completionTokens_of (aiResponse : AIResponse) (aiAnswer : string)
  : number :=
  num_or_else (option_map completion_tokens (usage aiResponse))
    (estimateTokens aiAnswer).

(** The inner [try] block once [env.AI.run] has returned. *)
Definition after_generation `{NumberConversions} (amb : Ambient)
    (question language : string) (systemPrompt : Content) (userPrompt : string)
    (relevantVerses : list RelevantVerse) (aiResponse : AIResponse)
  : M Response :=
  let aiAnswer := answer_of aiResponse in
  let promptTokens := promptTokens_of aiResponse systemPrompt userPrompt in
  let completionTokens := completionTokens_of aiResponse aiAnswer in
  let* limitCheck := checkAndUpdateNeuronLimit amb promptTokens completionTokens in
  if negb (allowed limitCheck) then
    ret {| status := 200;
           json := AskBody (limit_exceeded_response amb question language
                              relevantVerses limitCheck) |}
  else
    let costEstimate := estimateCost promptTokens completionTokens in
    let formattedResponse :=
      formatResponse amb aiAnswer relevantVerses language
        (Some {|
           tokens := {| input := promptTokens;
                        output := completionTokens;
                        total := (promptTokens + completionTokens)%float |};
           neurons := {| neurons_consumed := consumed limitCheck;
                         formatted := formatNeurons (consumed limitCheck);
                         neurons_remaining := remaining limitCheck;
                         daily_limit := dailyLimit limitCheck |};
           cost_estimate := {| input_usd := toFixed (inputCost costEstimate) 6;
                               output_usd := toFixed (outputCost costEstimate) 6;
                               total_usd := toFixed (totalCost costEstimate) 6 |}
         |}) in
    ret {| status := 200; json := AskBody formattedResponse |}.

(** [SYSTEM_PROMPTS[language] || SYSTEM_PROMPTS.id]. *)
Definition system_prompt_for (language : string) : Content :=
  match SYSTEM_PROMPTS language with
  | Some (Text prompt) => Text (or_else prompt SYSTEM_PROMPTS_id)
  | Some (Inherited name) => Inherited name
  | None => Text SYSTEM_PROMPTS_id
  end.

Definition ask_messages (question language : string)
    (relevantVerses : list RelevantVerse) : list ChatMessage :=
  let systemPrompt := system_prompt_for language in
  let userPrompt := createQuranPrompt question relevantVerses language in
  [ {| role := system; msg_content := systemPrompt |};
    {| role := user; msg_content := Text userPrompt |} ].

(** [{ messages, max_tokens: 512, temperature: 0.7 }]. *)
Definition ask_input (question language : string)
    (relevantVerses : list RelevantVerse) : AIRunInput := {|
  messages := ask_messages question language relevantVerses;
  max_tokens := 512;
  temperature := 0.7
|}.

(** [fetchHandler] on [POST /api/ask] with the parsed request body, once
    [loadQuranData] has returned [quranData]. *)
Definition fetchHandler_ask `{NumberConversions} (amb : Ambient)
    (quranData : list QuranSurah.t) (body : AIRequest) : M Response :=
  match quranData with
  | [] =>
    let* _ := console_error "Error:" in
    ret {| status := 500;
           json := ErrorBody "Internal server error"
                     (Some "Quran data not available") None |}
  | _ :: _ =>
    let question := prop_or_else (question body) "" in
    let language := match req_language body with Some l => l | None => "id" end in
    if negb (truthy question) then
      ret {| status := 400; json := ErrorBody "Question is required" None None |}
    else if (500 <? String.length question)%nat then
      ret {| status := 400;
             json := ErrorBody "Pertanyaan terlalu panjang"
                       (Some "Maksimal 500 karakter")
                       (Some "Sederhanakan pertanyaan Anda") |}
    else
      let keywords := extractKeywords question in
      let relevantVerses := findRelevantVerses quranData keywords 3 in
      let systemPrompt := system_prompt_for language in
      let userPrompt := createQuranPrompt question relevantVerses language in
      match AI_run amb MODEL_ID (ask_input question language relevantVerses) with
      | Returned aiResponse =>
          after_generation amb question language systemPrompt userPrompt
            relevantVerses aiResponse
      | Thrown =>
          let* _ := console_error "AI Error:" in
          ret {| status := 200;
                 json := AskBody (ai_error_response amb question language
                                    relevantVerses) |}
      end
  end.

(** ** More of the JavaScript library *)

(** [Math.floor]. *)
Definition Math_floor (x : number) : number :=
  match Prim2SF x with
  | S754_finite s m e =>
      if (0 <=? e)%Z then x
      else
        let q := (Zpos m / 2 ^ (- e))%Z in
        if s then
          if (Zpos m mod 2 ^ (- e) =? 0)%Z then (- of_Z q)%float
          else (- of_Z (q + 1))%float
        else of_Z q
  | _ => x
  end.

(** [l[x]] for a number [x]: the element at that index when [x] is an
    integer that is not negative, [undefined] otherwise. *)
Definition Array_at {A} (l : list A) (x : number) : option A :=
  match Prim2SF x with
  | S754_zero _ => nth_error l 0
  | S754_finite false m e =>
      if (0 <=? e)%Z then nth_error l (Z.to_nat (Zpos m * 2 ^ e))
      else if (Zpos m mod 2 ^ (- e) =? 0)%Z
           then nth_error l (Z.to_nat (Zpos m / 2 ^ (- e)))
           else None
  | _ => None
  end.

(** The value of a character as a digit in the given radix (10 or 16). *)
Definition digit_value (radix : Z) (c : ascii) : option Z :=
  let n := Z.of_N (code c) in
  if in_range 48 57 c then Some (n - 48)%Z
  else if (radix =? 16)%Z && in_range 97 102 c then Some (n - 87)%Z
  else if (radix =? 16)%Z && in_range 65 70 c then Some (n - 55)%Z
  else None.

(** The integer written by the longest prefix of digits of [s], continuing
    [acc]; [None] when no digit has been read. *)
Fixpoint read_digits (radix : Z) (s : string) (acc : option Z) : option Z :=
  match s with
  | EmptyString => acc
  | String c r =>
      match digit_value radix c with
      | Some d =>
          read_digits radix r
            (Some (match acc with Some a => a * radix + d | None => d end)%Z)
      | None => acc
      end
  end.

Fixpoint skip_whitespace (s : string) : string :=
  match s with
  | String c r => if is_space c then skip_whitespace r else s
  | EmptyString => s
  end.

(** After the sign: an optional [0x] or [0X] selects radix 16. *)
Definition read_unsigned (s : string) : option Z :=
  match s with
  | String "0" (String x r) =>
      if (Ascii.eqb x "x" || Ascii.eqb x "X")%bool then read_digits 16 r None
      else read_digits 10 s None
  | _ => read_digits 10 s None
  end.

(** [parseInt(s)]: the integer, or [None] for NaN. *)
Definition parseInt (s : string) : option Z :=
  match skip_whitespace s with
  | String "-" r => option_map Z.opp (read_unsigned r)
  | String "+" r => read_unsigned r
  | t => read_unsigned t
  end.

(** [ToIntegerOrInfinity] of the result of [parseInt]: NaN counts as 0. *)
Definition to_integer (n : option Z) : Z :=
  match n with Some z => z | None => 0%Z end.

(** [l.map((x, index) => f(x, index))]. *)
Fixpoint mapi_from {A B} (f : A -> Z -> B) (index : Z) (l : list A) : list B :=
  match l with
  | [] => []
  | x :: r => f x index :: mapi_from f (index + 1) r
  end.

Definition mapi {A B} (f : A -> Z -> B) (l : list A) : list B :=
  mapi_from f 0 l.

(** ** utils.ts: loading the corpus *)

(** The JSON document of the remote API; an absent property is [None]. *)
Module Api.
Record ayah := { text : option string; translation : option string }.
Record surah := {
  englishName : option string;
  englishNameTranslation : option string;
  name : option string;
  revelationType : option string;
  ayahs : option (list ayah)
}.
Record payload := { surahs : option (list surah) }.
Record response := { code : option number; data : option payload }.
End Api.

(** The four Arabic verse texts of the embedded dataset. They are written
    in code units above U+00FF, outside the strings modelled here, and are
    taken as given. *)
Record ArabicTexts := {
  fatihah_1 : string;
  fatihah_2 : string;
  baqarah_1 : string;
  baqarah_2 : string
}.

(** The process: the module variable [quranData], and the world. *)
Record Process := {
  quranData : list QuranSurah.t;
  world : World
}.

Definition console_log (msg : string) (w : World) : World :=
  {| NEURON_LIMITER := NEURON_LIMITER w; console := console w ++ [msg] |}.

Definition loadFallbackData (arabic : ArabicTexts) (w : World)
  : list QuranSurah.t * World :=
  ([ {| QuranSurah.id := 1;
        QuranSurah.name := "Al-Fatihah";
        QuranSurah.transliteration := "Al-Fatihah";
        QuranSurah.translation := "Pembukaan";
        QuranSurah.type := "Makkiyah";
        QuranSurah.total_verses := 7;
        QuranSurah.verses := [
          {| QuranVerse.id := 1; QuranVerse.text := fatihah_1 arabic;
             QuranVerse.translation :=
               "Dengan menyebut nama Allah Yang Maha Pengasih lagi Maha Penyayang." |};
          {| QuranVerse.id := 2; QuranVerse.text := fatihah_2 arabic;
             QuranVerse.translation :=
               "Segala puji bagi Allah, Tuhan semesta alam." |} ] |};
     {| QuranSurah.id := 2;
        QuranSurah.name := "Al-Baqarah";
        QuranSurah.transliteration := "Al-Baqarah";
        QuranSurah.translation := "Sapi Betina";
        QuranSurah.type := "Madaniyah";
        QuranSurah.total_verses := 286;
        QuranSurah.verses := [
          {| QuranVerse.id := 1; QuranVerse.text := baqarah_1 arabic;
             QuranVerse.translation := "Alif Lam Mim." |};
          {| QuranVerse.id := 2; QuranVerse.text := baqarah_2 arabic;
             QuranVerse.translation :=
               "Kitab (Al-Quran) ini tidak ada keraguan padanya; petunjuk bagi mereka yang bertakwa." |} ] |} ],
   console_log "Loading fallback Quran data..." w).

(** The callback of [surah.ayahs.map]. *)
Definition verse_of_ayah (ayah : Api.ayah) (ayahIndex : Z) : QuranVerse.t := {|
  QuranVerse.id := ayahIndex + 1;
  QuranVerse.text := prop_or_else (Api.text ayah) "";
  QuranVerse.translation := prop_or_else (Api.translation ayah) ""
|}.

(** The callback of [data.data.surahs.map]. *)
Definition surah_of_api (surah : Api.surah) (index : Z) : QuranSurah.t := {|
  QuranSurah.id := index + 1;
  QuranSurah.name :=
    prop_or_else (Api.englishName surah) ("Surah " ++ Z_toString (index + 1));
  QuranSurah.transliteration := prop_or_else (Api.englishNameTranslation surah) "";
  QuranSurah.translation := prop_or_else (Api.name surah) "";
  QuranSurah.type :=
    match Api.revelationType surah with
    | Some t => if String.eqb t "Meccan" then "Makkiyah" else "Madaniyah"
    | None => "Madaniyah"
    end;
  QuranSurah.total_verses :=
    match Api.ayahs surah with
    | Some ayahs => Z.of_nat (length ayahs)
    | None => 0
    end;
  QuranSurah.verses :=
    match Api.ayahs surah with
    | Some ayahs => mapi verse_of_ayah ayahs
    | None => []
    end
|}.

(** The surahs of a document that passes
    [data.code === 200 && data.data && data.data.surahs]. *)
Definition accepted_surahs (data : Api.response) : option (list Api.surah) :=
  match Api.code data with
  | Some c =>
      if (c =? 200)%float then
        match Api.data data with
        | Some d => Api.surahs d
        | None => None
        end
      else None
  | None => None
  end.

(** [loadQuranData]; [fetched] is what [fetch] and [response.json()] give,
    [Thrown] when either fails. *)
Definition loadQuranData (arabic : ArabicTexts) (fetched : outcome Api.response)
    (p : Process) : list QuranSurah.t * Process :=
  match quranData p with
  | _ :: _ => (quranData p, p)
  | [] =>
      let (loaded, w) :=
        match fetched with
        | Returned data =>
            match accepted_surahs data with
            | Some surahs => (mapi surah_of_api surahs, world p)
            | None => loadFallbackData arabic (world p)
            end
        | Thrown =>
            loadFallbackData arabic
              (console_log "Failed to load Quran data from API:" (world p))
        end in
      (loaded, {| quranData := loaded; world := w |})
  end.

(** ** index.ts: [fetchHandler] *)

(** The parsed JSON body of a request: the properties the routes read. *)
Record RequestBody := {
  ask : AIRequest;
  chat_messages : option (list ChatMessage)
}.

Record Request := {
  method : string;
  pathname : string;                        (* [new URL(request.url).pathname] *)
  searchParams : string -> option string;   (* [url.searchParams.get] *)
  json_body : outcome RequestBody           (* [await request.json()] *)
}.

(** What JSON writes for a property that holds a value: a string, or the
    text of a value of another kind. *)
Inductive JsonValue :=
| JsonString (s : string)
| JsonOther (text : string).

(** A thrown value, as the outer [catch] uses it: one on which reading
    [message] or [stack], or writing the answer, throws in turn
    ([undefined] and [null] are such); or one from which the answer is
    built, with what JSON writes for its [message], [None] when the
    property is left out. *)
Inductive ErrorValue :=
| Unreadable
| Readable (message : option JsonValue).

(** What the runtime supplies to one request, besides the [Ambient] of the
    ask route: the outcome of the corpus download, the two results of
    [Math.random()], and the values thrown where a call fails: what
    reading the body of the request ([request.json()] and the
    destructuring of its result) throws, what [env.AI.run] rejects with on
    the chat route, and the message of the [TypeError] the engine raises
    when the named property is read on [undefined]. *)
Record Runtime := {
  ambient : Ambient;
  fetched : outcome Api.response;
  random_first : number;
  random_second : number;
  json_error : ErrorValue;
  ai_error : ErrorValue;
  type_error : string -> string
}.

Definition corsHeaders : list (string * string) := [
  ("Access-Control-Allow-Origin", "*");
  ("Access-Control-Allow-Methods", "GET, POST, OPTIONS");
  ("Access-Control-Allow-Headers", "Content-Type, Authorization");
  ("Access-Control-Max-Age", "86400")
].

Record SurahSummary := {
  sum_id : Z;
  sum_name : string;
  sum_transliteration : string;
  sum_translation : string;
  sum_type : string;
  sum_total_verses : Z
}.

Record RandomVerse := {
  rnd_surah_id : Z;
  rnd_surah_name : string;
  rnd_surah_translation : string;
  rnd_verse_id : Z;
  rnd_verse_text : string;
  rnd_verse_translation : string;
  rnd_reference : string;
  rnd_message : string
}.

Inductive HttpBody :=
| NoBody
| InfoBody (name version : string) (endpoints : list (string * string))
| HealthBody (status timestamp ai_model : string)
| SurahListBody (surahs : list SurahSummary)
| SurahBody (surah : QuranSurah.t)
| SearchBody (query : string) (total_results : Z) (results : list RelevantVerse)
| RandomBody (verse : RandomVerse)
| NoVersesBody (error : string) (surah_id : Z) (surah_name : string)
| ChatBody (response : AIResponse)
| JsonBody (body : ResponseBody)
| InternalErrorBody (error : string) (message : option JsonValue).

Record HttpResponse := {
  http_status : Z;
  http_headers : list (string * string);
  http_body : HttpBody
}.

Definition respond (status : Z) (body : HttpBody) : HttpResponse :=
  {| http_status := status; http_headers := corsHeaders; http_body := body |}.

(** The outer [catch (error)]: the error is logged, then the answer is
    built from [error.message] and [error.stack]. Where that throws, the
    handler itself rejects, [Thrown], and there is no response.
    [error.stack] is not modelled. *)
Definition internal_error (error : ErrorValue) (p : Process)
  : outcome HttpResponse * Process :=
  let p := {| quranData := quranData p;
              world := console_log "Error:" (world p) |} in
  match error with
  | Unreadable => (Thrown, p)
  | Readable message =>
      (Returned (respond 500 (InternalErrorBody "Internal server error" message)),
       p)
  end.

(** [new Error(message)], and the engine's [TypeError]. *)
Definition own_error (message : string) : ErrorValue :=
  Readable (Some (JsonString message)).

Definition is_digit (c : ascii) : bool := in_range 48 57 c.

Fixpoint all_digits (s : string) : bool :=
  match s with
  | EmptyString => true
  | String c r => is_digit c && all_digits r
  end.

(** [path.match(/^\/api\/surah\/(\d+)$/)]: the digits captured. *)
Definition surah_path_id (path : string) : option string :=
  if String.prefix "/api/surah/" path then
    let digits := substring 11 (String.length path - 11) path in
    if truthy digits && all_digits digits then Some digits else None
  else None.

Definition summary_of (surah : QuranSurah.t) : SurahSummary := {|
  sum_id := QuranSurah.id surah;
  sum_name := QuranSurah.name surah;
  sum_transliteration := QuranSurah.transliteration surah;
  sum_translation := QuranSurah.translation surah;
  sum_type := QuranSurah.type surah;
  sum_total_verses := QuranSurah.total_verses surah
|}.

(** [GET /api/surah/:id]. *)
Definition route_surah (data : list QuranSurah.t) (digits : string)
  : HttpResponse :=
  let surahId := parseInt digits in
  match surahId with
  | Some surahId =>
      match find (fun s => (QuranSurah.id s =? surahId)%Z) data with
      | Some surah => respond 200 (SurahBody surah)
      | None => respond 404 (JsonBody (ErrorBody "Surah not found" None None))
      end
  | None => respond 404 (JsonBody (ErrorBody "Surah not found" None None))
  end.

(** [GET /api/search]. *)
Definition route_search (data : list QuranSurah.t)
    (params : string -> option string) : HttpResponse :=
  let query := prop_or_else (params "q") "" in
  let limit := parseInt (prop_or_else (params "limit") "10") in
  if negb (truthy query) then
    respond 400
      (JsonBody (ErrorBody ("Query parameter " ++ dq ++ "q" ++ dq ++ " is required")
                   None None))
  else
    let keywords := extractKeywords query in
    let results := findRelevantVerses data keywords (to_integer limit) in
    respond 200 (SearchBody query (Z.of_nat (length results)) results).

(** [GET /api/random]; when an array access gives [undefined], the name
    of the property whose read on it throws. *)
Definition route_random (data : list QuranSurah.t) (rt : Runtime)
  : HttpResponse + string :=
  match Array_at data
          (Math_floor (random_first rt * of_Z (Z.of_nat (length data)))%float) with
  | None => inr "verses"
  | Some randomSurah =>
      match QuranSurah.verses randomSurah with
      | [] =>
          inl (respond 404
                 (NoVersesBody "No verses available"
                    (QuranSurah.id randomSurah) (QuranSurah.name randomSurah)))
      | verses =>
          match Array_at verses
                  (Math_floor (random_second rt
                               * of_Z (Z.of_nat (length verses)))%float) with
          | None => inr "id"
          | Some randomVerse =>
              inl (respond 200 (RandomBody {|
                rnd_surah_id := QuranSurah.id randomSurah;
                rnd_surah_name := QuranSurah.name randomSurah;
                rnd_surah_translation := QuranSurah.translation randomSurah;
                rnd_verse_id := QuranVerse.id randomVerse;
                rnd_verse_text := QuranVerse.text randomVerse;
                rnd_verse_translation := QuranVerse.translation randomVerse;
                rnd_reference :=
                  QuranSurah.name randomSurah ++ " ("
                  ++ Z_toString (QuranSurah.id randomSurah) ++ ":"
                  ++ Z_toString (QuranVerse.id randomVerse) ++ ")";
                rnd_message := "Random verse from the Holy Quran" |}))
          end
      end
  end.

Definition is_system (msg : ChatMessage) : bool :=
  match role msg with system => true | _ => false end.

Definition default_system_message : ChatMessage := {|
  role := system;
  msg_content :=
    Text "You are a helpful, friendly assistant. Provide concise and accurate responses."
|}.

(** The messages [POST /api/chat] sends: [messages.unshift] when no
    message has the system role. *)
Definition chat_input (body : RequestBody) : AIRunInput :=
  let messages := match chat_messages body with Some m => m | None => [] end in
  {| messages := if existsb is_system messages then messages
                 else default_system_message :: messages;
     max_tokens := 512;
     temperature := 0.7 |}.

Definition fetchHandler `{NumberConversions} (arabic : ArabicTexts)
    (rt : Runtime) (request : Request) (p : Process)
  : outcome HttpResponse * Process :=
  let path := pathname request in
  let method := method request in
  if String.eqb method "OPTIONS" then
    (Returned {| http_status := 200; http_headers := corsHeaders;
                 http_body := NoBody |}, p)
  else if String.eqb path "/" || String.eqb path "/api" then
    (Returned
       (respond 200
          (InfoBody "Quran AI API" "1.0.0" [
             ("/api/ask", "Ask Quran questions (POST)");
             ("/api/surah", "Get all surahs (GET)");
             ("/api/surah/:id", "Get specific surah (GET)");
             ("/api/search", "Search verses (GET)");
             ("/api/random", "Random verse (GET)");
             ("/api/health", "Health check (GET)") ])), p)
  else if String.eqb path "/api/health" then
    (Returned (respond 200 (HealthBody "healthy" (isoNow (ambient rt)) MODEL_ID)),
     p)
  else
    let (data, p) := loadQuranData arabic (fetched rt) p in
    match data with
    | [] => internal_error (own_error "Quran data not available") p
    | _ :: _ =>
      if String.eqb path "/api/surah" && String.eqb method "GET" then
        (Returned (respond 200 (SurahListBody (map summary_of data))), p)
      else
        match (if String.eqb method "GET" then surah_path_id path else None) with
        | Some digits => (Returned (route_surah data digits), p)
        | None =>
          if String.eqb path "/api/search" && String.eqb method "GET" then
            (Returned (route_search data (searchParams request)), p)
          else if String.eqb path "/api/random" && String.eqb method "GET" then
            match route_random data rt with
            | inl r => (Returned r, p)
            | inr property => internal_error (own_error (type_error rt property)) p
            end
          else if String.eqb path "/api/ask" && String.eqb method "POST" then
            match json_body request with
            | Thrown => internal_error (json_error rt) p
            | Returned body =>
                let (r, w) := fetchHandler_ask (ambient rt) data (ask body) (world p) in
                (Returned (respond (status r) (JsonBody (json r))),
                 {| quranData := quranData p; world := w |})
            end
          else if String.eqb path "/api/chat" && String.eqb method "POST" then
            match json_body request with
            | Thrown => internal_error (json_error rt) p
            | Returned body =>
                match AI_run (ambient rt) MODEL_ID (chat_input body) with
                | Returned response =>
                    (Returned (respond 200 (ChatBody response)), p)
                | Thrown => internal_error (ai_error rt) p
                end
            end
          else
            (Returned
               (respond 404 (JsonBody (ErrorBody "Endpoint not found" None None))),
             p)
        end
    end.

(* ================================================================== *)
(** * Part II. Notions used in the statements                          *)
(* ================================================================== *)

(** ** Metering *)

(** The total a call finds in the store: what [read_currentNeurons]
    returns. *)
Definition current_total `{NumberConversions} (amb : Ambient) (w : World) : number :=
  fst (read_currentNeurons amb w).

(** The total recorded under [key], whether or not its entry is live. *)
Definition stored_total `{NumberConversions} (w : World) (key : string) : number :=
  match NEURON_LIMITER w !! key with
  | Some e => if truthy (value e) then parseFloat (value e) else 0%float
  | None => 0%float
  end.

(** A daily record that is absent, or holds zero. *)
Definition absent_or_zero `{NumberConversions} (w : World) : Prop :=
  forall key, stored_total w key = 0%float.

(** Every recorded total lies between 0 and the daily limit. *)
Definition within_cap `{NumberConversions} (w : World) : Prop :=
  forall key,
    (0 <=? stored_total w key)%float = true /\
    (stored_total w key <=? DAILY_NEURON_LIMIT)%float = true.

(** A token count is a number that is not negative (hence not NaN). *)
Definition is_count (n : number) : Prop := (0 <=? n)%float = true.

Record Call := {
  call_ambient : Ambient;
  call_promptTokens : number;
  call_completionTokens : number
}.

Definition counts_ok (c : Call) : Prop :=
  is_count (call_promptTokens c) /\ is_count (call_completionTokens c).

(** Consecutive calls of [checkAndUpdateNeuronLimit]: their results, and
    the world they leave. *)
Fixpoint run_calls `{NumberConversions} (calls : list Call) (w : World)
  : list LimitCheck * World :=
  match calls with
  | [] => ([], w)
  | c :: rest =>
      let (r, w') := checkAndUpdateNeuronLimit (call_ambient c)
                       (call_promptTokens c) (call_completionTokens c) w in
      let (rs, w'') := run_calls rest w' in
      (r :: rs, w'')
  end.

(** The two results of [checkAndUpdateNeuronLimit], and the world its
    [put] leaves. *)
Definition denied_result `{NumberConversions} (x consumedNeurons : number) : LimitCheck := {|
  allowed := false;
  consumed := consumedNeurons;
  remaining := Math_max 0 (DAILY_NEURON_LIMIT - x)%float;
  dailyLimit := DAILY_NEURON_LIMIT;
  message := Some ("Batas harian neuron terlampaui. Tersisa: "
                   ++ formatNeurons (DAILY_NEURON_LIMIT - x)%float ++ " neurons")
|}.

Definition allowed_result (newTotal consumedNeurons : number) : LimitCheck := {|
  allowed := true;
  consumed := consumedNeurons;
  remaining := (DAILY_NEURON_LIMIT - newTotal)%float;
  dailyLimit := DAILY_NEURON_LIMIT;
  message := None
|}.

Definition after_put `{NumberConversions} (amb : Ambient) (newTotal : number) (w : World) : World :=
  if put_rejects amb then
    {| NEURON_LIMITER := NEURON_LIMITER w;
       console := console w ++ ["Error updating neuron usage:"] |}
  else
    {| NEURON_LIMITER :=
         <[KV_KEY amb := {| value := Number_toString newTotal;
                            expiration := (now amb + 86400)%Z |}]>
           (NEURON_LIMITER w);
       console := console w |}.

(** Sign of a binary64 value: [true] on +0, -0, the positive finite values
    and +infinity. *)
Definition SF_nonneg (x : spec_float) : bool :=
  match x with
  | S754_nan => false
  | S754_zero _ => true
  | S754_infinity s => negb s
  | S754_finite s _ _ => negb s
  end.

(** ** A lawful pair of conversions

    [Number_toString] prints the binary expansion of the number (its sign,
    mantissa and exponent, coded as one decimal integer after a mark, with
    [-0] printed as [0]) and
    [parseFloat] reads it back: an instance on which the two laws of
    [NumberConversions] hold. *)

Definition spec_float_code (x : spec_float)
  : bool + (bool + (unit + bool * positive * Z)) :=
  match x with
  | S754_zero s => inl s
  | S754_infinity s => inr (inl s)
  | S754_nan => inr (inr (inl tt))
  | S754_finite s m e => inr (inr (inr (s, m, e)))
  end.

Definition spec_float_decode (c : bool + (bool + (unit + bool * positive * Z)))
  : spec_float :=
  match c with
  | inl s => S754_zero s
  | inr (inl s) => S754_infinity s
  | inr (inr (inl _)) => S754_nan
  | inr (inr (inr (s, m, e))) => S754_finite s m e
  end.

#[global] Instance spec_float_eq_dec : EqDecision spec_float.
Proof. solve_decision. Defined.

#[global] Instance spec_float_countable : Countable spec_float.
Proof.
  apply (inj_countable' spec_float_code spec_float_decode).
  intros [s|s| |s m e]; reflexivity.
Defined.

Definition binary_toString (v : number) : string :=
  String "#"
    (NilEmpty.string_of_uint (Pos.to_uint (encode (Prim2SF (normal_zero v))))).

Definition binary_parseFloat (s : string) : number :=
  match s with
  | String "#" digits =>
      match NilEmpty.uint_of_string digits with
      | Some d =>
          match Pos.of_uint d with
          | Npos p => match decode p with
                      | Some x => SF2Prim x
                      | None => nan
                      end
          | N0 => nan
          end
      | None => nan
      end
  | _ => nan
  end.

(** The source text of a built-in function, in the form V8 prints it:
    under [constructor] the function is [Object]. *)
Definition native_code (name : string) : string :=
  "function " ++ (if String.eqb name "constructor" then "Object" else name)
  ++ "() { [native code] }".

Definition binary_conversions : NumberConversions := {|
  Number_toString := binary_toString;
  parseFloat := binary_parseFloat;
  Function_toString := native_code
|}.

(** ** The handler *)

(** The body of an [/api/ask] answer, when the response carries one. *)
Definition ask_output (r : Response) : option AIResponseOutput.t :=
  match json r with
  | AskBody body => Some body
  | ErrorBody _ _ _ => None
  end.

(** A request the handler takes to the gateway: the corpus is loaded, and
    the question is present, not empty and of at most 500 characters. *)
Definition well_formed_ask (quranData : list QuranSurah.t) (body : AIRequest)
    (q : string) : Prop :=
  quranData <> [] /\ question body = Some q /\ truthy q = true /\
  (String.length q <=? 500)%nat = true.

Definition language_of (body : AIRequest) : string :=
  match req_language body with Some l => l | None => "id" end.

(** The ranking the handler computes before it calls the gateway. *)
Definition ranking_of (quranData : list QuranSurah.t) (q : string)
  : list RelevantVerse :=
  findRelevantVerses quranData (extractKeywords q) 3.

(** The usage figures of the gateway, when reported, are not negative. *)
Definition usage_not_negative (aiResponse : AIResponse) : Prop :=
  forall u, usage aiResponse = Some u ->
    (prompt_tokens u <? 0)%float = false /\
    (completion_tokens u <? 0)%float = false.

(** A probed property that is absent or empty. *)
Definition absent_or_empty (p : option string) : Prop :=
  p = None \/ p = Some "".

Definition sampleRequest : AIRequest :=
  {| question := Some "Apa itu Allah?"; req_language := None |}.

Definition emptyAnswer : AIResponse :=
  {| response := None; content := Some ""; answer := None; usage := None |}.

(** ** Ranking *)

(** The keywords that occur in a verse text. *)
Definition matching_keywords (verseText : string) (keywords : list string)
  : list string :=
  List.filter (includes verseText) keywords.

(** The sum of the character lengths of a list of keywords. *)
Definition total_length (keywords : list string) : Z :=
  fold_right (fun k acc => (Z.of_nat (String.length k) + acc)%Z) 0%Z keywords.

Definition has_score (s : Z) (v : RelevantVerse) : bool := (score v =? s)%Z.

(** The score of an entry is positive, and is the total length of the
    keywords that occur in its lower-cased translation. *)
Definition scored_by (keywords : list string) (v : RelevantVerse) : Prop :=
  (0 < score v)%Z /\
  score v = total_length
              (matching_keywords (toLowerCase (verse_text_translation v)) keywords).

(** Scores do not increase along the list. *)
Definition by_descending_score (l : list RelevantVerse) : Prop :=
  StronglySorted (fun a b => (score b <= score a)%Z) l.

(** What one verse contributes to [relevantVerses]. *)
Definition candidate (keywords : list string) (surah : QuranSurah.t)
    (verse : QuranVerse.t) : list RelevantVerse :=
  scan_verse keywords surah [] verse.

(** ** The ranking as the specification words it

    For every verse of every chapter, the score is the sum of the lengths
    of the keywords contained in the lower-cased translation; a verse
    without translation, or with score 0, is left out. *)

Definition spec_score (keywords : list string) (verse : QuranVerse.t) : Z :=
  total_length
    (matching_keywords (toLowerCase (QuranVerse.translation verse)) keywords).

Definition spec_relevant (keywords : list string) (verse : QuranVerse.t) : bool :=
  truthy (QuranVerse.translation verse) && (0 <? spec_score keywords verse)%Z.

Definition spec_entry (keywords : list string) (surah : QuranSurah.t)
    (verse : QuranVerse.t) : RelevantVerse := {|
  surah_id := QuranSurah.id surah;
  surah_name := QuranSurah.name surah;
  surah_name_arabic := QuranSurah.name surah;
  verse_id := QuranVerse.id verse;
  verse_text_arabic := QuranVerse.text verse;
  verse_text_translation := QuranVerse.translation verse;
  score := spec_score keywords verse;
  reference := None
|}.

(** The verses with a translation and a positive score, in corpus order,
    each with its score. *)
Definition spec_candidates (quranData : list QuranSurah.t)
    (keywords : list string) : list RelevantVerse :=
  flat_map (fun surah =>
              map (spec_entry keywords surah)
                (List.filter (spec_relevant keywords) (QuranSurah.verses surah)))
    quranData.

(** An entry of [verses_data] carries the fields of a ranked verse. *)
Definition carries (d : VerseData.t) (v : RelevantVerse) : Prop :=
  VerseData.surah_id d = surah_id v /\
  VerseData.surah_name d = surah_name v /\
  VerseData.surah_name_arabic d = surah_name_arabic v /\
  VerseData.verse_id d = verse_id v /\
  VerseData.verse_arabic d = verse_text_arabic v /\
  VerseData.verse_translation d = verse_text_translation v /\
  VerseData.reference d = reference v.

(** What the caller receives for a verse of a surah. *)
Definition verse_received (surah : QuranSurah.t) (verse : QuranVerse.t)
  : VerseData.t := {|
  VerseData.surah_id := QuranSurah.id surah;
  VerseData.surah_name := QuranSurah.name surah;
  VerseData.surah_name_arabic := QuranSurah.name surah;
  VerseData.verse_id := QuranVerse.id verse;
  VerseData.verse_arabic := QuranVerse.text verse;
  VerseData.verse_translation := QuranVerse.translation verse;
  VerseData.reference :=
    Some (QuranSurah.name surah ++ " (" ++ Z_toString (QuranSurah.id surah)
          ++ ":" ++ Z_toString (QuranVerse.id verse) ++ ")")
|}.

(** Every character of [s] is in the class [P]. *)
Fixpoint all_chars (P : ascii -> bool) (s : string) : bool :=
  match s with
  | EmptyString => true
  | String c r => P c && all_chars P r
  end.

(** What [extractKeywords] does to one character before splitting. *)
Definition normalise_char (c : ascii) : ascii :=
  blank_punctuation (char_toLowerCase c).

Definition not_word (c : ascii) : bool := negb (is_word c).

(** The maximal runs of word characters of a question. *)
Definition word_runs (question : string) : list string :=
  List.filter truthy (split_runs not_word false question).

(** A question written as words and the gaps between them: [lead], then
    each word followed by its gap. *)
Fixpoint assemble (lead : string) (parts : list (string * string)) : string :=
  match parts with
  | [] => lead
  | (word, gap) :: rest => lead ++ word ++ assemble gap rest
  end.

(** The words are non-empty runs of word characters, the gaps are runs of
    other characters, and only the last gap may be empty. *)
Fixpoint well_separated (parts : list (string * string)) : bool :=
  match parts with
  | [] => true
  | (word, gap) :: rest =>
      truthy word && all_chars is_word word && all_chars not_word gap
      && (truthy gap || match rest with [] => true | _ :: _ => false end)
      && well_separated rest
  end.

(** A word that is a stop-word, in any letter case, or has at most two
    characters. *)
Definition insignificant (word : string) : bool :=
  (String.length word <=? 2)%nat || has stopWords (toLowerCase word).

(** ** Sample data *)

Definition sampleData : list QuranSurah.t := [
  {| QuranSurah.id := 1; QuranSurah.name := "Al-Fatihah";
     QuranSurah.transliteration := "Al-Fatihah";
     QuranSurah.translation := "Pembukaan";
     QuranSurah.type := "Makkiyah"; QuranSurah.total_verses := 7;
     QuranSurah.verses := [
       {| QuranVerse.id := 1; QuranVerse.text := "bismillah";
          QuranVerse.translation :=
            "Dengan menyebut nama Allah Yang Maha Pengasih lagi Maha Penyayang." |};
       {| QuranVerse.id := 2; QuranVerse.text := "alhamdulillah";
          QuranVerse.translation := "Segala puji bagi Allah, Tuhan semesta alam." |} ] |};
  {| QuranSurah.id := 2; QuranSurah.name := "Al-Baqarah";
     QuranSurah.transliteration := "Al-Baqarah";
     QuranSurah.translation := "Sapi Betina";
     QuranSurah.type := "Madaniyah"; QuranSurah.total_verses := 286;
     QuranSurah.verses := [
       {| QuranVerse.id := 1; QuranVerse.text := "alif lam mim";
          QuranVerse.translation := "Alif Lam Mim." |};
       {| QuranVerse.id := 2; QuranVerse.text := "dzalikal kitab";
          QuranVerse.translation :=
            "Kitab (Al-Quran) ini tidak ada keraguan padanya; petunjuk bagi mereka yang bertakwa." |} ] |} ].

Definition sampleAmbient (ai : outcome AIResponse) : Ambient := {|
  now := 1700000000;
  isoNow := "2023-11-14T22:13:20.000Z";
  get_rejects := false;
  put_rejects := false;
  AI_run := fun _ _ => ai
|}.

Definition emptyWorld : World := {| NEURON_LIMITER := ∅; console := [] |}.

(** A world whose record of 2023-11-14 holds [total], as an admitted call
    under [binary_conversions] leaves it. *)
Definition meteredWorld (total : number) : World := {|
  NEURON_LIMITER :=
    {[ "neuron_usage:2023-11-14" :=
         {| value := binary_toString total; expiration := 1700050000 |} ]};
  console := []
|}.

Definition sampleCall (promptTokens completionTokens : number) : Call := {|
  call_ambient := sampleAmbient Thrown;
  call_promptTokens := promptTokens;
  call_completionTokens := completionTokens
|}.

Definition sampleCalls : list Call :=
  [sampleCall 1000 500; sampleCall 40000 60000; sampleCall 10 10].

(** ** Notions for the further properties *)

Definition SF_not_nan (x : spec_float) : bool :=
  match x with S754_nan => false | _ => true end.


(** An environment whose KV binding rejects reads and writes as told. *)
Definition faultyAmbient (get put : bool) : Ambient := {|
  now := 1700000000;
  isoNow := "2023-11-14T22:13:20.000Z";
  get_rejects := get;
  put_rejects := put;
  AI_run := fun _ _ => Thrown
|}.

(** The environment of [sampleAmbient] one hour later. *)
Definition laterAmbient (ai : outcome AIResponse) : Ambient := {|
  now := 1700003600;
  isoNow := "2023-11-14T23:13:20.000Z";
  get_rejects := false;
  put_rejects := false;
  AI_run := fun _ _ => ai
|}.

(** The positions [1 .. n], as the loader numbers surahs and verses. *)
Definition numbering (n : nat) : list Z :=
  map (fun k => (Z.of_nat k + 1)%Z) (seq 0 n).

(** A surah as the loader builds it from a document: the verse count is
    the number of verses, the verses are numbered from 1, and the type is
    one of the two names. *)
Definition consistent_surah (s : QuranSurah.t) : Prop :=
  QuranSurah.total_verses s = Z.of_nat (length (QuranSurah.verses s)) /\
  map QuranVerse.id (QuranSurah.verses s)
    = numbering (length (QuranSurah.verses s)) /\
  (QuranSurah.type s = "Makkiyah" \/ QuranSurah.type s = "Madaniyah").

(** The worker answering requests one after the other in one process. *)
Fixpoint serve `{NumberConversions} (arabic : ArabicTexts)
    (requests : list (Runtime * Request)) (p : Process)
  : list (outcome HttpResponse) * Process :=
  match requests with
  | [] => ([], p)
  | (rt, request) :: rest =>
      let (r, p1) := fetchHandler arabic rt request p in
      let (rs, p2) := serve arabic rest p1 in
      (r :: rs, p2)
  end.

(** The gateway of an environment reports no negative usage. *)
Definition reports_no_negative_usage (amb : Ambient) : Prop :=
  forall model input aiResponse,
    AI_run amb model input = Returned aiResponse ->
    usage_not_negative aiResponse.

Definition sampleArabic : ArabicTexts := {|
  fatihah_1 := "bismillah";
  fatihah_2 := "alhamdulillah";
  baqarah_1 := "alif lam mim";
  baqarah_2 := "dzalikal kitab"
|}.

Definition sampleRuntime (ai : outcome AIResponse) : Runtime := {|
  ambient := sampleAmbient ai;
  fetched := Thrown;
  random_first := 0.5;
  random_second := 0.25;
  json_error := own_error "Unexpected end of JSON input";
  ai_error := own_error "Gateway timeout";
  type_error := fun property =>
    "Cannot read properties of undefined (reading '" ++ property ++ "')"
|}.

Definition freshProcess : Process := {| quranData := []; world := emptyWorld |}.

Definition sampleDocument : Api.response := {|
  Api.code := Some 200%float;
  Api.data := Some {| Api.surahs := Some [
    {| Api.englishName := Some "Al-Faatiha";
       Api.englishNameTranslation := Some "The Opening";
       Api.name := None;
       Api.revelationType := Some "Meccan";
       Api.ayahs := Some [
         {| Api.text := Some "bismillah"; Api.translation := None |};
         {| Api.text := Some "alhamdulillah"; Api.translation := None |} ] |};
    {| Api.englishName := None;
       Api.englishNameTranslation := None;
       Api.name := None;
       Api.revelationType := Some "Medinan";
       Api.ayahs := None |} ] |}
|}.

Definition get_request (path : string) (params : string -> option string)
  : Request := {|
  method := "GET";
  pathname := path;
  searchParams := params;
  json_body := Thrown
|}.

Definition post_request (path : string) (body : RequestBody) : Request := {|
  method := "POST";
  pathname := path;
  searchParams := fun _ => None;
  json_body := Returned body
|}.

(** The routes answered before the corpus is loaded: the preflight, the
    index and the health check. *)
Definition answers_without_corpus (request : Request) : bool :=
  String.eqb (method request) "OPTIONS"
  || String.eqb (pathname request) "/"
  || String.eqb (pathname request) "/api"
  || String.eqb (pathname request) "/api/health".

Definition loadedProcess : Process :=
  {| quranData := sampleData; world := emptyWorld |}.

Definition sampleBody : RequestBody := {|
  ask := sampleRequest;
  chat_messages :=
    Some [ {| role := user; msg_content := Text "Assalamu alaikum" |} ]
|}.

Definition emptyBody : RequestBody := {|
  ask := {| question := None; req_language := None |};
  chat_messages := None
|}.

Definition no_params : string -> option string := fun _ => None.

Definition query_params (q : string) : string -> option string :=
  fun key => if String.eqb key "q" then Some q else None.

(** The characters of a keyword: [a-z], [0-9] and [_]. *)
Definition is_lower_word (c : ascii) : bool :=
  in_range 97 122 c || in_range 48 57 c || (code c =? 95)%N.
(* ================================================================== *)
(** * Part III. Properties                                             *)
(* ================================================================== *)

(** ** Order and sign of binary64 values

    Facts about the IEEE-754 specification [SpecFloat] that the primitive
    operations are axiomatised against. *)

Module SF.

Lemma compare_antisym x y :
  SFcompare y x = option_map CompOpp (SFcompare x y).
Proof.
  destruct x as [sx|sx| |sx mx ex], y as [sy|sy| |sy my ey]; simpl;
    try reflexivity; try (destruct sx; reflexivity); try (destruct sy; reflexivity);
    try (destruct sx, sy; reflexivity).
  rewrite (Z.compare_antisym ex ey).
  assert (Hm : Pos.compare_cont Eq my mx = CompOpp (Pos.compare_cont Eq mx my))
    by (rewrite Pos.compare_cont_antisym; reflexivity).
  rewrite Hm.
  destruct sx, sy; simpl; try reflexivity;
    destruct (ex ?= ey)%Z; simpl; reflexivity.
Qed.

Lemma leb_not_gtb x y : SFleb x y = true -> SFltb y x = false.
Proof.
  unfold SFleb, SFltb. rewrite (compare_antisym x y).
  destruct (SFcompare x y) as [[]|]; simpl; congruence.
Qed.

Lemma not_gtb_leb x y :
  SFltb y x = false -> SFcompare x y <> None -> SFleb x y = true.
Proof.
  unfold SFleb, SFltb. rewrite (compare_antisym x y).
  destruct (SFcompare x y) as [[]|]; simpl; congruence.
Qed.

Lemma zero_leb x : SFleb (S754_zero false) x = SF_nonneg x.
Proof. destruct x as [s|s| |s m e]; try reflexivity; destruct s; reflexivity. Qed.

Lemma nonneg_comparable x y : SF_nonneg x = true -> SFcompare x y = None -> y = S754_nan.
Proof. destruct x, y; simpl; congruence. Qed.

(** Rounding never turns a non-negative mantissa into NaN or a negative value. *)
Lemma shr_1_nonneg mrs : (0 <= shr_m mrs)%Z -> (0 <= shr_m (shr_1 mrs))%Z.
Proof.
  destruct mrs as [m r s]; simpl. destruct m as [|p|p]; simpl; try lia.
  - destruct p; simpl; lia.
Qed.

Lemma iter_shr_1_nonneg p : forall mrs,
  (0 <= shr_m mrs)%Z -> (0 <= shr_m (SpecFloat.iter_pos shr_1 p mrs))%Z.
Proof.
  induction p as [p IH|p IH|]; intros mrs H; simpl.
  - apply IH, IH, shr_1_nonneg, H.
  - apply IH, IH, H.
  - apply shr_1_nonneg, H.
Qed.

Lemma shr_m_record_of_loc m l : shr_m (shr_record_of_loc m l) = m.
Proof. destruct l as [|[]]; reflexivity. Qed.

Lemma shr_fexp_nonneg m e l :
  (0 <= m)%Z -> (0 <= shr_m (fst (shr_fexp prec emax m e l)))%Z.
Proof.
  intros H. unfold shr_fexp, shr.
  destruct (fexp prec emax (Zdigits2 m + e) - e)%Z; simpl;
    rewrite ?shr_m_record_of_loc; auto.
  apply iter_shr_1_nonneg. rewrite shr_m_record_of_loc. exact H.
Qed.

Lemma round_nearest_even_nonneg m l : (0 <= m)%Z -> (0 <= round_nearest_even m l)%Z.
Proof.
  intros H. destruct l as [|[]]; simpl; try lia. destruct (Z.even m); lia.
Qed.

Lemma binary_round_aux_nonneg m e l :
  (0 <= m)%Z -> SF_nonneg (binary_round_aux prec emax false m e l) = true.
Proof.
  intros H. unfold binary_round_aux.
  pose proof (shr_fexp_nonneg m e l H) as H1.
  destruct (shr_fexp prec emax m e l) as [mrs' e']. simpl in H1.
  pose proof (shr_fexp_nonneg _ e' loc_Exact
                (round_nearest_even_nonneg _ (loc_of_shr_record mrs') H1)) as H2.
  destruct (shr_fexp prec emax _ e' loc_Exact) as [mrs'' e'']. simpl in H2.
  destruct (shr_m mrs'') as [|p|p]; try reflexivity.
  - destruct (e'' <=? emax - prec)%Z; reflexivity.
  - lia.
Qed.

Lemma binary_normalize_nonneg m e :
  (0 <= m)%Z -> SF_nonneg (binary_normalize prec emax m e false) = true.
Proof.
  intros H. destruct m as [|p|p]; simpl; try reflexivity; try lia.
  unfold binary_round. destruct (shl_align _ _ _) as [mz ez].
  apply binary_round_aux_nonneg. lia.
Qed.

Lemma add_nonneg x y :
  SF_nonneg x = true -> SF_nonneg y = true -> SF_nonneg (SF64add x y) = true.
Proof.
  destruct x as [sx|sx| |sx mx ex], y as [sy|sy| |sy my ey]; simpl;
    try discriminate; intros Hx Hy;
    try (destruct sx; try discriminate); try (destruct sy; try discriminate);
    try reflexivity.
  apply binary_normalize_nonneg. simpl. lia.
Qed.

Lemma mul_nonneg_finite x m e :
  SF_nonneg x = true -> SF_nonneg (SF64mul x (S754_finite false m e)) = true.
Proof.
  destruct x as [sx|sx| |sx mx ex]; simpl; try discriminate; intros Hx;
    try (destruct sx; try discriminate); try reflexivity.
  apply binary_round_aux_nonneg. lia.
Qed.


(** Magnitude of a canonical mantissa from its number of binary digits. *)
Lemma digits2_pos_bounds m :
  (2 ^ (Zpos (digits2_pos m) - 1) <= Zpos m < 2 ^ Zpos (digits2_pos m))%Z.
Proof.
  induction m as [m IH|m IH|]; simpl digits2_pos.
  - rewrite Pos2Z.inj_succ.
    replace (Z.succ (Zpos (digits2_pos m)) - 1)%Z with (Z.succ (Zpos (digits2_pos m) - 1))%Z by lia.
    rewrite !Z.pow_succ_r by lia. lia.
  - rewrite Pos2Z.inj_succ.
    replace (Z.succ (Zpos (digits2_pos m)) - 1)%Z with (Z.succ (Zpos (digits2_pos m) - 1))%Z by lia.
    rewrite !Z.pow_succ_r by lia. lia.
  - simpl. lia.
Qed.

Lemma iter_xO_value m d : Zpos (Pos.iter xO m d) = (Zpos m * 2 ^ Zpos d)%Z.
Proof.
  induction d as [|d IH] using Pos.peano_ind.
  - simpl. lia.
  - rewrite Pos.iter_succ, Pos2Z.inj_succ, Z.pow_succ_r by lia.
    rewrite Pos2Z.inj_xO, IH. lia.
Qed.

Lemma shl_align_value mx ex ez :
  (ez <= ex)%Z -> Zpos (fst (shl_align mx ex ez)) = (Zpos mx * 2 ^ (ex - ez))%Z.
Proof.
  intros H. unfold shl_align.
  destruct (ez - ex)%Z as [|d|d] eqn:E; simpl.
  - replace (ex - ez)%Z with 0%Z by lia. lia.
  - lia.
  - rewrite iter_xO_value. replace (ex - ez)%Z with (Zpos d) by lia. reflexivity.
Qed.

Lemma bounded_digits m e :
  bounded prec emax m e = true ->
  (Zpos (digits2_pos m) <= 53 /\ -1074 <= e /\
   (-1074 < e -> Zpos (digits2_pos m) = 53))%Z.
Proof.
  unfold bounded, canonical_mantissa, fexp, emin, prec, emax.
  intros H. apply andb_prop in H as [H _]. apply Z.eqb_eq in H. lia.
Qed.

(** On canonical non-negative operands the order decided by [SFcompare]
    is the order of the represented magnitudes, so a difference
    [y - x] with [x <= y] is never negative. *)
Lemma sub_nonneg x my ey :
  valid_binary x = true -> valid_binary (S754_finite false my ey) = true ->
  SF_nonneg x = true -> SFleb x (S754_finite false my ey) = true ->
  SF_nonneg (SF64sub (S754_finite false my ey) x) = true.
Proof.
  destruct x as [sx|sx| |sx mx ex]; simpl; try discriminate.
  - reflexivity.
  - destruct sx; discriminate.
  - intros Vx Vy Hs Hle. destruct sx; try discriminate.
    apply binary_normalize_nonneg. simpl cond_Zopp.
    apply bounded_digits in Vx as (Dx & Ex & _).
    apply bounded_digits in Vy as (_ & _ & Dy).
    pose proof (digits2_pos_bounds mx) as Bx.
    pose proof (digits2_pos_bounds my) as By.
    unfold SFleb in Hle. simpl in Hle.
    destruct (ex ?= ey)%Z eqn:C.
    + apply Z.compare_eq in C. subst ey.
      rewrite Z.min_id, !shl_align_value, Z.sub_diag by lia.
      assert (Pos.compare_cont Eq mx my <> Gt) as Hc
        by (destruct (Pos.compare_cont Eq mx my); congruence).
      change (Pos.compare_cont Eq mx my) with (Pos.compare mx my) in Hc.
      assert (mx <= my)%positive by exact Hc.
      rewrite Z.pow_0_r. lia.
    + change (ex < ey)%Z in C.
      rewrite Z.min_r, !shl_align_value, Z.sub_diag by lia.
      rewrite Dy in By by lia.
      assert (2 ^ Zpos (digits2_pos mx) <= 2 ^ 53)%Z
        by (apply Z.pow_le_mono_r; lia).
      assert (2 ^ 1 <= 2 ^ (ey - ex))%Z by (apply Z.pow_le_mono_r; lia).
      change (2 ^ (53 - 1))%Z with 4503599627370496%Z in By.
      change (2 ^ 53)%Z with 9007199254740992%Z in *.
      change (2 ^ 1)%Z with 2%Z in *.
      nia.
    + discriminate.
Qed.

End SF.

(** The same facts on primitive floats. *)
Section FloatFacts.

Local Open Scope float_scope.

Lemma leb_zero (a : float) : (0 <=? a) = SF_nonneg (Prim2SF a).
Proof. rewrite FloatAxioms.leb_spec. apply SF.zero_leb. Qed.

Lemma leb_ltb_false (a b : float) : (a <=? b) = true -> (b <? a) = false.
Proof. rewrite FloatAxioms.leb_spec, FloatAxioms.ltb_spec. apply SF.leb_not_gtb. Qed.

Lemma ltb_false_leb (a b : float) :
  (b <? a) = false -> (0 <=? a) = true -> (b =? b) = true -> (a <=? b) = true.
Proof.
  rewrite leb_zero, FloatAxioms.eqb_spec, FloatAxioms.leb_spec, FloatAxioms.ltb_spec. intros Hlt Ha Hb.
  apply SF.not_gtb_leb; [exact Hlt|].
  intros Hc. apply (SF.nonneg_comparable _ _ Ha) in Hc.
  rewrite Hc in Hb. discriminate.
Qed.

Lemma add_count (a b : float) : is_count a -> is_count b -> is_count (a + b).
Proof.
  unfold is_count. rewrite !leb_zero, FloatAxioms.add_spec. apply SF.add_nonneg.
Qed.

Lemma sub_count (a b : float) :
  is_count a -> (a <=? b) = true -> is_finite b = true -> is_count b ->
  is_count (b - a).
Proof.
  unfold is_count, is_finite, is_nan, is_infinity.
  rewrite !leb_zero, FloatAxioms.leb_spec, FloatAxioms.sub_spec,
    !FloatAxioms.eqb_spec, FloatAxioms.abs_spec.
  pose proof (Prim2SF_valid a) as Va. pose proof (Prim2SF_valid b) as Vb.
  change (Prim2SF infinity) with (S754_infinity false).
  intros Ha Hle Hfin Hb.
  destruct (Prim2SF b) as [sb|sb| |sb mb eb]; try discriminate.
  - destruct (Prim2SF a) as [sa|sa| |sa ma ea]; try discriminate;
      destruct sa, sb; try discriminate; reflexivity.
  - destruct sb; discriminate.
  - destruct sb; try discriminate.
    apply SF.sub_nonneg; assumption.
Qed.

Lemma input_rate_SF :
  Prim2SF INPUT_TOKEN_NEURON_RATE = S754_finite false 7686527671213849 (-58).
Proof. vm_compute. reflexivity. Qed.

Lemma output_rate_SF :
  Prim2SF OUTPUT_TOKEN_NEURON_RATE = S754_finite false 7378877773468915 (-55).
Proof. vm_compute. reflexivity. Qed.

Lemma consumed_count (p c : float) :
  is_count p -> is_count c -> is_count (calculateNeuronsConsumed p c).
Proof.
  intros Hp Hc. unfold calculateNeuronsConsumed. apply add_count.
  - unfold is_count in *. rewrite leb_zero in *.
    rewrite FloatAxioms.mul_spec, input_rate_SF.
    apply SF.mul_nonneg_finite, Hp.
  - unfold is_count in *. rewrite leb_zero in *.
    rewrite FloatAxioms.mul_spec, output_rate_SF.
    apply SF.mul_nonneg_finite, Hc.
Qed.

End FloatFacts.

(** ** The token counts the handler meters *)

Section TokenCounts.

Local Open Scope float_scope.

Lemma div_core_nonneg mx ex my ey :
  (0 <= fst (fst (SFdiv_core_binary prec emax (Zpos mx) ex (Zpos my) ey)))%Z.
Proof.
  unfold SFdiv_core_binary.
  set (s := (ex - ey - _)%Z).
  set (m' := match s with Zpos _ => Z.shiftl (Zpos mx) s | Z0 => Zpos mx | Zneg _ => 0%Z end).
  assert (Hm : (0 <= m')%Z).
  { unfold m'. destruct s; try lia. apply Z.shiftl_nonneg. lia. }
  pose proof (Z.div_pos m' (Zpos my) Hm ltac:(lia)) as Hq.
  unfold Z.div in Hq. destruct (Z.div_eucl m' (Zpos my)) as [q r]. exact Hq.
Qed.

Lemma div_count_finite x m e :
  SF_nonneg x = true -> SF_nonneg (SF64div x (S754_finite false m e)) = true.
Proof.
  destruct x as [sx|sx| |sx mx ex]; simpl; try discriminate; intros Hx;
    try (destruct sx; try discriminate); try reflexivity.
  pose proof (div_core_nonneg mx ex m e) as Hq.
  destruct (SFdiv_core_binary prec emax (Zpos mx) ex (Zpos m) e) as [[mz ez] lz].
  apply SF.binary_round_aux_nonneg. exact Hq.
Qed.

Lemma of_Z_count z : is_count (of_Z z).
Proof.
  unfold is_count, of_Z. rewrite leb_zero, of_uint63_spec.
  apply SF.binary_normalize_nonneg.
  pose proof (Uint63.to_Z_bounded (Uint63.of_Z z)). lia.
Qed.

Lemma Math_ceil_count y : is_count y -> is_count (Math_ceil y).
Proof.
  unfold Math_ceil. intros Hy. pose proof Hy as Hs.
  unfold is_count in Hs. rewrite leb_zero in Hs.
  destruct (Prim2SF y) as [s|s| |s m e]; try exact Hy.
  destruct s; [discriminate|].
  destruct (0 <=? e)%Z; [exact Hy|].
  destruct (_ =? 0)%Z; apply of_Z_count.
Qed.

Lemma estimateTokens_count text : is_count (estimateTokens text).
Proof.
  unfold estimateTokens. apply Math_ceil_count.
  pose proof (of_Z_count (Z.of_nat (String.length text))) as H.
  unfold is_count in *. rewrite leb_zero in *. rewrite FloatAxioms.div_spec.
  replace (Prim2SF 4) with (S754_finite false 4503599627370496 (-50))
    by (vm_compute; reflexivity).
  apply div_count_finite, H.
Qed.

Lemma not_negative_count n :
  (n <? 0) = false -> is_nan n = false -> is_count n.
Proof.
  unfold is_count, is_nan. rewrite FloatAxioms.ltb_spec, FloatAxioms.leb_spec,
    FloatAxioms.eqb_spec.
  change (Prim2SF 0) with (S754_zero false).
  intros Hlt Hnan. apply SF.not_gtb_leb; [exact Hlt|].
  destruct (Prim2SF n); simpl in *; try discriminate. 
Qed.

Lemma num_or_else_count n d :
  (forall v, n = Some v -> (v <? 0) = false) -> is_count d ->
  is_count (num_or_else n d).
Proof.
  intros Hn Hd. unfold num_or_else. destruct n as [v|]; [|exact Hd].
  destruct (is_zero v); [exact Hd|]. simpl.
  destruct (is_nan v) eqn:E; [exact Hd|].
  apply not_negative_count; [now apply Hn|exact E].
Qed.

(** The counts the handler passes to [checkAndUpdateNeuronLimit] are token
    counts whenever the gateway reports no negative figure. *)
Lemma handler_counts `{NC : NumberConversions} aiResponse systemPrompt userPrompt :
  usage_not_negative aiResponse ->
  is_count (promptTokens_of aiResponse systemPrompt userPrompt) /\
  is_count (completionTokens_of aiResponse (answer_of aiResponse)).
Proof.
  intros H. unfold promptTokens_of, completionTokens_of. split.
  - apply num_or_else_count; [|apply estimateTokens_count].
    intros v Hv. destruct (usage aiResponse) as [u|] eqn:E; [|discriminate].
    injection Hv as <-. apply (H u E).
  - apply num_or_else_count; [|apply estimateTokens_count].
    intros v Hv. destruct (usage aiResponse) as [u|] eqn:E; [|discriminate].
    injection Hv as <-. apply (H u E).
Qed.

End TokenCounts.

(** ** The laws hold for the binary conversions *)

Lemma binary_round_trips : @toString_round_trips binary_conversions.
Proof.
  intros v. unfold parseFloat, Number_toString; simpl.
  unfold binary_parseFloat, binary_toString.
  rewrite NilEmpty.usu, DecimalPos.Unsigned.of_to, decode_encode.
  apply SF2Prim_Prim2SF.
Qed.

Lemma binary_nonempty : @toString_nonempty binary_conversions.
Proof. intros v. discriminate. Qed.

(** ** The daily limit: one call *)

Section Metering.

Context `{NC : NumberConversions}.
Local Open Scope float_scope.

Lemma check_unfold amb p c w :
  checkAndUpdateNeuronLimit amb p c w =
  let x := current_total amb w in
  let w1 := snd (read_currentNeurons amb w) in
  let newTotal := x + calculateNeuronsConsumed p c in
  if DAILY_NEURON_LIMIT <? newTotal
  then (denied_result x (calculateNeuronsConsumed p c), w1)
  else (allowed_result newTotal (calculateNeuronsConsumed p c),
        after_put amb newTotal w1).
Proof.
  unfold checkAndUpdateNeuronLimit, bind, current_total.
  destruct (read_currentNeurons amb w) as [x w1]; simpl.
  destruct (DAILY_NEURON_LIMIT <? x + calculateNeuronsConsumed p c).
  - reflexivity.
  - unfold KV_put, after_put, ret, console_error.
    destruct (put_rejects amb); reflexivity.
Qed.

Lemma read_keeps_store amb w :
  NEURON_LIMITER (snd (read_currentNeurons amb w)) = NEURON_LIMITER w.
Proof.
  unfold read_currentNeurons, bind, KV_get, ret, console_error.
  destruct (get_rejects amb); reflexivity.
Qed.

(** What a call reads is the recorded total of the day, or zero. *)
Lemma current_total_cases amb w :
  current_total amb w = 0 \/ current_total amb w = stored_total w (KV_KEY amb).
Proof.
  unfold current_total, read_currentNeurons, bind, KV_get, ret, console_error,
    stored_total.
  destruct (get_rejects amb); simpl; [now left|].
  destruct (NEURON_LIMITER w !! KV_KEY amb) as [e|]; [|now left].
  destruct (now amb <? expiration e)%Z; [now right|now left].
Qed.

Lemma stored_total_after_put amb v w key :
  toString_round_trips -> toString_nonempty -> put_rejects amb = false ->
  stored_total (after_put amb v w) key =
  if decide (KV_KEY amb = key) then normal_zero v else stored_total w key.
Proof.
  intros RT NE Hput. unfold after_put, stored_total. rewrite Hput. simpl.
  rewrite lookup_insert. destruct (decide (KV_KEY amb = key)); [|reflexivity].
  simpl. unfold truthy.
  destruct (String.eqb_spec (Number_toString v) ""); [now apply NE in e0|].
  apply RT.
Qed.

Lemma stored_total_console w key msgs :
  stored_total {| NEURON_LIMITER := NEURON_LIMITER w; console := msgs |} key
  = stored_total w key.
Proof. reflexivity. Qed.

Lemma limit_facts :
  is_count DAILY_NEURON_LIMIT /\ is_finite DAILY_NEURON_LIMIT = true /\
  (DAILY_NEURON_LIMIT =? DAILY_NEURON_LIMIT) = true /\
  is_count 0 /\ (0 <=? DAILY_NEURON_LIMIT) = true.
Proof. repeat split; vm_compute; reflexivity. Qed.

Lemma within_cap_current amb w :
  within_cap w ->
  is_count (current_total amb w) /\
  (current_total amb w <=? DAILY_NEURON_LIMIT) = true.
Proof.
  intros Hw. destruct (current_total_cases amb w) as [-> | ->].
  - split; vm_compute; reflexivity.
  - apply Hw.
Qed.

(** One call keeps every recorded total within the cap, and what it reports
    as remaining on admission is not negative. *)
Lemma check_keeps_cap amb p c w :
  toString_round_trips -> toString_nonempty ->
  is_count p -> is_count c -> within_cap w ->
  within_cap (snd (checkAndUpdateNeuronLimit amb p c w)) /\
  (allowed (fst (checkAndUpdateNeuronLimit amb p c w)) = true ->
   is_count (remaining (fst (checkAndUpdateNeuronLimit amb p c w)))).
Proof.
  intros RT NE Hp Hc Hw. rewrite check_unfold. cbv zeta.
  destruct (within_cap_current amb w Hw) as [Hx0 Hx1].
  pose proof (consumed_count p c Hp Hc) as Hcons.
  pose proof (add_count _ _ Hx0 Hcons) as Hnew.
  assert (Hw1 : within_cap (snd (read_currentNeurons amb w))).
  { intros key. unfold stored_total. rewrite read_keeps_store. apply Hw. }
  destruct limit_facts as (HL0 & HLfin & HLeq & _).
  destruct (DAILY_NEURON_LIMIT <? current_total amb w + calculateNeuronsConsumed p c)
    eqn:Hgt; simpl.
  - split; [exact Hw1|discriminate].
  - pose proof (ltb_false_leb _ _ Hgt Hnew HLeq) as Hle.
    split.
    + intros key. destruct (put_rejects amb) eqn:Hput.
      * unfold after_put. rewrite Hput. apply Hw1.
      * rewrite (stored_total_after_put _ _ _ _ RT NE Hput).
        destruct (decide (KV_KEY amb = key)); [|apply Hw1].
        unfold normal_zero. destruct (_ =? 0); [|split; assumption].
        split; vm_compute; reflexivity.
    + intros _. apply sub_count; assumption.
Qed.

End Metering.

(** ** The daily limit: the claims *)

Section MeteringClaims.

Context `{NC : NumberConversions}.
Local Open Scope float_scope.

Lemma run_calls_cons c calls w :
  run_calls (c :: calls) w =
  (fst (checkAndUpdateNeuronLimit (call_ambient c) (call_promptTokens c)
          (call_completionTokens c) w)
     :: fst (run_calls calls
               (snd (checkAndUpdateNeuronLimit (call_ambient c)
                       (call_promptTokens c) (call_completionTokens c) w))),
   snd (run_calls calls
          (snd (checkAndUpdateNeuronLimit (call_ambient c)
                  (call_promptTokens c) (call_completionTokens c) w)))).
Proof.
  simpl. destruct (checkAndUpdateNeuronLimit _ _ _ w) as [r w']. simpl.
  destruct (run_calls calls w') as [rs w'']. reflexivity.
Qed.

Lemma denied_keeps_store amb p c w :
  allowed (fst (checkAndUpdateNeuronLimit amb p c w)) = false ->
  NEURON_LIMITER (snd (checkAndUpdateNeuronLimit amb p c w)) = NEURON_LIMITER w.
Proof.
  rewrite check_unfold. cbv zeta.
  destruct (DAILY_NEURON_LIMIT <? _); simpl; [intros _|discriminate].
  apply read_keeps_store.
Qed.

Lemma run_denied_keeps_store calls : forall w,
  Forall (fun r => allowed r = false) (fst (run_calls calls w)) ->
  NEURON_LIMITER (snd (run_calls calls w)) = NEURON_LIMITER w.
Proof.
  induction calls as [|c calls IH]; intros w H; [reflexivity|].
  rewrite run_calls_cons in *. simpl in *.
  apply Forall_cons_iff in H as [H1 H2].
  rewrite (IH _ H2). apply denied_keeps_store, H1.
Qed.

(** C1. When the total found in the store plus the consumption of the call
    exceeds the daily limit, [checkAndUpdateNeuronLimit] answers
    [allowed = false] with [remaining = max(0, limit - current)] and leaves
    the store as it was; and after any number of consecutive denied calls
    the store is the one before the first. *)
Theorem denied_call_charges_nothing :
  (forall amb p c w,
     (DAILY_NEURON_LIMIT <? current_total amb w + calculateNeuronsConsumed p c)
       = true ->
     allowed (fst (checkAndUpdateNeuronLimit amb p c w)) = false /\
     remaining (fst (checkAndUpdateNeuronLimit amb p c w))
       = Math_max 0 (DAILY_NEURON_LIMIT - current_total amb w) /\
     NEURON_LIMITER (snd (checkAndUpdateNeuronLimit amb p c w))
       = NEURON_LIMITER w) /\
  (forall calls w,
     Forall (fun r => allowed r = false) (fst (run_calls calls w)) ->
     NEURON_LIMITER (snd (run_calls calls w)) = NEURON_LIMITER w).
Proof.
  split.
  - intros amb p c w Hgt. rewrite check_unfold. cbv zeta. rewrite Hgt. simpl.
    repeat split. apply read_keeps_store.
  - apply run_denied_keeps_store.
Qed.

(** C2. When the total found in the store plus the consumption of the call
    is at most the daily limit, the call is admitted with
    [remaining = limit - (current + consumed)], and a [put] that succeeds
    records exactly [current + consumed] under the key of the day (the
    number itself, a zero being recorded as [0]), to expire 86400 seconds
    after the write: a later read of that key finds this total until then,
    and none afterwards. *)
Theorem admitted_call_records_total amb p c w :
  toString_round_trips -> toString_nonempty -> put_rejects amb = false ->
  (current_total amb w + calculateNeuronsConsumed p c <=? DAILY_NEURON_LIMIT)
    = true ->
  allowed (fst (checkAndUpdateNeuronLimit amb p c w)) = true /\
  remaining (fst (checkAndUpdateNeuronLimit amb p c w))
    = DAILY_NEURON_LIMIT - (current_total amb w + calculateNeuronsConsumed p c) /\
  NEURON_LIMITER (snd (checkAndUpdateNeuronLimit amb p c w))
    = <[KV_KEY amb :=
          {| value := Number_toString
                        (current_total amb w + calculateNeuronsConsumed p c);
             expiration := (now amb + 86400)%Z |}]> (NEURON_LIMITER w) /\
  stored_total (snd (checkAndUpdateNeuronLimit amb p c w)) (KV_KEY amb)
    = normal_zero (current_total amb w + calculateNeuronsConsumed p c) /\
  (forall later, KV_KEY later = KV_KEY amb -> get_rejects later = false ->
     current_total later (snd (checkAndUpdateNeuronLimit amb p c w))
     = if (now later <? now amb + 86400)%Z
       then normal_zero (current_total amb w + calculateNeuronsConsumed p c)
       else 0).
Proof.
  intros RT NE Hput Hle. rewrite check_unfold. cbv zeta.
  rewrite (leb_ltb_false _ _ Hle). simpl.
  split; [reflexivity|]. split; [reflexivity|].
  split; [|split].
  - unfold after_put. rewrite Hput. simpl. rewrite read_keeps_store. reflexivity.
  - rewrite (stored_total_after_put _ _ _ _ RT NE Hput).
    destruct (decide (KV_KEY amb = KV_KEY amb)); congruence.
  - intros later Hkey Hget.
    set (v := current_total amb w + calculateNeuronsConsumed p c) in *.
    set (w1 := snd (read_currentNeurons amb w)). clearbody v w1.
    unfold current_total, read_currentNeurons, bind, KV_get, ret.
    rewrite Hget, Hkey. unfold after_put. rewrite Hput. simpl.
    rewrite lookup_insert_eq. simpl.
    destruct (now later <? now amb + 86400)%Z; [|reflexivity].
    simpl. unfold truthy.
    destruct (String.eqb_spec (Number_toString v) "") as [E|_];
      [now apply NE in E|].
    apply RT.
Qed.

Lemma absent_or_zero_within_cap w : absent_or_zero w -> within_cap w.
Proof. intros H key. rewrite H. split; vm_compute; reflexivity. Qed.

Lemma run_keeps_cap calls : forall w,
  toString_round_trips -> toString_nonempty ->
  Forall counts_ok calls -> within_cap w ->
  within_cap (snd (run_calls calls w)) /\
  Forall (fun r => allowed r = true -> is_count (remaining r))
    (fst (run_calls calls w)).
Proof.
  induction calls as [|c calls IH]; intros w RT NE Hc Hw.
  - split; [exact Hw|constructor].
  - apply Forall_cons_iff in Hc as [[Hp Hq] Hc].
    rewrite run_calls_cons. simpl.
    destruct (check_keeps_cap (call_ambient c) _ _ w RT NE Hp Hq Hw) as [Hw' Hr].
    destruct (IH _ RT NE Hc Hw') as [Hw'' Hrs].
    split; [exact Hw''|]. constructor; assumption.
Qed.

(** A call changes the store only when the new total is at most the
    limit. *)
Lemma write_only_within_limit amb p c w :
  is_count p -> is_count c -> within_cap w ->
  NEURON_LIMITER (snd (checkAndUpdateNeuronLimit amb p c w)) <> NEURON_LIMITER w ->
  (current_total amb w + calculateNeuronsConsumed p c <=? DAILY_NEURON_LIMIT)
    = true.
Proof.
  intros Hp Hc Hw. rewrite check_unfold. cbv zeta.
  destruct (DAILY_NEURON_LIMIT <? _) eqn:Hgt; simpl.
  - intros Hchanged. now rewrite read_keeps_store in Hchanged.
  - intros _. destruct (within_cap_current amb w Hw) as [Hx _].
    destruct limit_facts as (_ & _ & HLeq & _).
    apply ltb_false_leb; [exact Hgt| |exact HLeq].
    apply add_count; [exact Hx|now apply consumed_count].
Qed.

(** C9. Starting from a record that is absent or zero, with token counts
    that are not negative: after every prefix of a sequence of calls each
    recorded total -- hence every value a call has written -- is at most
    the daily limit, and the remaining figure of every admitted call is not
    negative. *)
Theorem stored_total_never_exceeds_cap calls w :
  toString_round_trips -> toString_nonempty ->
  absent_or_zero w -> Forall counts_ok calls ->
  (forall n key,
     (stored_total (snd (run_calls (firstn n calls) w)) key
        <=? DAILY_NEURON_LIMIT) = true) /\
  Forall (fun r => allowed r = true -> (0 <=? remaining r) = true)
    (fst (run_calls calls w)).
Proof.
  intros RT NE Hz Hc. apply absent_or_zero_within_cap in Hz. split.
  - intros n key.
    assert (Hn : Forall counts_ok (firstn n calls)) by (apply Forall_take, Hc).
    apply (run_keeps_cap _ w RT NE Hn Hz).
  - apply (run_keeps_cap _ w RT NE Hc Hz).
Qed.

End MeteringClaims.

(** *** Instances of the three statements under [binary_conversions] *)

Lemma denied_call_charges_nothing_witness :
  (DAILY_NEURON_LIMIT
     <? @current_total binary_conversions (sampleAmbient Thrown) (meteredWorld 9999)
        + calculateNeuronsConsumed 1000 1000)%float = true /\
  (allowed (fst (@checkAndUpdateNeuronLimit binary_conversions
                   (sampleAmbient Thrown) 1000 1000 (meteredWorld 9999))) = false /\
   remaining (fst (@checkAndUpdateNeuronLimit binary_conversions
                     (sampleAmbient Thrown) 1000 1000 (meteredWorld 9999)))
     = Math_max 0 (DAILY_NEURON_LIMIT
                   - @current_total binary_conversions (sampleAmbient Thrown)
                       (meteredWorld 9999))%float /\
   NEURON_LIMITER (snd (@checkAndUpdateNeuronLimit binary_conversions
                          (sampleAmbient Thrown) 1000 1000 (meteredWorld 9999)))
     = NEURON_LIMITER (meteredWorld 9999)).
Proof.
  split; [vm_compute; reflexivity|].
  apply (proj1 (@denied_call_charges_nothing binary_conversions)).
  vm_compute; reflexivity.
Defined.

Lemma admitted_call_records_total_witness :
  (@current_total binary_conversions (sampleAmbient Thrown) (meteredWorld 100)
     + calculateNeuronsConsumed 1000 500 <=? DAILY_NEURON_LIMIT)%float = true /\
  @stored_total binary_conversions
    (snd (@checkAndUpdateNeuronLimit binary_conversions
            (sampleAmbient Thrown) 1000 500 (meteredWorld 100)))
    (KV_KEY (sampleAmbient Thrown))
  = normal_zero
      (@current_total binary_conversions (sampleAmbient Thrown) (meteredWorld 100)
       + calculateNeuronsConsumed 1000 500)%float.
Proof.
  assert (Hle : (@current_total binary_conversions (sampleAmbient Thrown)
                   (meteredWorld 100)
                 + calculateNeuronsConsumed 1000 500 <=? DAILY_NEURON_LIMIT)%float
                = true) by (vm_compute; reflexivity).
  split; [exact Hle|].
  destruct (@admitted_call_records_total binary_conversions
              (sampleAmbient Thrown) 1000 500 (meteredWorld 100)
              binary_round_trips binary_nonempty eq_refl Hle)
    as (_ & _ & _ & Hstored & _).
  exact Hstored.
Defined.

Lemma stored_total_never_exceeds_cap_witness :
  (forall n key,
     (@stored_total binary_conversions
        (snd (@run_calls binary_conversions (firstn n sampleCalls) emptyWorld)) key
      <=? DAILY_NEURON_LIMIT)%float = true) /\
  Forall (fun r => allowed r = true -> (0 <=? remaining r)%float = true)
    (fst (@run_calls binary_conversions sampleCalls emptyWorld)).
Proof.
  apply (@stored_total_never_exceeds_cap binary_conversions sampleCalls emptyWorld).
  - exact binary_round_trips.
  - exact binary_nonempty.
  - intros key. reflexivity.
  - repeat constructor; vm_compute; reflexivity.
Defined.

(** ** Formatting of neuron figures *)

(** C8. [formatNeurons] maps 500 to 500.00, 1500 to 1.50k and 2500000 to
    2.5000M; exactly 1000 is formatted on the k scale and exactly 1000000 on
    the M scale, while the largest numbers below them stay on the scale
    beneath. *)
Theorem formatNeurons_examples `{NumberConversions} :
  formatNeurons 500 = "500.00" /\
  formatNeurons 1500 = "1.50k" /\
  formatNeurons 2500000 = "2.5000M" /\
  formatNeurons 1000 = "1.00k" /\
  formatNeurons 1000000 = "1.0000M" /\
  formatNeurons (next_down 1000) = "1000.00" /\
  formatNeurons (next_down 1000000) = "1000.00k".
Proof. repeat split; vm_compute; reflexivity. Qed.

(** ** Relevance ranking *)

Section Sorting.

Context {A : Type} (key : A -> Z).

Let cmp (a b : A) : Z := (key b - key a)%Z.
Let desc (a b : A) : Prop := (key b <= key a)%Z.

Lemma sort_insert_perm x l : Permutation (sort_insert cmp x l) (x :: l).
Proof.
  induction l as [|y l IH]; simpl; [reflexivity|].
  destruct (cmp x y <=? 0)%Z; [reflexivity|].
  rewrite IH. apply perm_swap.
Qed.

Lemma Array_sort_perm l : Permutation (Array_sort cmp l) l.
Proof.
  induction l as [|x l IH]; simpl; [reflexivity|].
  rewrite sort_insert_perm. now constructor.
Qed.

Lemma sort_insert_sorted x l :
  StronglySorted desc l -> StronglySorted desc (sort_insert cmp x l).
Proof.
  induction 1 as [|y l Hs IH Hy]; simpl.
  - constructor; constructor.
  - destruct (cmp x y <=? 0)%Z eqn:E; unfold cmp in E.
    + apply Z.leb_le in E. constructor; [now constructor|].
      constructor; [unfold desc; lia|].
      eapply Forall_impl; [exact Hy|]. unfold desc. intros z Hz. simpl in Hz. lia.
    + apply Z.leb_gt in E. constructor; [exact IH|].
      rewrite sort_insert_perm. constructor; [unfold desc; lia|exact Hy].
Qed.

Lemma Array_sort_sorted l : StronglySorted desc (Array_sort cmp l).
Proof.
  induction l as [|x l IH]; simpl; [constructor|].
  apply sort_insert_sorted, IH.
Qed.

(** Insertion never moves an element across one of the same key. *)
Lemma sort_insert_stable s x l :
  List.filter (fun a => (key a =? s)%Z) (sort_insert cmp x l)
  = List.filter (fun a => (key a =? s)%Z) (x :: l).
Proof.
  induction l as [|y l IH]; [reflexivity|].
  simpl sort_insert. destruct (cmp x y <=? 0)%Z eqn:E; [reflexivity|].
  unfold cmp in E. apply Z.leb_gt in E.
  simpl. simpl in IH. rewrite IH.
  destruct (key y =? s)%Z eqn:Ey, (key x =? s)%Z eqn:Ex; try reflexivity.
  apply Z.eqb_eq in Ey, Ex. lia.
Qed.

Lemma Array_sort_stable s l :
  List.filter (fun a => (key a =? s)%Z) (Array_sort cmp l)
  = List.filter (fun a => (key a =? s)%Z) l.
Proof.
  induction l as [|x l IH]; [reflexivity|].
  simpl Array_sort. rewrite sort_insert_stable. simpl. now rewrite IH.
Qed.

End Sorting.

Lemma filter_firstn {A} (p : A -> bool) (l : list A) : forall n,
  exists k, List.filter p (firstn n l) = firstn k (List.filter p l).
Proof.
  induction l as [|x l IH]; intros n.
  - exists 0%nat. now destruct n.
  - destruct n as [|n]; [now exists 0%nat|].
    destruct (IH n) as [k Hk]. simpl. destruct (p x).
    + exists (S k). simpl. now rewrite Hk.
    + exists k. exact Hk.
Qed.

Lemma Array_slice0_firstn {A} (l : list A) finish :
  exists n, Array_slice0 l finish = firstn n l.
Proof. unfold Array_slice0. eauto. Qed.

Lemma Array_slice0_length {A} (l : list A) finish :
  (0 <= finish)%Z -> (Z.of_nat (length (Array_slice0 l finish)) <= finish)%Z.
Proof.
  intros H. unfold Array_slice0.
  destruct (finish <? 0)%Z eqn:E; [apply Z.ltb_lt in E; lia|].
  rewrite length_firstn. lia.
Qed.

Section Ranking.

Variable keywords : list string.
Local Open Scope list_scope.

Lemma verse_score_from verseText : forall ks acc,
  fold_left (add_keyword verseText) ks acc
  = (acc + total_length (matching_keywords verseText ks))%Z.
Proof.
  induction ks as [|k ks IH]; intros acc; simpl; [lia|].
  rewrite IH. unfold add_keyword. destruct (includes verseText k); simpl; lia.
Qed.

Lemma verse_score_sum verseText ks :
  verse_score verseText ks = total_length (matching_keywords verseText ks).
Proof. unfold verse_score. now rewrite verse_score_from. Qed.

Lemma scan_verse_app surah acc verse :
  scan_verse keywords surah acc verse = acc ++ candidate keywords surah verse.
Proof.
  unfold candidate, scan_verse.
  destruct (negb (truthy (QuranVerse.translation verse))); [now rewrite app_nil_r|].
  destruct (0 <? _)%Z; [reflexivity|now rewrite app_nil_r].
Qed.

Lemma scan_surah_app surah : forall acc,
  scan_surah keywords acc surah
  = acc ++ flat_map (candidate keywords surah) (QuranSurah.verses surah).
Proof.
  unfold scan_surah. induction (QuranSurah.verses surah) as [|v vs IH];
    intros acc; simpl; [now rewrite app_nil_r|].
  rewrite IH, scan_verse_app. now rewrite <- app_assoc.
Qed.

(** [relevantVerses] lists the scoring verses in corpus order: chapter by
    chapter, and verse by verse within a chapter. *)
Lemma collect_relevant_corpus_order quranData :
  collect_relevant quranData keywords
  = flat_map (fun surah =>
                flat_map (candidate keywords surah) (QuranSurah.verses surah))
      quranData.
Proof.
  unfold collect_relevant.
  assert (H : forall acc,
             fold_left (scan_surah keywords) quranData acc
             = acc ++ flat_map (fun surah =>
                          flat_map (candidate keywords surah)
                            (QuranSurah.verses surah)) quranData).
  { induction quranData as [|su sus IH]; intros acc; simpl;
      [now rewrite app_nil_r|].
    rewrite IH, scan_surah_app. now rewrite <- app_assoc. }
  apply (H []).
Qed.

Lemma candidate_scored surah verse :
  Forall (scored_by keywords) (candidate keywords surah verse).
Proof.
  unfold candidate, scan_verse.
  destruct (negb (truthy (QuranVerse.translation verse))); [constructor|].
  destruct (0 <? _)%Z eqn:E; [|constructor].
  apply Z.ltb_lt in E. constructor; [|constructor].
  split; simpl; [exact E|apply verse_score_sum].
Qed.

Lemma collect_relevant_scored quranData :
  Forall (scored_by keywords) (collect_relevant quranData keywords).
Proof.
  rewrite collect_relevant_corpus_order.
  induction quranData as [|su sus IH]; simpl; [constructor|].
  apply Forall_app. split; [|exact IH].
  induction (QuranSurah.verses su) as [|v vs IHv]; simpl; [constructor|].
  apply Forall_app. split; [apply candidate_scored|exact IHv].
Qed.

Lemma findRelevantVerses_scored quranData limit :
  Forall (scored_by keywords) (findRelevantVerses quranData keywords limit).
Proof.
  unfold findRelevantVerses.
  destruct (Array_slice0_firstn
              (Array_sort by_score_desc (collect_relevant quranData keywords))
              limit) as [n ->].
  apply Forall_map.
  apply Forall_take.
  eapply Permutation_Forall; [symmetry; apply (Array_sort_perm score)|].
  apply collect_relevant_scored.
Qed.

Lemma filter_with_reference s l :
  List.filter (has_score s) (map with_reference l)
  = map with_reference (List.filter (has_score s) l).
Proof.
  induction l as [|v l IH]; [reflexivity|].
  cbn [map List.filter]. rewrite IH.
  change (has_score s (with_reference v)) with (has_score s v).
  now destruct (has_score s v).
Qed.

Lemma with_reference_sorted l :
  by_descending_score l -> by_descending_score (map with_reference l).
Proof.
  unfold by_descending_score. induction 1 as [|v l Hs IH Hv]; simpl; constructor.
  - exact IH.
  - apply Forall_map. exact Hv.
Qed.

Lemma firstn_sorted n : forall l,
  by_descending_score l -> by_descending_score (firstn n l).
Proof.
  unfold by_descending_score. induction n as [|n IH]; intros l H; [constructor|].
  destruct H as [|v l Hs Hv]; simpl; constructor.
  - apply IH, Hs.
  - apply Forall_take. exact Hv.
Qed.

End Ranking.

Section RankingFacts.

Local Open Scope Z_scope.
Local Open Scope list_scope.

Lemma firstn_In {A} (l : list A) : forall n x, In x (firstn n l) -> In x l.
Proof.
  induction l as [|y l IH]; intros [|n] x H; try contradiction.
  destruct H as [<- | H]; [now left|right; now apply (IH n)].
Qed.

Lemma skipn_In {A} (l : list A) : forall n x, In x (skipn n l) -> In x l.
Proof.
  induction l as [|y l IH]; intros [|n] x H; try assumption.
  right. now apply (IH n).
Qed.

Lemma sorted_firstn_skipn {A} (R : A -> A -> Prop) (l : list A) :
  StronglySorted R l ->
  forall n a b, In a (firstn n l) -> In b (skipn n l) -> R a b.
Proof.
  induction 1 as [|x l Hs IH Hx]; intros n a b Ha Hb.
  - now destruct n.
  - destruct n as [|n]; [contradiction|].
    cbn [firstn skipn] in Ha, Hb. destruct Ha as [<- | Ha].
    + rewrite List.Forall_forall in Hx. apply Hx.
      apply (skipn_In l n b Hb).
    + now apply (IH n).
Qed.

Lemma findRelevantVerses_firstn quranData keywords limit :
  0 <= limit ->
  findRelevantVerses quranData keywords limit
  = map with_reference
      (firstn (Z.to_nat limit)
         (Array_sort by_score_desc (collect_relevant quranData keywords))).
Proof.
  intros H. unfold findRelevantVerses, Array_slice0. cbv zeta.
  destruct (limit <? 0) eqn:E; [apply Z.ltb_lt in E; lia|]. f_equal.
  destruct (Z.min_spec limit
              (Z.of_nat (length (Array_sort by_score_desc
                                   (collect_relevant quranData keywords)))))
    as [[_ ->] | [Hle ->]]; [reflexivity|].
  rewrite Nat2Z.id, firstn_all. symmetry. apply firstn_all2. lia.
Qed.

Lemma or_else_empty a : or_else a "" = a.
Proof. unfold or_else, truthy. now destruct (String.eqb_spec a "") as [->|]. Qed.

Lemma candidate_source keywords surah verse v :
  In v (candidate keywords surah verse) ->
  truthy (QuranVerse.translation verse) = true /\
  v = {| surah_id := QuranSurah.id surah;
         surah_name := QuranSurah.name surah;
         surah_name_arabic := QuranSurah.name surah;
         verse_id := QuranVerse.id verse;
         verse_text_arabic := QuranVerse.text verse;
         verse_text_translation := QuranVerse.translation verse;
         score := verse_score (toLowerCase (QuranVerse.translation verse))
                    keywords;
         reference := None |}.
Proof.
  unfold candidate, scan_verse.
  destruct (truthy (QuranVerse.translation verse)); cbn [negb]; [|contradiction].
  cbv zeta. destruct (0 <? _); [|contradiction].
  rewrite or_else_empty. intros [<- | []]. now split.
Qed.

Lemma collect_relevant_source quranData keywords v :
  In v (collect_relevant quranData keywords) ->
  exists surah verse,
    In surah quranData /\ In verse (QuranSurah.verses surah) /\
    In v (candidate keywords surah verse).
Proof.
  rewrite collect_relevant_corpus_order. intros H.
  apply in_flat_map in H as (surah & Hs & H).
  apply in_flat_map in H as (verse & Hv & H).
  now exists surah, verse.
Qed.

Lemma findRelevantVerses_source quranData keywords limit v :
  In v (findRelevantVerses quranData keywords limit) ->
  exists c, In c (collect_relevant quranData keywords) /\ v = with_reference c.
Proof.
  unfold findRelevantVerses.
  destruct (Array_slice0_firstn
              (Array_sort by_score_desc (collect_relevant quranData keywords))
              limit) as [n ->].
  intros H. apply in_map_iff in H as (c & <- & Hc).
  exists c. split; [|reflexivity].
  apply (Permutation_in c (Array_sort_perm score _)).
  exact (firstn_In _ _ _ Hc).
Qed.

(** The loops collect exactly the verses the specification names. *)
Lemma candidate_spec keywords surah verse :
  candidate keywords surah verse
  = if spec_relevant keywords verse then [spec_entry keywords surah verse]
    else [].
Proof.
  unfold candidate, scan_verse, spec_relevant, spec_entry, spec_score.
  destruct (truthy (QuranVerse.translation verse)); cbn [negb andb];
    [|reflexivity].
  cbv zeta. rewrite verse_score_sum, or_else_empty.
  now destruct (0 <? _).
Qed.

Lemma collect_relevant_spec quranData keywords :
  collect_relevant quranData keywords = spec_candidates quranData keywords.
Proof.
  rewrite collect_relevant_corpus_order. unfold spec_candidates.
  apply flat_map_ext. intros surah.
  induction (QuranSurah.verses surah) as [|v vs IH]; [reflexivity|].
  cbn [flat_map List.filter]. rewrite IH, candidate_spec.
  now destruct (spec_relevant keywords v).
Qed.

Lemma In_spec_candidates quranData keywords c :
  In c (spec_candidates quranData keywords) <->
  exists surah verse,
    In surah quranData /\ In verse (QuranSurah.verses surah) /\
    spec_relevant keywords verse = true /\ c = spec_entry keywords surah verse.
Proof.
  unfold spec_candidates. rewrite in_flat_map. split.
  - intros (surah & Hs & Hc). apply in_map_iff in Hc as (verse & <- & Hv).
    apply List.filter_In in Hv as [Hv Hr]. now exists surah, verse.
  - intros (surah & verse & Hs & Hv & Hr & ->). exists surah. split; [exact Hs|].
    apply in_map, List.filter_In. now split.
Qed.

(** With room for every candidate, all of them are returned. *)
Lemma findRelevantVerses_all quranData keywords limit :
  Z.of_nat (length (spec_candidates quranData keywords)) <= limit ->
  Permutation (findRelevantVerses quranData keywords limit)
    (map with_reference (spec_candidates quranData keywords)).
Proof.
  intros H. rewrite findRelevantVerses_firstn by lia.
  rewrite collect_relevant_spec. apply Permutation_map.
  rewrite firstn_all2; [apply (Array_sort_perm score)|].
  rewrite (Permutation_length (Array_sort_perm score _)). lia.
Qed.

Lemma findRelevantVerses_count quranData keywords limit :
  0 <= limit ->
  Z.of_nat (length (findRelevantVerses quranData keywords limit))
  = Z.min limit (Z.of_nat (length (spec_candidates quranData keywords))).
Proof.
  intros H. rewrite findRelevantVerses_firstn by lia.
  rewrite length_map, length_firstn.
  rewrite (Permutation_length (Array_sort_perm score _)), collect_relevant_spec.
  lia.
Qed.

Lemma findRelevantVerses_spec_source quranData keywords limit v :
  In v (findRelevantVerses quranData keywords limit) ->
  In v (map with_reference (spec_candidates quranData keywords)).
Proof.
  intros H. apply findRelevantVerses_source in H as (c & Hc & ->).
  apply in_map. now rewrite <- collect_relevant_spec.
Qed.

End RankingFacts.

(** C3, as amended. The list [findRelevantVerses] returns is ordered by
    non-increasing score; the entries of any one score are a prefix of the
    corpus-order list of the verses of that score; no entry has score 0; and
    for a limit that is not negative the list has at most that many
    entries. *)
Theorem findRelevantVerses_ranked quranData keywords limit :
  by_descending_score (findRelevantVerses quranData keywords limit) /\
  (forall s, exists k,
     List.filter (has_score s) (findRelevantVerses quranData keywords limit)
     = map with_reference
         (firstn k (List.filter (has_score s)
                      (collect_relevant quranData keywords)))) /\
  Forall (fun v => (0 < score v)%Z) (findRelevantVerses quranData keywords limit) /\
  ((0 <= limit)%Z ->
   (Z.of_nat (length (findRelevantVerses quranData keywords limit)) <= limit)%Z).
Proof.
  repeat split.
  - unfold findRelevantVerses.
    destruct (Array_slice0_firstn
                (Array_sort by_score_desc (collect_relevant quranData keywords))
                limit) as [n ->].
    apply with_reference_sorted, firstn_sorted. apply (Array_sort_sorted score).
  - intros s. unfold findRelevantVerses.
    destruct (Array_slice0_firstn
                (Array_sort by_score_desc (collect_relevant quranData keywords))
                limit) as [n ->].
    rewrite filter_with_reference.
    destruct (filter_firstn (has_score s)
                (Array_sort by_score_desc (collect_relevant quranData keywords)) n)
      as [k ->].
    exists k. unfold has_score. now rewrite (Array_sort_stable score).
  - eapply Forall_impl; [apply findRelevantVerses_scored|].
    intros v Hv. apply Hv.
  - intros H. unfold findRelevantVerses. rewrite length_map.
    apply Array_slice0_length, H.
Qed.

Lemma findRelevantVerses_ranked_witness :
  (0 <= 1)%Z /\
  (Z.of_nat (length (findRelevantVerses sampleData
                       (extractKeywords "Apa itu Allah?") 1)) <= 1)%Z.
Proof.
  split; [lia|].
  destruct (findRelevantVerses_ranked sampleData
              (extractKeywords "Apa itu Allah?") 1) as (_ & _ & _ & Hlen).
  apply Hlen. lia.
Defined.

(** C3 as stated fails for a negative limit: [slice(0, -1)] drops the last
    entry only, so two matching verses leave one entry, which is more
    than -1. *)
Lemma negative_limit_exceeded :
  length (findRelevantVerses sampleData (extractKeywords "Apa itu Allah?") (-1))
    = 1%nat /\
  (-1 <? Z.of_nat (length (findRelevantVerses sampleData
                             (extractKeywords "Apa itu Allah?") (-1))))%Z
    = true.
Proof. split; vm_compute; reflexivity. Qed.

(** C4. The score [findRelevantVerses] computes for a verse is the sum of
    the character lengths of the keywords (each entry of the keyword list)
    that are contained in the lower-cased translation of the verse; every
    entry it returns carries that score; the score depends on the text
    only through which keywords it contains, not through how often. The
    verses the loops record are exactly the verses of the corpus that have
    a translation and a positive such sum, each with that sum as score:
    every result is one of them, and with room for all of them each one is
    a result, under its reference. *)
Theorem score_is_total_length_of_matching_keywords :
  (forall verseText keywords,
     verse_score verseText keywords
     = total_length (matching_keywords verseText keywords)) /\
  (forall quranData keywords limit,
     Forall (fun v =>
               score v = total_length
                           (matching_keywords
                              (toLowerCase (verse_text_translation v)) keywords))
       (findRelevantVerses quranData keywords limit)) /\
  (forall text1 text2 keywords,
     (forall k, In k keywords -> includes text1 k = includes text2 k) ->
     verse_score text1 keywords = verse_score text2 keywords) /\
  verse_score "sabar, sabar dan sabar" ["sabar"] = 5%Z /\
  (forall quranData keywords,
     collect_relevant quranData keywords = spec_candidates quranData keywords) /\
  (forall quranData keywords limit v,
     In v (findRelevantVerses quranData keywords limit) ->
     In v (map with_reference (spec_candidates quranData keywords))) /\
  (forall quranData keywords limit,
     (Z.of_nat (length (spec_candidates quranData keywords)) <= limit)%Z ->
     Permutation (findRelevantVerses quranData keywords limit)
       (map with_reference (spec_candidates quranData keywords))) /\
  (forall quranData keywords limit surah verse,
     In surah quranData -> In verse (QuranSurah.verses surah) ->
     truthy (QuranVerse.translation verse) = true ->
     (0 < spec_score keywords verse)%Z ->
     (Z.of_nat (length (spec_candidates quranData keywords)) <= limit)%Z ->
     In (with_reference (spec_entry keywords surah verse))
       (findRelevantVerses quranData keywords limit)) /\
  map (fun v => (verse_id v, score v))
    (findRelevantVerses sampleData ["allah"; "tuhan"] 3)
  = [(2, 10); (1, 5)]%Z.
Proof.
  split; [apply verse_score_sum|]. split; [|split; [|split]].
  - intros quranData keywords limit.
    eapply Forall_impl; [apply findRelevantVerses_scored|].
    intros v Hv. apply Hv.
  - intros text1 text2 keywords H. rewrite !verse_score_sum.
    unfold matching_keywords. f_equal.
    induction keywords as [|k ks IH]; [reflexivity|]. simpl.
    rewrite (H k) by now left.
    rewrite IH by (intros k' Hk'; apply H; now right). reflexivity.
  - reflexivity.
  - split; [apply collect_relevant_spec|].
    split; [apply findRelevantVerses_spec_source|].
    split; [apply findRelevantVerses_all|]. split; [|vm_compute; reflexivity].
    intros quranData keywords limit surah verse Hs Hv Ht Hscore Hroom.
    apply (Permutation_in _
             (Permutation_sym (findRelevantVerses_all _ _ _ Hroom))).
    apply in_map, In_spec_candidates. exists surah, verse.
    repeat split; try assumption.
    unfold spec_relevant. rewrite Ht. now apply Z.ltb_lt.
Qed.

(** ** Keyword extraction *)

Section Keywords.

(** After lower-casing and blanking, the separators are exactly the
    characters that were not word characters. *)
Lemma normalise_char_space c : is_space (normalise_char c) = not_word c.
Proof.
  destruct c as [b0 b1 b2 b3 b4 b5 b6 b7];
    destruct b0, b1, b2, b3, b4, b5, b6, b7; reflexivity.
Qed.

Lemma normalise_char_word c :
  is_word c = true -> normalise_char c = char_toLowerCase c.
Proof.
  destruct c as [b0 b1 b2 b3 b4 b5 b6 b7];
    destruct b0, b1, b2, b3, b4, b5, b6, b7; (discriminate || reflexivity).
Qed.

Lemma map_chars_compose f g s : map_chars f (map_chars g s) = map_chars (fun c => f (g c)) s.
Proof. induction s as [|c r IH]; simpl; [reflexivity|now rewrite IH]. Qed.

Lemma map_chars_length f s : String.length (map_chars f s) = String.length s.
Proof. induction s as [|c r IH]; simpl; [reflexivity|now rewrite IH]. Qed.

Lemma map_chars_ext f g P s :
  (forall c, P c = true -> f c = g c) -> all_chars P s = true ->
  map_chars f s = map_chars g s.
Proof.
  intros H. induction s as [|c r IH]; simpl; [reflexivity|].
  intros Hc. apply andb_prop in Hc as [Hc Hr]. now rewrite (H c Hc), IH.
Qed.

(** Splitting commutes with a character map that respects the separators. *)
Lemma split_runs_map_chars sep sep' f :
  (forall c, sep (f c) = sep' c) ->
  forall s in_run,
    split_runs sep in_run (map_chars f s)
    = map (map_chars f) (split_runs sep' in_run s).
Proof.
  intros H. induction s as [|c r IH]; intros in_run; simpl; [reflexivity|].
  rewrite H. destruct (sep' c).
  - destruct in_run; simpl; now rewrite IH.
  - rewrite IH. now destruct (split_runs sep' false r).
Qed.

(** No piece of a split contains a separator. *)
Lemma split_runs_pieces sep : forall s in_run,
  Forall (fun piece => all_chars (fun c => negb (sep c)) piece = true)
    (split_runs sep in_run s).
Proof.
  induction s as [|c r IH]; intros in_run; simpl.
  - now repeat constructor.
  - destruct (sep c) eqn:E.
    + destruct in_run; [apply IH|]. constructor; [reflexivity|apply IH].
    + specialize (IH false). destruct (split_runs sep false r) as [|p ps].
      * repeat constructor. simpl. now rewrite E.
      * apply Forall_cons_iff in IH as [Hp Hps].
        constructor; [|exact Hps]. simpl. now rewrite E, Hp.
Qed.

(** The tokens [extractKeywords] filters are the lower-cased pieces of the
    question between characters that are not word characters. *)
Lemma tokens_are_lowercased_runs question :
  split_whitespace (replace_punctuation (toLowerCase question))
  = map toLowerCase (split_runs not_word false question).
Proof.
  unfold split_whitespace, replace_punctuation, toLowerCase.
  rewrite map_chars_compose.
  rewrite (split_runs_map_chars is_space not_word)
    by (intros c; apply normalise_char_space).
  pose proof (split_runs_pieces not_word question false) as Hp.
  induction Hp as [|p ps Hp _ IH]; [reflexivity|]. simpl. rewrite IH. f_equal.
  apply (map_chars_ext _ _ is_word); [|].
  - intros c Hc. apply (normalise_char_word c Hc).
  - erewrite <- Hp. clear. induction p as [|c r IH]; simpl; [reflexivity|].
    unfold not_word at 1. rewrite negb_involutive. now rewrite IH.
Qed.

Lemma insignificant_not_keyword word :
  insignificant word = true -> is_keyword (toLowerCase word) = false.
Proof.
  unfold insignificant, is_keyword, toLowerCase. rewrite map_chars_length.
  intros H. apply orb_prop in H as [H|H].
  - apply Nat.leb_le in H.
    destruct (2 <? String.length word)%nat eqn:E; [|reflexivity].
    apply Nat.ltb_lt in E. lia.
  - unfold toLowerCase in H. rewrite H. apply andb_false_r.
Qed.

Lemma filter_none {A} (p : A -> bool) (l : list A) :
  Forall (fun x => p x = false) l -> List.filter p l = [].
Proof.
  induction 1 as [|x l Hx _ IH]; [reflexivity|]. simpl. now rewrite Hx.
Qed.

Lemma no_keywords_no_verses quranData limit :
  findRelevantVerses quranData [] limit = [].
Proof.
  unfold findRelevantVerses. rewrite collect_relevant_corpus_order.
  assert (H : flat_map (fun surah =>
                flat_map (candidate [] surah) (QuranSurah.verses surah))
                quranData = []).
  { induction quranData as [|su sus IH]; [reflexivity|]. simpl. rewrite IH.
    rewrite app_nil_r.
    induction (QuranSurah.verses su) as [|v vs IHv]; [reflexivity|].
    simpl. rewrite IHv, app_nil_r. unfold candidate, scan_verse.
    now destruct (negb (truthy (QuranVerse.translation v))). }
  rewrite H. unfold Array_slice0. simpl. now rewrite firstn_nil.
Qed.

(** *** The runs of an assembled question are its words *)

Lemma append_cons c (r s : string) : String c r ++ s = String c (r ++ s).
Proof. reflexivity. Qed.

Lemma append_nil_l (s : string) : "" ++ s = s.
Proof. reflexivity. Qed.

Lemma append_nil_r (s : string) : s ++ "" = s.
Proof.
  induction s as [|c r IH]; [reflexivity|]. now rewrite append_cons, IH.
Qed.

Lemma split_runs_nonempty sep s in_run : split_runs sep in_run s <> [].
Proof.
  revert in_run. induction s as [|c r IH]; intros in_run; simpl; [discriminate|].
  destruct (sep c).
  - destruct in_run; [apply IH|discriminate].
  - now destruct (split_runs sep false r).
Qed.

Lemma split_runs_skip_gap sep gap s :
  all_chars sep gap = true ->
  split_runs sep true (gap ++ s) = split_runs sep true s.
Proof.
  induction gap as [|c r IH]; [reflexivity|].
  rewrite append_cons. simpl.
  intros H. apply andb_prop in H as [Hc Hr]. rewrite Hc. now apply IH.
Qed.

Lemma split_runs_enter_gap sep gap s :
  all_chars sep gap = true -> truthy gap = true ->
  split_runs sep false (gap ++ s) = "" :: split_runs sep true s.
Proof.
  destruct gap as [|c r]; [discriminate|].
  rewrite append_cons. simpl.
  intros H _. apply andb_prop in H as [Hc Hr]. rewrite Hc.
  now rewrite split_runs_skip_gap.
Qed.

Lemma split_runs_word sep word s :
  all_chars (fun c => negb (sep c)) word = true ->
  split_runs sep false (word ++ s)
  = match split_runs sep false s with
    | piece :: pieces => (word ++ piece) :: pieces
    | [] => [word]
    end.
Proof.
  induction word as [|c r IH].
  - intros _. pose proof (split_runs_nonempty sep s false) as Hne.
    rewrite append_nil_l.
    destruct (split_runs sep false s) as [|p ps]; [congruence|reflexivity].
  - rewrite append_cons. simpl.
    intros H. apply andb_prop in H as [Hc Hr]. apply negb_true_iff in Hc.
    rewrite Hc, (IH Hr). now destruct (split_runs sep false s).
Qed.

Lemma split_runs_leading_word sep word s :
  all_chars (fun c => negb (sep c)) word = true -> truthy word = true ->
  split_runs sep true (word ++ s) = split_runs sep false (word ++ s).
Proof.
  destruct word as [|c r]; [discriminate|].
  rewrite append_cons. simpl.
  intros H _. apply andb_prop in H as [Hc _]. apply negb_true_iff in Hc.
  now rewrite Hc.
Qed.

Lemma is_word_not_word word :
  all_chars is_word word = true ->
  all_chars (fun c => negb (not_word c)) word = true.
Proof.
  induction word as [|c r IH]; simpl; [reflexivity|].
  intros H. apply andb_prop in H as [Hc Hr].
  unfold not_word at 1. now rewrite Hc, IH.
Qed.

Lemma runs_after_gap parts : forall gap in_run,
  all_chars not_word gap = true ->
  (truthy gap || in_run
   || match parts with [] => true | _ :: _ => false end)%bool = true ->
  well_separated parts = true ->
  List.filter truthy (split_runs not_word in_run (assemble gap parts))
  = map fst parts.
Proof.
  induction parts as [|[word gap'] rest IH]; intros gap in_run Hgap Hsep Hws.
  - simpl. clear Hsep Hws. revert in_run.
    induction gap as [|c r IHg]; intros in_run; [reflexivity|].
    simpl in *. apply andb_prop in Hgap as [Hc Hr]. rewrite Hc.
    destruct in_run; simpl; rewrite (IHg Hr); reflexivity.
  - simpl in Hws. repeat (apply andb_prop in Hws as [Hws ?]).
    rename H into Hrest, H0 into Hlast, H1 into Hgap', H2 into Hword.
    assert (Hw : List.filter truthy
                   (split_runs not_word false (word ++ assemble gap' rest))
                 = word :: map fst rest).
    { rewrite split_runs_word by now apply is_word_not_word.
      destruct (truthy gap') eqn:Tg.
      - destruct rest as [|p rest'].
        + simpl assemble. rewrite <- (append_nil_r gap') at 1.
          rewrite split_runs_enter_gap by assumption. simpl.
          rewrite append_nil_r, Hws. reflexivity.
        + assert (E : assemble gap' (p :: rest')
                      = gap' ++ assemble "" (p :: rest')).
          { destruct p. reflexivity. }
          rewrite E, split_runs_enter_gap by assumption.
          simpl List.filter. rewrite append_nil_r, Hws. f_equal.
          apply (IH "" true); [reflexivity|reflexivity|exact Hrest].
      - destruct rest as [|p rest']; [|discriminate].
        unfold truthy in Tg. apply negb_false_iff, String.eqb_eq in Tg.
        subst gap'. simpl. rewrite append_nil_r, Hws. reflexivity. }
    simpl assemble. destruct (truthy gap) eqn:Tg.
    + destruct in_run.
      * rewrite split_runs_skip_gap by assumption.
        rewrite split_runs_leading_word
          by (try assumption; now apply is_word_not_word).
        exact Hw.
      * rewrite split_runs_enter_gap by assumption. simpl List.filter.
        rewrite split_runs_leading_word
          by (try assumption; now apply is_word_not_word).
        exact Hw.
    + unfold truthy in Tg. apply negb_false_iff, String.eqb_eq in Tg.
      subst gap. rewrite append_nil_l. destruct in_run.
      * rewrite split_runs_leading_word
          by (try assumption; now apply is_word_not_word).
        exact Hw.
      * exact Hw.
Qed.

(** The maximal runs of word characters of a question assembled from
    words and gaps are its words, in order. *)
Lemma word_runs_assemble lead parts :
  all_chars not_word lead = true -> well_separated parts = true ->
  word_runs (assemble lead parts) = map fst parts.
Proof.
  intros Hlead Hws. unfold word_runs.
  destruct parts as [|p rest] eqn:E.
  - apply (runs_after_gap [] lead false Hlead); [now rewrite orb_true_r|exact Hws].
  - rewrite <- E in *. clear E p rest. 
    destruct (truthy lead) eqn:T.
    + apply runs_after_gap; [exact Hlead|now rewrite T|exact Hws].
    + unfold truthy in T. apply negb_false_iff, String.eqb_eq in T. subst lead.
      destruct parts as [|[word gap] rest]; [reflexivity|].
      simpl in Hws. repeat (apply andb_prop in Hws as [Hws ?]).
      change (assemble "" ((word, gap) :: rest)) with (word ++ assemble gap rest).
      rewrite <- split_runs_leading_word
        by (try assumption; now apply is_word_not_word).
      change (word ++ assemble gap rest) with (assemble "" ((word, gap) :: rest)).
      apply runs_after_gap; [reflexivity|reflexivity|].
      simpl. now rewrite Hws, H2, H1, H0, H.
Qed.

Lemma extractKeywords_insignificant question :
  forallb insignificant (word_runs question) = true ->
  extractKeywords question = [].
Proof.
  intros H. unfold extractKeywords. rewrite tokens_are_lowercased_runs.
  apply filter_none. apply Forall_map.
  unfold word_runs in H. rewrite forallb_forall in H.
  apply List.Forall_forall. intros piece Hin. simpl.
  destruct (truthy piece) eqn:T.
  - apply insignificant_not_keyword, H. apply List.filter_In. now split.
  - unfold truthy in T. apply negb_false_iff, String.eqb_eq in T.
    subst piece. reflexivity.
Qed.

(** C7. When every maximal run of word characters of the question is a
    stop-word (in any letter case) or has at most two characters,
    [extractKeywords] returns the empty list, and [findRelevantVerses]
    returns the empty list on that keyword list, whatever the corpus and
    the limit. *)
Theorem insignificant_question_yields_nothing question :
  forallb insignificant (word_runs question) = true ->
  extractKeywords question = [] /\
  forall quranData limit,
    findRelevantVerses quranData (extractKeywords question) limit = [].
Proof.
  intros H. pose proof (extractKeywords_insignificant question H) as E.
  split; [exact E|]. intros quranData limit. rewrite E.
  apply no_keywords_no_verses.
Qed.

Lemma insignificant_question_witness :
  forallb insignificant (word_runs "Apa itu? What is it, and WHO is on to-do?")
    = true /\
  extractKeywords "Apa itu? What is it, and WHO is on to-do?" = [].
Proof.
  split; [vm_compute; reflexivity|].
  apply (insignificant_question_yields_nothing
           "Apa itu? What is it, and WHO is on to-do?").
  vm_compute; reflexivity.
Defined.

(** In particular, a question written with insignificant words only --
    whatever the characters between them -- has no keyword. *)
Corollary insignificant_words_yield_nothing lead parts :
  all_chars not_word lead = true -> well_separated parts = true ->
  forallb insignificant (map fst parts) = true ->
  extractKeywords (assemble lead parts) = [].
Proof.
  intros Hlead Hws Hall. apply extractKeywords_insignificant.
  now rewrite word_runs_assemble.
Qed.

End Keywords.

(** ** Language selection *)

Section Language.

Variables (question language : string) (relevantVerses : list RelevantVerse).
Hypothesis not_id : String.eqb language "id" = false.

Lemma verse_context_unrecognised v :
  verse_context language v = verse_context "en" v.
Proof. unfold verse_context. now rewrite not_id. Qed.

Lemma createQuranPrompt_unrecognised :
  createQuranPrompt question relevantVerses language
  = createQuranPrompt question relevantVerses "en".
Proof.
  unfold createQuranPrompt. rewrite not_id.
  change (String.eqb "en" "id") with false. cbv iota.
  destruct relevantVerses as [|v vs]; [reflexivity|].
  now rewrite (map_ext _ _ verse_context_unrecognised).
Qed.

Lemma createQuranPrompt_not_primary :
  String.eqb (createQuranPrompt question relevantVerses language)
    (createQuranPrompt question relevantVerses "id") = false.
Proof.
  rewrite createQuranPrompt_unrecognised.
  destruct relevantVerses; reflexivity.
Qed.

End Language.

(** C5, as the code has it. For a language code other than [id] and [en]
    the system prompt is the [id] text, unless the code is the name of a
    member the object literal inherits, in which case it is that member and
    no text at all; but [createQuranPrompt] and the two fallback answers
    are the [en] variants, which differ from the [id] ones. *)
Theorem unrecognised_language_is_mixed
    (amb : Ambient) (question language : string)
    (relevantVerses : list RelevantVerse) (limitCheck : LimitCheck) :
  String.eqb language "id" = false -> String.eqb language "en" = false ->
  system_prompt_for language
    = (if inherited language then Inherited language
       else Text SYSTEM_PROMPTS_id) /\
  createQuranPrompt question relevantVerses language
    = createQuranPrompt question relevantVerses "en" /\
  String.eqb (createQuranPrompt question relevantVerses language)
    (createQuranPrompt question relevantVerses "id") = false /\
  AIResponseOutput.answer
    (limit_exceeded_response amb question language relevantVerses limitCheck)
    = AIResponseOutput.answer
        (limit_exceeded_response amb question "en" relevantVerses limitCheck) /\
  AIResponseOutput.answer (ai_error_response amb question language relevantVerses)
    = AIResponseOutput.answer (ai_error_response amb question "en" relevantVerses).
Proof.
  intros Hid Hen. repeat split.
  - unfold system_prompt_for, SYSTEM_PROMPTS. rewrite Hid, Hen.
    now destruct (inherited language).
  - now apply createQuranPrompt_unrecognised.
  - now apply createQuranPrompt_not_primary.
  - unfold limit_exceeded_response. simpl. now rewrite Hid.
  - unfold ai_error_response. simpl. now rewrite Hid.
Qed.

Lemma unrecognised_language_witness :
  system_prompt_for "fr" = Text SYSTEM_PROMPTS_id /\
  createQuranPrompt "Apa itu sabar?" [] "fr"
    = createQuranPrompt "Apa itu sabar?" [] "en" /\
  String.eqb (createQuranPrompt "Apa itu sabar?" [] "fr")
    (createQuranPrompt "Apa itu sabar?" [] "id") = false /\
  system_prompt_for "constructor" = Inherited "constructor".
Proof.
  destruct (unrecognised_language_is_mixed (sampleAmbient Thrown)
              "Apa itu sabar?" "fr" []
              (allowed_result 0 0)
              eq_refl eq_refl)
    as (H1 & H2 & H3 & _).
  destruct (unrecognised_language_is_mixed (sampleAmbient Thrown)
              "Apa itu sabar?" "constructor" []
              (allowed_result 0 0)
              eq_refl eq_refl)
    as (H4 & _).
  repeat split; assumption.
Defined.

(** ** The [/api/ask] handler *)

Section Handler.

Context `{NC : NumberConversions}.
Variables (amb : Ambient) (quranData : list QuranSurah.t) (body : AIRequest).
Variable q : string.
Hypothesis well_formed : well_formed_ask quranData body q.

Let language := language_of body.
Let relevantVerses := ranking_of quranData q.

(** A well-formed request reaches the gateway call. *)
Lemma fetchHandler_ask_reaches_gateway w :
  fetchHandler_ask amb quranData body w =
  match AI_run amb MODEL_ID (ask_input q language relevantVerses) with
  | Returned aiResponse =>
      after_generation amb q language (system_prompt_for language)
        (createQuranPrompt q relevantVerses language) relevantVerses aiResponse w
  | Thrown =>
      ({| status := 200;
          json := AskBody (ai_error_response amb q language relevantVerses) |},
       {| NEURON_LIMITER := NEURON_LIMITER w;
          console := (console w ++ ["AI Error:"])%list |})
  end.
Proof.
  destruct well_formed as (Hdata & Hq & Htruthy & Hlen).
  unfold fetchHandler_ask. destruct quranData as [|su sus]; [congruence|].
  assert (Hquestion : prop_or_else (question body) "" = q).
  { rewrite Hq. unfold prop_or_else, or_else. now rewrite Htruthy. }
  assert (Hlong : (500 <? String.length q)%nat = false).
  { apply Nat.leb_le in Hlen. apply Nat.ltb_ge. exact Hlen. }
  cbv zeta. rewrite Hquestion, Htruthy, Hlong. cbn [negb].
  fold (language_of body). fold language. fold (ranking_of (su :: sus) q).
  fold relevantVerses.
  destruct (AI_run amb MODEL_ID (ask_input q language relevantVerses));
    reflexivity.
Qed.

Lemma after_generation_admitted systemPrompt userPrompt aiResponse w :
  allowed (fst (checkAndUpdateNeuronLimit amb
                  (promptTokens_of aiResponse systemPrompt userPrompt)
                  (completionTokens_of aiResponse (answer_of aiResponse)) w))
    = true ->
  option_map (fun out => (AIResponseOutput.success out, AIResponseOutput.answer out))
    (ask_output (fst (after_generation amb q language systemPrompt userPrompt
                        relevantVerses aiResponse w)))
  = Some (true, answer_of aiResponse).
Proof.
  intros H. unfold after_generation, bind.
  destruct (checkAndUpdateNeuronLimit _ _ _ w) as [limitCheck w'].
  simpl in H. rewrite H. reflexivity.
Qed.

Lemma answer_of_nothing aiResponse :
  absent_or_empty (response aiResponse) ->
  absent_or_empty (content aiResponse) ->
  absent_or_empty (answer aiResponse) ->
  answer_of aiResponse = "".
Proof.
  unfold answer_of. intros [-> | ->] [-> | ->] [-> | ->]; reflexivity.
Qed.

End Handler.

(** *** What the caller receives for the ranked verses *)

Lemma verse_data_carries v : carries (verse_data v) v.
Proof. now repeat split. Qed.

Lemma verses_data_carry l : Forall2 carries (map verse_data l) l.
Proof.
  induction l as [|v l IH]; constructor; [apply verse_data_carries|exact IH].
Qed.

(** Every entry received is a verse of the corpus with a translation and a
    positive score, with its numbers, its texts and its reference. *)
Lemma verses_data_sound quranData keywords limit d :
  In d (map verse_data (findRelevantVerses quranData keywords limit)) ->
  exists surah verse,
    In surah quranData /\ In verse (QuranSurah.verses surah) /\
    truthy (QuranVerse.translation verse) = true /\
    (0 < spec_score keywords verse)%Z /\
    d = verse_received surah verse.
Proof.
  intros H. apply in_map_iff in H as (v & <- & Hv).
  apply findRelevantVerses_spec_source in Hv.
  apply in_map_iff in Hv as (c & <- & Hc).
  apply In_spec_candidates in Hc as (surah & verse & Hs & Hverse & Hr & ->).
  unfold spec_relevant in Hr. apply andb_prop in Hr as [Ht Hscore].
  exists surah, verse. repeat split; try assumption.
  now apply Z.ltb_lt.
Qed.

(** With room for all of them, every such verse is received. *)
Lemma verses_data_complete quranData keywords limit surah verse :
  In surah quranData -> In verse (QuranSurah.verses surah) ->
  truthy (QuranVerse.translation verse) = true ->
  (0 < spec_score keywords verse)%Z ->
  (Z.of_nat (length (spec_candidates quranData keywords)) <= limit)%Z ->
  In (verse_received surah verse)
    (map verse_data (findRelevantVerses quranData keywords limit)).
Proof.
  intros Hs Hv Ht Hscore Hroom.
  change (verse_received surah verse)
    with (verse_data (with_reference (spec_entry keywords surah verse))).
  apply in_map.
  apply (Permutation_in _
           (Permutation_sym (findRelevantVerses_all _ _ _ Hroom))).
  apply in_map, In_spec_candidates. exists surah, verse.
  repeat split; try assumption.
  unfold spec_relevant. rewrite Ht. now apply Z.ltb_lt.
Qed.

(** C6. When the gateway call of a well-formed request throws, the handler
    answers with [success = false], the error
    [AI service temporarily unavailable], no [limit_info], and as
    [verses_data] the projection of the ranking computed from the question
    and the corpus alone -- as many entries as the ranking has -- and the
    usage store is left as it was. Each entry carries, field for field,
    the numbers, the names, the texts and the reference of the ranked
    verse it stands for; the entries number the smaller of three and the
    count of the verses of the corpus with a translation and a positive
    score for the keywords of the question; each entry is such a verse; and
    when there are at most three such verses the caller receives every one
    of them. *)
Theorem generation_failure_keeps_verses `{NumberConversions}
    (amb : Ambient) (quranData : list QuranSurah.t) (body : AIRequest)
    (q : string) (w : World) :
  well_formed_ask quranData body q ->
  AI_run amb MODEL_ID (ask_input q (language_of body) (ranking_of quranData q))
    = Thrown ->
  exists out,
    fst (fetchHandler_ask amb quranData body w)
      = {| status := 200; json := AskBody out |} /\
    AIResponseOutput.success out = false /\
    AIResponseOutput.error out = Some "AI service temporarily unavailable" /\
    AIResponseOutput.limit_info out = None /\
    AIResponseOutput.verses_data out
      = map verse_data (ranking_of quranData q) /\
    length (AIResponseOutput.verses_data out)
      = length (ranking_of quranData q) /\
    NEURON_LIMITER (snd (fetchHandler_ask amb quranData body w))
      = NEURON_LIMITER w /\
    Forall2 carries (AIResponseOutput.verses_data out)
      (ranking_of quranData q) /\
    Z.of_nat (length (AIResponseOutput.verses_data out))
      = Z.min 3 (Z.of_nat (length (spec_candidates quranData
                                     (extractKeywords q)))) /\
    (forall d, In d (AIResponseOutput.verses_data out) ->
       exists surah verse,
         In surah quranData /\ In verse (QuranSurah.verses surah) /\
         truthy (QuranVerse.translation verse) = true /\
         (0 < spec_score (extractKeywords q) verse)%Z /\
         d = verse_received surah verse) /\
    (forall surah verse,
       In surah quranData -> In verse (QuranSurah.verses surah) ->
       truthy (QuranVerse.translation verse) = true ->
       (0 < spec_score (extractKeywords q) verse)%Z ->
       (Z.of_nat (length (spec_candidates quranData (extractKeywords q)))
        <= 3)%Z ->
       In (verse_received surah verse) (AIResponseOutput.verses_data out)).
Proof.
  intros Hwf Hthrown.
  rewrite (fetchHandler_ask_reaches_gateway amb quranData body q Hwf), Hthrown.
  eexists. split; [reflexivity|]. cbn [fst snd NEURON_LIMITER].
  unfold ai_error_response.
  cbn [AIResponseOutput.success AIResponseOutput.error
       AIResponseOutput.limit_info AIResponseOutput.verses_data].
  do 4 (split; [reflexivity|]). split; [apply length_map|].
  split; [reflexivity|]. split; [apply verses_data_carry|].
  unfold ranking_of. split; [|split].
  - rewrite length_map. apply findRelevantVerses_count. lia.
  - intros d. apply verses_data_sound.
  - intros surah verse. apply verses_data_complete.
Qed.

Lemma generation_failure_witness :
  exists out,
    fst (@fetchHandler_ask binary_conversions (sampleAmbient Thrown) sampleData
           sampleRequest emptyWorld)
      = {| status := 200; json := AskBody out |} /\
    AIResponseOutput.success out = false /\
    AIResponseOutput.error out = Some "AI service temporarily unavailable" /\
    AIResponseOutput.limit_info out = None /\
    AIResponseOutput.verses_data out
      = map verse_data (ranking_of sampleData "Apa itu Allah?") /\
    length (AIResponseOutput.verses_data out)
      = length (ranking_of sampleData "Apa itu Allah?") /\
    NEURON_LIMITER (snd (@fetchHandler_ask binary_conversions
                           (sampleAmbient Thrown) sampleData sampleRequest
                           emptyWorld))
      = NEURON_LIMITER emptyWorld /\
    Forall2 carries (AIResponseOutput.verses_data out)
      (ranking_of sampleData "Apa itu Allah?") /\
    Z.of_nat (length (AIResponseOutput.verses_data out)) = 2%Z.
Proof.
  destruct (@generation_failure_keeps_verses binary_conversions
              (sampleAmbient Thrown) sampleData sampleRequest "Apa itu Allah?"
              emptyWorld)
    as (out & H1 & H2 & H3 & H4 & H5 & H6 & H7 & H8 & H9 & _).
  - repeat split; try reflexivity. discriminate.
  - reflexivity.
  - exists out. repeat split; assumption.
Defined.

(** C10, as amended. When the gateway call of a well-formed request returns
    a response whose [response], [content] and [answer] are each absent or
    empty, and the daily-limit check admits the call, the handler answers
    with [success = true] and the empty string as [answer]. *)
Theorem empty_answer_is_success `{NumberConversions}
    (amb : Ambient) (quranData : list QuranSurah.t) (body : AIRequest)
    (q : string) (aiResponse : AIResponse) (w : World) :
  well_formed_ask quranData body q ->
  AI_run amb MODEL_ID (ask_input q (language_of body) (ranking_of quranData q))
    = Returned aiResponse ->
  absent_or_empty (response aiResponse) ->
  absent_or_empty (content aiResponse) ->
  absent_or_empty (answer aiResponse) ->
  allowed (fst (checkAndUpdateNeuronLimit amb
                  (promptTokens_of aiResponse
                     (system_prompt_for (language_of body))
                     (createQuranPrompt q (ranking_of quranData q)
                        (language_of body)))
                  (completionTokens_of aiResponse "") w)) = true ->
  option_map (fun out => (AIResponseOutput.success out, AIResponseOutput.answer out))
    (ask_output (fst (fetchHandler_ask amb quranData body w)))
  = Some (true, "").
Proof.
  intros Hwf Hret Hr Hc Ha Hallowed.
  rewrite (fetchHandler_ask_reaches_gateway amb quranData body q Hwf), Hret.
  pose proof (answer_of_nothing aiResponse Hr Hc Ha) as Hempty.
  transitivity (Some (true, answer_of aiResponse)); [|now rewrite Hempty].
  apply after_generation_admitted. rewrite Hempty. exact Hallowed.
Qed.

Lemma empty_answer_witness :
  option_map (fun out => (AIResponseOutput.success out, AIResponseOutput.answer out))
    (ask_output (fst (@fetchHandler_ask binary_conversions
                        (sampleAmbient (Returned emptyAnswer)) sampleData
                        sampleRequest emptyWorld)))
  = Some (true, "").
Proof.
  apply (@empty_answer_is_success binary_conversions
           (sampleAmbient (Returned emptyAnswer)) sampleData sampleRequest
           "Apa itu Allah?" emptyAnswer emptyWorld).
  - repeat split; try reflexivity. discriminate.
  - reflexivity.
  - now left.
  - now right.
  - now left.
  - vm_compute; reflexivity.
Defined.

(** C10 as stated fails when the day's total has reached the limit: the
    same empty answer then comes back as the quota-denied response, with
    [success = false] and the fallback text as [answer]. *)
Lemma empty_answer_denied_at_limit :
  option_map (fun out => (AIResponseOutput.success out, AIResponseOutput.error out))
    (ask_output (fst (@fetchHandler_ask binary_conversions
                        (sampleAmbient (Returned emptyAnswer)) sampleData
                        sampleRequest (meteredWorld 10000))))
  = Some (false, Some "neuron_limit_exceeded").
Proof. vm_compute; reflexivity. Qed.

(** ** The cap across whole requests *)

Section HandlerCap.

Context `{NC : NumberConversions}.
Hypothesis round_trips : toString_round_trips.
Hypothesis nonempty : toString_nonempty.

Lemma within_cap_same_store w w' :
  NEURON_LIMITER w' = NEURON_LIMITER w -> within_cap w -> within_cap w'.
Proof.
  intros E Hw key. unfold stored_total. rewrite E. apply Hw.
Qed.

Lemma after_generation_world amb q language systemPrompt userPrompt
    relevantVerses aiResponse w :
  snd (after_generation amb q language systemPrompt userPrompt relevantVerses
         aiResponse w)
  = snd (checkAndUpdateNeuronLimit amb
           (promptTokens_of aiResponse systemPrompt userPrompt)
           (completionTokens_of aiResponse (answer_of aiResponse)) w).
Proof.
  unfold after_generation, bind.
  destruct (checkAndUpdateNeuronLimit _ _ _ w) as [limitCheck w'].
  now destruct (negb (allowed limitCheck)).
Qed.

(** Whatever the request and whatever the gateway does, as long as it
    reports no negative usage, a request leaves every recorded total within
    the cap. *)
Lemma fetchHandler_ask_keeps_cap amb quranData body w :
  (forall model input aiResponse,
     AI_run amb model input = Returned aiResponse ->
     usage_not_negative aiResponse) ->
  within_cap w ->
  within_cap (snd (fetchHandler_ask amb quranData body w)).
Proof.
  intros Hai Hw. unfold fetchHandler_ask.
  destruct quranData as [|su sus].
  { now apply (within_cap_same_store w). }
  cbv zeta.
  destruct (negb (truthy (prop_or_else (question body) ""))); [exact Hw|].
  destruct (500 <? _)%nat; [exact Hw|].
  destruct (AI_run amb _ _) as [aiResponse|] eqn:E.
  - rewrite after_generation_world.
    destruct (handler_counts aiResponse
                (system_prompt_for
                   match req_language body with Some l => l | None => "id" end)
                (createQuranPrompt (prop_or_else (question body) "")
                   (findRelevantVerses (su :: sus)
                      (extractKeywords (prop_or_else (question body) "")) 3)
                   match req_language body with Some l => l | None => "id" end)
                (Hai _ _ _ E)) as [Hp Hc].
    now apply check_keeps_cap.
  - now apply (within_cap_same_store w).
Qed.

End HandlerCap.

(* ================================================================== *)
(** * Part IV. Further properties of the code                          *)
(* ================================================================== *)

(** ** More facts on binary64 values *)

Module SFMore.

Lemma binary_round_aux_SF_not_nan s m e l :
  (0 <= m)%Z -> SF_not_nan (binary_round_aux prec emax s m e l) = true.
Proof.
  intros H. unfold binary_round_aux.
  pose proof (SF.shr_fexp_nonneg m e l H) as H1.
  destruct (shr_fexp prec emax m e l) as [mrs' e']. simpl in H1.
  pose proof (SF.shr_fexp_nonneg _ e' loc_Exact
                (SF.round_nearest_even_nonneg _ (loc_of_shr_record mrs') H1)) as H2.
  destruct (shr_fexp prec emax _ e' loc_Exact) as [mrs'' e'']. simpl in H2.
  destruct (shr_m mrs'') as [|p|p]; try reflexivity.
  - destruct (e'' <=? emax - prec)%Z; reflexivity.
  - lia.
Qed.

Lemma binary_normalize_SF_not_nan m e :
  SF_not_nan (binary_normalize prec emax m e false) = true.
Proof.
  destruct m as [|p|p]; simpl; try reflexivity;
    unfold binary_round; destruct (shl_align _ _ _) as [mz ez];
    apply binary_round_aux_SF_not_nan; lia.
Qed.

Lemma sub_finite_SF_not_nan s m e x :
  SF_not_nan x = true -> SF_not_nan (SF64sub (S754_finite s m e) x) = true.
Proof.
  destruct x as [sx|sx| |sx mx ex]; simpl; try discriminate; intros _;
    try reflexivity.
  apply binary_normalize_SF_not_nan.
Qed.

Lemma add_nan_l x y : SF_not_nan (SF64add x y) = true -> SF_not_nan x = true.
Proof. destruct x; simpl; congruence. Qed.

Lemma ltb_SF_not_nan_r x y : SFltb x y = true -> SF_not_nan y = true.
Proof.
  intros H. destruct y; try reflexivity. destruct x; discriminate.
Qed.

Lemma compare_refl x : SF_not_nan x = true -> SFcompare x x = Some Eq.
Proof.
  destruct x as [s|s| |s m e]; simpl; try discriminate; intros _.
  - reflexivity.
  - now destruct s.
  - rewrite Z.compare_refl, Pos.compare_cont_refl. now destruct s.
Qed.

Lemma ltb_leb x y : SFltb x y = true -> SFleb x y = true.
Proof.
  unfold SFltb, SFleb. destruct (SFcompare x y) as [[]|]; congruence.
Qed.

End SFMore.

(** ** The daily limit: further properties *)

Section MeteringMore.

Context `{NC : NumberConversions}.
Local Open Scope float_scope.

Lemma KV_KEY_inj a b : KV_KEY a = KV_KEY b -> today a = today b.
Proof. unfold KV_KEY. intros H. now apply String.app_inj in H. Qed.

(** What a call reads depends on the store through the entry of its own
    key only. *)
Lemma current_total_ext amb w1 w2 :
  NEURON_LIMITER w1 !! KV_KEY amb = NEURON_LIMITER w2 !! KV_KEY amb ->
  current_total amb w1 = current_total amb w2.
Proof.
  intros E. unfold current_total, read_currentNeurons, bind, KV_get, ret,
    console_error.
  destruct (get_rejects amb); simpl; [reflexivity|]. now rewrite E.
Qed.

Lemma check_store_frame amb p c w key :
  key <> KV_KEY amb ->
  NEURON_LIMITER (snd (checkAndUpdateNeuronLimit amb p c w)) !! key
  = NEURON_LIMITER w !! key.
Proof.
  intros Hkey. rewrite check_unfold. cbv zeta.
  destruct (DAILY_NEURON_LIMIT <? _); simpl.
  - now rewrite read_keeps_store.
  - unfold after_put. destruct (put_rejects amb); simpl.
    + now rewrite read_keeps_store.
    + rewrite lookup_insert_ne by congruence. now rewrite read_keeps_store.
Qed.

(** X1. A call of [checkAndUpdateNeuronLimit] changes no entry of the
    store other than the one of its own day, and leaves what a call of any
    other day reads as it was: usage is counted per day. *)
Theorem usage_is_counted_per_day amb p c w :
  (forall key, key <> KV_KEY amb ->
     NEURON_LIMITER (snd (checkAndUpdateNeuronLimit amb p c w)) !! key
     = NEURON_LIMITER w !! key) /\
  (forall other, today other <> today amb ->
     current_total other (snd (checkAndUpdateNeuronLimit amb p c w))
     = current_total other w).
Proof.
  split.
  - intros key Hkey. now apply check_store_frame.
  - intros other Hday. apply current_total_ext, check_store_frame.
    intros E. apply Hday. now apply KV_KEY_inj.
Qed.

Lemma read_rejected amb w :
  get_rejects amb = true ->
  read_currentNeurons amb w
  = (0, {| NEURON_LIMITER := NEURON_LIMITER w;
           console := (console w ++ ["Error reading neuron usage:"])%list |}).
Proof.
  intros H. unfold read_currentNeurons, bind, KV_get, ret, console_error.
  now rewrite H.
Qed.

(** X2. A rejected KV call never fails [checkAndUpdateNeuronLimit]. When
    the read is rejected the call is decided as if nothing were recorded
    (on the consumption of the call alone) and the failure is logged; when
    the write of an admitted call is rejected the call is admitted all the
    same, with the same figures, the store is left as it was and the
    failure is logged. *)
Theorem storage_failures_are_absorbed amb p c w :
  (get_rejects amb = true ->
   allowed (fst (checkAndUpdateNeuronLimit amb p c w))
     = negb (DAILY_NEURON_LIMIT <? 0 + calculateNeuronsConsumed p c) /\
   In "Error reading neuron usage:"
      (console (snd (checkAndUpdateNeuronLimit amb p c w)))) /\
  (put_rejects amb = true ->
   (DAILY_NEURON_LIMIT <? current_total amb w + calculateNeuronsConsumed p c)
     = false ->
   fst (checkAndUpdateNeuronLimit amb p c w)
     = allowed_result (current_total amb w + calculateNeuronsConsumed p c)
         (calculateNeuronsConsumed p c) /\
   NEURON_LIMITER (snd (checkAndUpdateNeuronLimit amb p c w))
     = NEURON_LIMITER w /\
   In "Error updating neuron usage:"
      (console (snd (checkAndUpdateNeuronLimit amb p c w)))).
Proof.
  split.
  - intros Hget. rewrite check_unfold. cbv zeta.
    unfold current_total. rewrite (read_rejected amb w Hget). simpl.
    destruct (DAILY_NEURON_LIMIT <? _); simpl.
    + split; [reflexivity|]. apply in_or_app. right. now left.
    + split; [reflexivity|]. unfold after_put.
      destruct (put_rejects amb); simpl; apply in_or_app.
      * left. apply in_or_app. right. now left.
      * right. now left.
  - intros Hput Hle. rewrite check_unfold. cbv zeta. rewrite Hle. simpl.
    unfold after_put. rewrite Hput. simpl.
    split; [reflexivity|]. split; [apply read_keeps_store|].
    apply in_or_app. right. now left.
Qed.

(** X3. After a rejected read, an admitted call whose write succeeds
    records its own consumption as the total of the day, whatever total was
    recorded before: the earlier usage of the day is forgotten. *)
Theorem rejected_read_resets_total amb p c w :
  toString_round_trips -> toString_nonempty ->
  get_rejects amb = true -> put_rejects amb = false ->
  (DAILY_NEURON_LIMIT <? 0 + calculateNeuronsConsumed p c) = false ->
  allowed (fst (checkAndUpdateNeuronLimit amb p c w)) = true /\
  stored_total (snd (checkAndUpdateNeuronLimit amb p c w)) (KV_KEY amb)
    = normal_zero (0 + calculateNeuronsConsumed p c).
Proof.
  intros RT NE Hget Hput Hle. rewrite check_unfold. cbv zeta.
  unfold current_total. rewrite (read_rejected amb w Hget). simpl.
  rewrite Hle. simpl. split; [reflexivity|].
  rewrite (stored_total_after_put _ _ _ _ RT NE Hput).
  destruct (decide (KV_KEY amb = KV_KEY amb)); congruence.
Qed.

Lemma Math_max_zero_count y :
  SF_not_nan (Prim2SF y) = true -> is_count (Math_max 0 y).
Proof.
  intros Hy. unfold Math_max, is_count.
  assert (Hnan : is_nan y = false).
  { unfold is_nan. rewrite FloatAxioms.eqb_spec. unfold SFeqb.
    now rewrite SFMore.compare_refl. }
  rewrite Hnan. change (is_nan 0) with false. cbn [orb].
  destruct (0 <? y) eqn:E1.
  - rewrite FloatAxioms.leb_spec. rewrite FloatAxioms.ltb_spec in E1.
    now apply SFMore.ltb_leb.
  - destruct (y <? 0); [reflexivity|].
    change (get_sign 0) with false. reflexivity.
Qed.

(** The remaining figure of a denied call is a number that is not
    negative. *)
Lemma denied_remaining_count amb p c w :
  allowed (fst (checkAndUpdateNeuronLimit amb p c w)) = false ->
  is_count (remaining (fst (checkAndUpdateNeuronLimit amb p c w))).
Proof.
  rewrite check_unfold. cbv zeta.
  destruct (DAILY_NEURON_LIMIT <? _) eqn:Hgt; simpl; [intros _|discriminate].
  apply Math_max_zero_count.
  rewrite FloatAxioms.ltb_spec in Hgt.
  apply SFMore.ltb_SF_not_nan_r in Hgt. rewrite FloatAxioms.add_spec in Hgt.
  apply SFMore.add_nan_l in Hgt.
  rewrite FloatAxioms.sub_spec.
  replace (Prim2SF DAILY_NEURON_LIMIT)
    with (S754_finite false 5497558138880000 (-39)) by (vm_compute; reflexivity).
  now apply SFMore.sub_finite_SF_not_nan.
Qed.

(** X4. Whatever the token counts, the stored record and the behaviour of
    the KV binding, the [remaining] figure of a denied call is a number
    that is not negative (and not NaN). *)
Theorem denied_remaining_not_negative amb p c w :
  allowed (fst (checkAndUpdateNeuronLimit amb p c w)) = false ->
  (0 <=? remaining (fst (checkAndUpdateNeuronLimit amb p c w))) = true.
Proof. apply denied_remaining_count. Qed.

Lemma current_total_after_put amb later v w :
  toString_round_trips -> toString_nonempty -> put_rejects amb = false ->
  KV_KEY later = KV_KEY amb -> get_rejects later = false ->
  (now later <? now amb + 86400)%Z = true ->
  current_total later (after_put amb v w) = normal_zero v.
Proof.
  intros RT NE Hput Hkey Hget Hlive.
  unfold current_total, read_currentNeurons, bind, KV_get, ret.
  rewrite Hget, Hkey. unfold after_put. rewrite Hput. simpl.
  rewrite lookup_insert_eq. simpl. rewrite Hlive. simpl. unfold truthy.
  destruct (String.eqb_spec (Number_toString v) "") as [E|_];
    [now apply NE in E|].
  apply RT.
Qed.

(** X5. Two admitted calls of the same day, the second within 24 hours of
    the first and with a working store, add up: the second is decided on
    the total the first recorded, and records that total plus its own
    consumption. *)
Theorem admitted_calls_accumulate amb1 amb2 p1 c1 p2 c2 w :
  toString_round_trips -> toString_nonempty ->
  put_rejects amb1 = false -> put_rejects amb2 = false ->
  get_rejects amb2 = false ->
  KV_KEY amb2 = KV_KEY amb1 -> (now amb2 <? now amb1 + 86400)%Z = true ->
  let first := current_total amb1 w + calculateNeuronsConsumed p1 c1 in
  let second := normal_zero first + calculateNeuronsConsumed p2 c2 in
  (DAILY_NEURON_LIMIT <? first) = false ->
  (DAILY_NEURON_LIMIT <? second) = false ->
  let w1 := snd (checkAndUpdateNeuronLimit amb1 p1 c1 w) in
  current_total amb2 w1 = normal_zero first /\
  allowed (fst (checkAndUpdateNeuronLimit amb2 p2 c2 w1)) = true /\
  remaining (fst (checkAndUpdateNeuronLimit amb2 p2 c2 w1))
    = DAILY_NEURON_LIMIT - second /\
  stored_total (snd (checkAndUpdateNeuronLimit amb2 p2 c2 w1)) (KV_KEY amb1)
    = normal_zero second.
Proof.
  intros RT NE Hput1 Hput2 Hget2 Hkey Hlive first second H1 H2 w1.
  assert (Hcur : current_total amb2 w1 = normal_zero first).
  { unfold w1. rewrite check_unfold. cbv zeta. fold first. rewrite H1. simpl.
    now apply current_total_after_put. }
  split; [exact Hcur|].
  rewrite (check_unfold amb2). cbv zeta. rewrite Hcur. fold second.
  rewrite H2. simpl. split; [reflexivity|]. split; [reflexivity|].
  rewrite (stored_total_after_put _ _ _ _ RT NE Hput2). rewrite Hkey.
  destruct (decide (KV_KEY amb1 = KV_KEY amb1)); congruence.
Qed.

End MeteringMore.

(** *** Instances under [binary_conversions] *)

Lemma rejected_read_resets_total_witness :
  allowed (fst (@checkAndUpdateNeuronLimit binary_conversions
                  (faultyAmbient true false) 1000 500 (meteredWorld 9999)))
    = true /\
  @stored_total binary_conversions
    (snd (@checkAndUpdateNeuronLimit binary_conversions
            (faultyAmbient true false) 1000 500 (meteredWorld 9999)))
    (KV_KEY (faultyAmbient true false))
  = normal_zero (0 + calculateNeuronsConsumed 1000 500)%float.
Proof.
  apply (@rejected_read_resets_total binary_conversions
           (faultyAmbient true false) 1000 500 (meteredWorld 9999)
           binary_round_trips binary_nonempty eq_refl eq_refl).
  vm_compute; reflexivity.
Defined.

Lemma denied_remaining_not_negative_witness :
  (0 <=? remaining (fst (@checkAndUpdateNeuronLimit binary_conversions
                           (sampleAmbient Thrown) 1000 1000
                           (meteredWorld 9999))))%float = true.
Proof.
  apply (@denied_remaining_not_negative binary_conversions).
  vm_compute; reflexivity.
Defined.

Lemma admitted_calls_accumulate_witness :
  @stored_total binary_conversions
    (snd (@checkAndUpdateNeuronLimit binary_conversions
            (laterAmbient Thrown) 2000 100
            (snd (@checkAndUpdateNeuronLimit binary_conversions
                    (sampleAmbient Thrown) 1000 500 emptyWorld))))
    (KV_KEY (sampleAmbient Thrown))
  = normal_zero
      (normal_zero (@current_total binary_conversions (sampleAmbient Thrown)
                      emptyWorld
                    + calculateNeuronsConsumed 1000 500)
       + calculateNeuronsConsumed 2000 100)%float.
Proof.
  destruct (@admitted_calls_accumulate binary_conversions
              (sampleAmbient Thrown) (laterAmbient Thrown) 1000 500 2000 100
              emptyWorld binary_round_trips binary_nonempty
              eq_refl eq_refl eq_refl eq_refl eq_refl)
    as (_ & _ & _ & H); [vm_compute; reflexivity .. | exact H].
Defined.

(** ** The [/api/ask] handler: the quota-denied answer *)

(** X6. When the gateway call of a well-formed request returns and the
    daily-limit check denies it, the handler still answers with status 200:
    [success = false], the error [neuron_limit_exceeded], no usage figures,
    as [verses_data] the projection of the ranking computed before the
    gateway call, and a [limit_info] that reports the daily limit and a
    remaining figure that is not negative; the usage store is left as it
    was. *)
Theorem quota_denial_keeps_verses `{NumberConversions}
    (amb : Ambient) (quranData : list QuranSurah.t) (body : AIRequest)
    (q : string) (aiResponse : AIResponse) (w : World) :
  well_formed_ask quranData body q ->
  AI_run amb MODEL_ID (ask_input q (language_of body) (ranking_of quranData q))
    = Returned aiResponse ->
  allowed (fst (checkAndUpdateNeuronLimit amb
                  (promptTokens_of aiResponse
                     (system_prompt_for (language_of body))
                     (createQuranPrompt q (ranking_of quranData q)
                        (language_of body)))
                  (completionTokens_of aiResponse (answer_of aiResponse)) w))
    = false ->
  exists out li,
    fst (fetchHandler_ask amb quranData body w)
      = {| status := 200; json := AskBody out |} /\
    AIResponseOutput.success out = false /\
    AIResponseOutput.error out = Some "neuron_limit_exceeded" /\
    AIResponseOutput.usage out = None /\
    AIResponseOutput.verses_data out
      = map verse_data (ranking_of quranData q) /\
    AIResponseOutput.limit_info out = Some li /\
    li_daily_limit li = DAILY_NEURON_LIMIT /\
    (0 <=? li_remaining li)%float = true /\
    NEURON_LIMITER (snd (fetchHandler_ask amb quranData body w))
      = NEURON_LIMITER w.
Proof.
  intros Hwf Hret Hdenied.
  rewrite (fetchHandler_ask_reaches_gateway amb quranData body q Hwf), Hret.
  pose proof (denied_remaining_count _ _ _ _ Hdenied) as Hrem.
  assert (Hstore :
    NEURON_LIMITER (snd (checkAndUpdateNeuronLimit amb
                  (promptTokens_of aiResponse
                     (system_prompt_for (language_of body))
                     (createQuranPrompt q (ranking_of quranData q)
                        (language_of body)))
                  (completionTokens_of aiResponse (answer_of aiResponse)) w))
    = NEURON_LIMITER w).
  { revert Hdenied. rewrite check_unfold. cbv zeta.
    destruct (DAILY_NEURON_LIMIT <? _)%float; simpl; [intros _|discriminate].
    apply read_keeps_store. }
  assert (Hlimit :
    dailyLimit (fst (checkAndUpdateNeuronLimit amb
                  (promptTokens_of aiResponse
                     (system_prompt_for (language_of body))
                     (createQuranPrompt q (ranking_of quranData q)
                        (language_of body)))
                  (completionTokens_of aiResponse (answer_of aiResponse)) w))
    = DAILY_NEURON_LIMIT).
  { rewrite check_unfold. cbv zeta.
    now destruct (DAILY_NEURON_LIMIT <? _)%float. }
  unfold after_generation, bind.
  destruct (checkAndUpdateNeuronLimit _ _ _ w) as [limitCheck w'].
  simpl in Hdenied, Hrem, Hstore, Hlimit. rewrite Hdenied. simpl.
  eexists. eexists. split; [reflexivity|]. simpl.
  repeat split; assumption.
Qed.

Lemma quota_denial_keeps_verses_witness :
  exists out li,
    fst (@fetchHandler_ask binary_conversions
           (sampleAmbient (Returned emptyAnswer)) sampleData sampleRequest
           (meteredWorld 10000))
      = {| status := 200; json := AskBody out |} /\
    AIResponseOutput.success out = false /\
    AIResponseOutput.error out = Some "neuron_limit_exceeded" /\
    AIResponseOutput.usage out = None /\
    AIResponseOutput.verses_data out
      = map verse_data (ranking_of sampleData "Apa itu Allah?") /\
    AIResponseOutput.limit_info out = Some li /\
    li_daily_limit li = DAILY_NEURON_LIMIT /\
    (0 <=? li_remaining li)%float = true /\
    NEURON_LIMITER (snd (@fetchHandler_ask binary_conversions
                           (sampleAmbient (Returned emptyAnswer)) sampleData
                           sampleRequest (meteredWorld 10000)))
      = NEURON_LIMITER (meteredWorld 10000).
Proof.
  apply (@quota_denial_keeps_verses binary_conversions
           (sampleAmbient (Returned emptyAnswer)) sampleData sampleRequest
           "Apa itu Allah?" emptyAnswer (meteredWorld 10000)).
  - repeat split; try reflexivity. discriminate.
  - reflexivity.
  - vm_compute; reflexivity.
Defined.

(** ** Loading the corpus *)

Section Loading.

Local Open Scope Z_scope.

Lemma mapi_from_length {A B} (f : A -> Z -> B) i l :
  length (mapi_from f i l) = length l.
Proof. revert i. induction l as [|x l IH]; intros i; simpl; [|rewrite IH]; reflexivity. Qed.

Lemma mapi_from_nth_error {A B} (f : A -> Z -> B) i l k :
  nth_error (mapi_from f i l) k
  = option_map (fun x => f x (i + Z.of_nat k)) (nth_error l k).
Proof.
  revert i k. induction l as [|x l IH]; intros i [|k]; simpl; try reflexivity.
  - now rewrite Z.add_0_r.
  - rewrite IH. destruct (nth_error l k); simpl; [|reflexivity].
    do 2 f_equal. lia.
Qed.

Lemma mapi_from_map {A B C} (g : B -> C) (f : A -> Z -> B) (h : Z -> C) i l :
  (forall x k, g (f x k) = h k) ->
  map g (mapi_from f i l) = map (fun k => h (i + Z.of_nat k)) (seq 0 (length l)).
Proof.
  intros Hg. revert i. induction l as [|x l IH]; intros i; simpl; [reflexivity|].
  rewrite Hg, Z.add_0_r. f_equal. rewrite IH, <- seq_shift, map_map.
  apply map_ext. intros k. f_equal. lia.
Qed.

Lemma mapi_from_Forall {A B} (P : B -> Prop) (f : A -> Z -> B) i l :
  (forall x k, P (f x k)) -> Forall P (mapi_from f i l).
Proof.
  intros HP. revert i. induction l; intros i; simpl; constructor; auto.
Qed.

Lemma surah_of_api_consistent surah index :
  consistent_surah (surah_of_api surah index).
Proof.
  unfold consistent_surah, surah_of_api. cbn.
  destruct (Api.ayahs surah) as [ayahs|]; cbn.
  - unfold mapi. rewrite mapi_from_length. split; [reflexivity|]. split.
    + unfold numbering.
      rewrite (mapi_from_map QuranVerse.id verse_of_ayah (fun k => k + 1));
        [|reflexivity].
      apply map_ext. intros k. lia.
    + destruct (Api.revelationType surah) as [t|]; [|now right].
      destruct (String.eqb t "Meccan"); [now left|now right].
  - split; [reflexivity|]. split; [reflexivity|].
    destruct (Api.revelationType surah) as [t|]; [|now right].
    destruct (String.eqb t "Meccan"); [now left|now right].
Qed.

(** X7. The corpus built from a document of the remote API has one surah
    per surah of the document, numbered 1, 2, ... in the order of the
    document; every surah has as [total_verses] the number of its verses,
    verses numbered from 1, and the type [Makkiyah] or [Madaniyah]. *)
Theorem loaded_corpus_is_numbered arabic data surahs p :
  quranData p = [] -> accepted_surahs data = Some surahs ->
  length (fst (loadQuranData arabic (Returned data) p)) = length surahs /\
  map QuranSurah.id (fst (loadQuranData arabic (Returned data) p))
    = numbering (length surahs) /\
  Forall consistent_surah (fst (loadQuranData arabic (Returned data) p)).
Proof.
  intros Hempty Hdoc. unfold loadQuranData. rewrite Hempty, Hdoc. cbn.
  unfold mapi. split; [apply mapi_from_length|]. split.
  - unfold numbering.
    rewrite (mapi_from_map QuranSurah.id surah_of_api (fun k => k + 1));
      [|reflexivity].
    apply map_ext. intros k. lia.
  - apply mapi_from_Forall. intros. apply surah_of_api_consistent.
Qed.

Lemma loadQuranData_cached arabic fetched p :
  quranData p <> [] -> loadQuranData arabic fetched p = (quranData p, p).
Proof.
  intros H. unfold loadQuranData. destruct (quranData p); [congruence|reflexivity].
Qed.

Lemma loadQuranData_stores arabic fetched p :
  quranData (snd (loadQuranData arabic fetched p))
  = fst (loadQuranData arabic fetched p).
Proof.
  unfold loadQuranData. destruct (quranData p) eqn:E; [|exact E].
  destruct fetched as [data|]; [destruct (accepted_surahs data)|]; reflexivity.
Qed.

Lemma loadQuranData_keeps_store arabic fetched p :
  NEURON_LIMITER (world (snd (loadQuranData arabic fetched p)))
  = NEURON_LIMITER (world p).
Proof.
  unfold loadQuranData. destruct (quranData p) eqn:E; [|reflexivity].
  destruct fetched as [data|]; [destruct (accepted_surahs data)|]; reflexivity.
Qed.

(** X8. Once [loadQuranData] has returned a corpus that is not empty, every
    later call returns that corpus and changes nothing, whatever the
    download would give: the corpus is loaded once per process. *)
Theorem corpus_is_loaded_once arabic first later p :
  fst (loadQuranData arabic first p) <> [] ->
  loadQuranData arabic later (snd (loadQuranData arabic first p))
  = (fst (loadQuranData arabic first p), snd (loadQuranData arabic first p)).
Proof.
  intros H. rewrite loadQuranData_cached; rewrite loadQuranData_stores;
    [reflexivity|exact H].
Qed.

(** X9. [loadQuranData] returns an empty corpus in one case only: nothing
    is cached, the download succeeds, and the document passes the check
    with an empty array of surahs. In every other case of failure the
    embedded dataset is returned. *)
Theorem corpus_is_empty_only_for_empty_document arabic fetched p :
  fst (loadQuranData arabic fetched p) = [] <->
  quranData p = [] /\
  exists data, fetched = Returned data /\ accepted_surahs data = Some [].
Proof.
  unfold loadQuranData. destruct (quranData p) as [|s ss] eqn:E.
  - destruct fetched as [data|].
    + destruct (accepted_surahs data) as [surahs|] eqn:Hdoc; cbn.
      * destruct surahs as [|su sus]; cbn.
        -- split; [|reflexivity]. intros _. split; [reflexivity|].
           exists data. now split.
        -- split; [discriminate|]. intros (_ & d & Hd & Hs).
           injection Hd as <-. congruence.
      * split; [discriminate|]. intros (_ & d & Hd & Hs).
        injection Hd as <-. congruence.
    + cbn. split; [discriminate|]. intros (_ & d & Hd & _). discriminate.
  - cbn. split; [discriminate|]. intros (H & _). discriminate.
Qed.

End Loading.

Lemma loaded_corpus_is_numbered_witness :
  length (fst (loadQuranData sampleArabic (Returned sampleDocument) freshProcess))
    = 2%nat /\
  map QuranSurah.id
    (fst (loadQuranData sampleArabic (Returned sampleDocument) freshProcess))
    = numbering 2 /\
  Forall consistent_surah
    (fst (loadQuranData sampleArabic (Returned sampleDocument) freshProcess)).
Proof.
  apply (loaded_corpus_is_numbered sampleArabic sampleDocument
           _ freshProcess eq_refl eq_refl).
Defined.

Lemma corpus_is_loaded_once_witness :
  loadQuranData sampleArabic (Returned sampleDocument)
    (snd (loadQuranData sampleArabic Thrown freshProcess))
  = (fst (loadQuranData sampleArabic Thrown freshProcess),
     snd (loadQuranData sampleArabic Thrown freshProcess)).
Proof.
  apply (corpus_is_loaded_once sampleArabic Thrown (Returned sampleDocument)
           freshProcess).
  discriminate.
Defined.

(** ** The router *)

Ltac branch :=
  match goal with
  | |- context [if ?b then _ else _] => destruct b eqn:?
  | |- context [match ?x with _ => _ end] => destruct x eqn:?
  end.

Section Router.

Context `{NC : NumberConversions}.
Variable arabic : ArabicTexts.

Local Open Scope Z_scope.

Lemma after_generation_status amb q language systemPrompt userPrompt
    relevantVerses aiResponse w :
  status (fst (after_generation amb q language systemPrompt userPrompt
                 relevantVerses aiResponse w)) = 200.
Proof.
  unfold after_generation, bind.
  destruct (checkAndUpdateNeuronLimit _ _ _ w) as [limitCheck w'].
  now destruct (negb (allowed limitCheck)).
Qed.

Lemma fetchHandler_ask_status amb data body w :
  In (status (fst (fetchHandler_ask amb data body w))) [200; 400; 500].
Proof.
  unfold fetchHandler_ask. destruct data as [|su sus]; [cbn; auto|].
  cbv zeta.
  destruct (negb _); [cbn; auto|].
  destruct (500 <? _)%nat; [cbn; auto|].
  destruct (AI_run amb _ _).
  - rewrite after_generation_status. cbn; auto.
  - cbn; auto.
Qed.

Lemma route_random_shape data rt r :
  route_random data rt = inl r ->
  http_headers r = corsHeaders /\ In (http_status r) [200; 404].
Proof.
  unfold route_random.
  repeat branch; intros H; try discriminate; injection H as <-; cbn; auto.
Qed.

(** The outer [catch]: the process after it, and what it answers. *)
Lemma internal_error_snd error p :
  snd (internal_error error p)
  = {| quranData := quranData p; world := console_log "Error:" (world p) |}.
Proof. unfold internal_error. now destruct error. Qed.

Lemma internal_error_answer error p r :
  fst (internal_error error p) = Returned r ->
  exists message,
    error = Readable message /\
    r = respond 500 (InternalErrorBody "Internal server error" message).
Proof.
  unfold internal_error. destruct error as [|message]; cbn [fst];
    [discriminate|].
  intros [= <-]. now exists message.
Qed.

Lemma internal_error_rejects error p :
  fst (internal_error error p) = Thrown -> error = Unreadable.
Proof.
  unfold internal_error. now destruct error.
Qed.

Ltac answered :=
  cbn [fst]; split;
  [ let r := fresh "r" in let H := fresh "H" in
    intros r H; injection H as <-; cbn; auto 8
  | discriminate ].

Ltac caught :=
  split;
  [ let r := fresh "r" in let H := fresh "H" in
    intros r H; apply internal_error_answer in H as (? & _ & ->); cbn; auto 8
  | let H := fresh "H" in
    intros H; apply internal_error_rejects in H; auto; discriminate ].

(** X10. Whenever [fetchHandler] answers -- whatever the request, the
    state of the process and the behaviour of the network, the gateway and
    the store -- the response carries the CORS headers and one of the
    status codes 200, 400, 404 and 500. It fails to answer only where the
    outer [catch] cannot read the error it caught: one that
    [request.json()] or the gateway rejected with. *)
Theorem every_response_carries_cors rt request p :
  (forall r, fst (fetchHandler arabic rt request p) = Returned r ->
     http_headers r = corsHeaders /\
     In (http_status r) [200; 400; 404; 500]) /\
  (fst (fetchHandler arabic rt request p) = Thrown ->
     json_error rt = Unreadable \/ ai_error rt = Unreadable).
Proof.
  unfold fetchHandler. cbv zeta.
  destruct (String.eqb (method request) "OPTIONS"); [answered|].
  destruct (_ || _)%bool; [answered|].
  destruct (String.eqb (pathname request) "/api/health"); [answered|].
  destruct (loadQuranData arabic (fetched rt) p) as [data p'].
  destruct data as [|su sus]; [caught|]. cbv beta iota.
  destruct (_ && _)%bool; [answered|].
  destruct (if String.eqb (method request) "GET" then _ else None) as [digits|].
  { unfold route_surah. repeat branch; answered. }
  destruct (_ && _)%bool.
  { unfold route_search. cbv zeta. branch; answered. }
  destruct (_ && _)%bool.
  { destruct (route_random (su :: sus) rt) as [r|property] eqn:E; [|caught].
    apply route_random_shape in E. cbn [fst].
    split; [|discriminate]. intros r' [= <-].
    destruct E as [-> [<- | [<- | []]]]; (split; [reflexivity|cbn; auto 8]). }
  destruct (_ && _)%bool.
  { destruct (json_body request) as [body|]; [|caught].
    pose proof (fetchHandler_ask_status (ambient rt) (su :: sus) (ask body)
                  (world p')) as Hs.
    destruct (fetchHandler_ask _ _ _ _) as [r w]. cbn [fst] in *.
    split; [|discriminate]. intros r' [= <-]. cbn in *.
    split; [reflexivity|]. intuition auto 8. }
  destruct (_ && _)%bool; [|answered].
  destruct (json_body request) as [body|]; [|caught].
  destruct (AI_run _ _ _); [answered|caught].
Qed.

Lemma fetchHandler_ask_keeps_store_on_error amb data body w :
  status (fst (fetchHandler_ask amb data body w)) <> 200 ->
  NEURON_LIMITER (snd (fetchHandler_ask amb data body w)) = NEURON_LIMITER w.
Proof.
  unfold fetchHandler_ask. destruct data as [|su sus]; [reflexivity|].
  cbv zeta.
  destruct (negb _); [reflexivity|].
  destruct (500 <? _)%nat; [reflexivity|].
  destruct (AI_run amb _ _); [|reflexivity].
  rewrite after_generation_status. congruence.
Qed.

(** The cache of the corpus after a request is what [loadQuranData] left,
    or what it was when the route does not load. *)
Lemma fetchHandler_cache rt request p :
  quranData (snd (fetchHandler arabic rt request p)) = quranData p \/
  quranData (snd (fetchHandler arabic rt request p))
    = fst (loadQuranData arabic (fetched rt) p).
Proof.
  pose proof (loadQuranData_stores arabic (fetched rt) p) as Hst.
  unfold fetchHandler. cbv zeta.
  destruct (String.eqb (method request) "OPTIONS"); [now left|].
  destruct (_ || _)%bool; [now left|].
  destruct (String.eqb (pathname request) "/api/health"); [now left|].
  right.
  destruct (loadQuranData arabic (fetched rt) p) as [data p']. cbn in Hst.
  destruct data as [|su sus]; [now rewrite internal_error_snd|].
  cbv beta iota.
  destruct (_ && _)%bool; [exact Hst|].
  destruct (if String.eqb (method request) "GET" then _ else None) as [digits|];
    [exact Hst|].
  destruct (_ && _)%bool; [exact Hst|].
  destruct (_ && _)%bool.
  { destruct (route_random (su :: sus) rt);
      [exact Hst|now rewrite internal_error_snd]. }
  destruct (_ && _)%bool.
  { destruct (json_body request) as [body|];
      [|now rewrite internal_error_snd].
    destruct (fetchHandler_ask _ _ _ _) as [r w]. exact Hst. }
  destruct (_ && _)%bool; [|exact Hst].
  destruct (json_body request) as [body|]; [|now rewrite internal_error_snd].
  destruct (AI_run _ _ _); [exact Hst|now rewrite internal_error_snd].
Qed.

Lemma fetchHandler_keeps_cache rt request p :
  quranData p <> [] ->
  quranData (snd (fetchHandler arabic rt request p)) = quranData p.
Proof.
  intros H. destruct (fetchHandler_cache rt request p) as [E|E]; [exact E|].
  rewrite E. now rewrite loadQuranData_cached.
Qed.

(** The usage store after a request is the one the ask handler left, or is
    unchanged. *)
Lemma fetchHandler_store rt request p :
  NEURON_LIMITER (world (snd (fetchHandler arabic rt request p)))
    = NEURON_LIMITER (world p) \/
  (String.eqb (pathname request) "/api/ask"
   && String.eqb (method request) "POST")%bool = true /\
  exists body data w,
    NEURON_LIMITER w = NEURON_LIMITER (world p) /\
    NEURON_LIMITER (world (snd (fetchHandler arabic rt request p)))
    = NEURON_LIMITER (snd (fetchHandler_ask (ambient rt) data body w)).
Proof.
  pose proof (loadQuranData_keeps_store arabic (fetched rt) p) as Hst.
  unfold fetchHandler. cbv zeta.
  destruct (String.eqb (method request) "OPTIONS"); [now left|].
  destruct (_ || _)%bool; [now left|].
  destruct (String.eqb (pathname request) "/api/health"); [now left|].
  destruct (loadQuranData arabic (fetched rt) p) as [data p']. cbn in Hst.
  destruct data as [|su sus]; [left; now rewrite internal_error_snd|].
  cbv beta iota.
  destruct (_ && _)%bool; [now left|].
  destruct (if String.eqb (method request) "GET" then _ else None) as [digits|];
    [now left|].
  destruct (_ && _)%bool; [now left|].
  destruct (_ && _)%bool.
  { destruct (route_random (su :: sus) rt);
      [now left|left; now rewrite internal_error_snd]. }
  destruct (_ && _)%bool.
  { destruct (json_body request) as [body|];
      [|left; now rewrite internal_error_snd].
    right. split; [reflexivity|].
    exists (ask body), (su :: sus), (world p'). split; [exact Hst|].
    now destruct (fetchHandler_ask _ _ _ _) as [r w]. }
  destruct (_ && _)%bool; [|now left].
  destruct (json_body request) as [body|];
    [|left; now rewrite internal_error_snd].
  destruct (AI_run _ _ _); [now left|left; now rewrite internal_error_snd].
Qed.

(** X11. Only [POST /api/ask] counts against the daily limit: every other
    request -- [POST /api/chat], which also calls the model, among them --
    leaves the usage store as it was. *)
Theorem only_ask_is_metered rt request p :
  (String.eqb (pathname request) "/api/ask"
   && String.eqb (method request) "POST")%bool = false ->
  NEURON_LIMITER (world (snd (fetchHandler arabic rt request p)))
  = NEURON_LIMITER (world p).
Proof.
  intros H. destruct (fetchHandler_store rt request p) as [E | [E _]];
    [exact E|congruence].
Qed.

Hypothesis round_trips : toString_round_trips.
Hypothesis nonempty : toString_nonempty.

Lemma fetchHandler_keeps_cap rt request p :
  reports_no_negative_usage (ambient rt) ->
  within_cap (world p) ->
  within_cap (world (snd (fetchHandler arabic rt request p))).
Proof.
  intros Hai Hw.
  destruct (fetchHandler_store rt request p)
    as [E | (_ & body & data & w & Ew & E)].
  - now apply (within_cap_same_store (world p)).
  - apply (within_cap_same_store
             (snd (fetchHandler_ask (ambient rt) data body w))); [exact E|].
    apply fetchHandler_ask_keeps_cap; try assumption.
    now apply (within_cap_same_store (world p)).
Qed.

(** X12. Across any sequence of requests served by one process, with a
    gateway that reports no negative usage, every recorded daily total
    stays between 0 and the daily limit; and a corpus that is cached stays
    the cached corpus. *)
Theorem serve_keeps_cap_and_cache requests p :
  Forall (fun x => reports_no_negative_usage (ambient (fst x))) requests ->
  within_cap (world p) ->
  within_cap (world (snd (serve arabic requests p))) /\
  (quranData p <> [] -> quranData (snd (serve arabic requests p)) = quranData p).
Proof.
  intros Hall. revert p.
  induction Hall as [|[rt request] rest Hrt _ IH]; intros p Hw.
  - split; [exact Hw|reflexivity].
  - cbn [serve].
    pose proof (fetchHandler_keeps_cap rt request p Hrt Hw) as Hw1.
    pose proof (fetchHandler_keeps_cache rt request p) as Hc1.
    destruct (fetchHandler arabic rt request p) as [r p1]. cbn in Hw1, Hc1.
    destruct (IH p1 Hw1) as [Hw2 Hc2].
    destruct (serve arabic rest p1) as [rs p2]. cbn in *.
    split; [exact Hw2|]. intros Hne. rewrite Hc2; rewrite Hc1; auto.
Qed.

End Router.

(** ** [parseInt] *)

Section ParseInt.

Local Open Scope Z_scope.

Lemma read_digits_decimal d : forall acc,
  read_digits 10 (NilEmpty.string_of_uint d) (Some (Zpos acc))
  = Some (Zpos (Pos.of_uint_acc d acc)).
Proof.
  induction d; intros acc; cbn [NilEmpty.string_of_uint Pos.of_uint_acc];
    [reflexivity|..];
    cbn [read_digits]; cbv [digit_value in_range code]; cbn -[Z.mul Z.add Pos.mul Pos.add];
    rewrite <- IHd; do 2 f_equal; lia.
Qed.

Lemma read_digits_decimal_zero d :
  read_digits 10 (NilEmpty.string_of_uint d) (Some 0)
  = Some (Z.of_N (Pos.of_uint d)).
Proof.
  induction d; cbn [NilEmpty.string_of_uint Pos.of_uint]; [reflexivity|..];
    cbn [read_digits]; cbv [digit_value in_range code];
    cbn -[Z.mul Z.add Pos.mul Pos.add Pos.of_uint_acc Pos.of_uint];
    [exact IHd | apply read_digits_decimal ..].
Qed.

Lemma read_digits_decimal_start d :
  d <> Decimal.Nil ->
  read_digits 10 (NilEmpty.string_of_uint d) None
  = Some (Z.of_N (Pos.of_uint d)).
Proof.
  intros Hd. rewrite <- read_digits_decimal_zero.
  destruct d; [congruence|reflexivity ..].
Qed.

(** A decimal numeral carries no [0x] prefix. *)
Lemma read_unsigned_decimal d :
  read_unsigned (NilEmpty.string_of_uint d)
  = read_digits 10 (NilEmpty.string_of_uint d) None.
Proof.
  destruct d as [|d|d|d|d|d|d|d|d|d|d]; try reflexivity.
  destruct d; reflexivity.
Qed.

Lemma parseInt_decimal d :
  d <> Decimal.Nil ->
  parseInt (NilEmpty.string_of_uint d) = Some (Z.of_N (Pos.of_uint d)).
Proof.
  intros Hd. rewrite <- (read_digits_decimal_start d Hd).
  rewrite <- read_unsigned_decimal.
  destruct d; [congruence|reflexivity ..].
Qed.

Lemma parseInt_minus s :
  parseInt (String "-" s) = option_map Z.opp (read_unsigned s).
Proof. reflexivity. Qed.

Lemma parseInt_positive p : parseInt (Z_toString (Zpos p)) = Some (Zpos p).
Proof.
  unfold Z_toString. cbn [Z.to_int NilZero.string_of_int].
  pose proof (DecimalPos.Unsigned.to_uint_nonnil p) as Hn.
  pose proof (DecimalPos.Unsigned.of_to p) as Hv.
  unfold NilZero.string_of_uint.
  destruct (Pos.to_uint p) eqn:E; [congruence|..];
    rewrite parseInt_decimal by discriminate; now rewrite Hv.
Qed.

(** [parseInt] reads back the decimal numeral of every integer: the
    text [Z_toString] writes for [z] parses to [z]. *)
Lemma parseInt_reads_integers z : parseInt (Z_toString z) = Some z.
Proof.
  destruct z as [|p|p].
  - reflexivity.
  - apply parseInt_positive.
  - unfold Z_toString. cbn [Z.to_int NilZero.string_of_int].
    pose proof (DecimalPos.Unsigned.to_uint_nonnil p) as Hn.
    pose proof (DecimalPos.Unsigned.of_to p) as Hv.
    unfold NilZero.string_of_uint.
    assert (H : read_unsigned (NilEmpty.string_of_uint (Pos.to_uint p))
                = Some (Zpos p)).
    { rewrite read_unsigned_decimal, read_digits_decimal_start by exact Hn.
      now rewrite Hv. }
    destruct (Pos.to_uint p) eqn:E; [congruence|..];
      (etransitivity; [apply parseInt_minus|]); now rewrite H.
Qed.

End ParseInt.

(** ** The routes *)

Section Routes.

Context `{NC : NumberConversions}.
Variable arabic : ArabicTexts.

Local Open Scope Z_scope.

Lemma all_digits_decimal d : all_digits (NilEmpty.string_of_uint d) = true.
Proof. induction d; cbn; auto. Qed.

Lemma Z_toString_digits k :
  0 <= k -> truthy (Z_toString k) && all_digits (Z_toString k) = true.
Proof.
  intros Hk. unfold Z_toString. destruct k as [|p|p]; [reflexivity| |lia].
  cbn [Z.to_int NilZero.string_of_int]. unfold NilZero.string_of_uint.
  pose proof (DecimalPos.Unsigned.to_uint_nonnil p) as Hn.
  pose proof (all_digits_decimal (Pos.to_uint p)) as Hd.
  destruct (Pos.to_uint p); [congruence|..]; rewrite Hd; reflexivity.
Qed.

Lemma substring_all s : substring 0 (String.length s) s = s.
Proof. induction s as [|c r IH]; [reflexivity|]. cbn. now rewrite IH. Qed.

Lemma surah_path_id_number digits :
  truthy digits && all_digits digits = true ->
  surah_path_id ("/api/surah/" ++ digits) = Some digits.
Proof.
  intros H. unfold surah_path_id.
  assert (Hp : String.prefix "/api/surah/" ("/api/surah/" ++ digits) = true).
  { apply String.prefix_correct. do 11 rewrite append_cons.
    cbn [String.length substring]. now destruct ("" ++ digits). }
  rewrite Hp. do 11 rewrite append_cons. rewrite append_nil_l.
  cbn [String.length Nat.sub substring].
  now rewrite Nat.sub_0_r, substring_all, H.
Qed.

Lemma find_numbered (l : list QuranSurah.t) : forall i k,
  map QuranSurah.id l
    = map (fun j => Z.of_nat j + i) (seq 0 (length l)) ->
  find (fun s => QuranSurah.id s =? k) l
  = if (i <=? k) && (k <? i + Z.of_nat (length l))
    then nth_error l (Z.to_nat (k - i)) else None.
Proof.
  induction l as [|s l IH]; intros i k Hid.
  - cbn [find]. destruct (_ && _)%bool; [|reflexivity].
    now destruct (Z.to_nat (k - i)).
  - cbn [map seq length] in Hid. injection Hid as Hs Hl.
    rewrite <- seq_shift, map_map in Hl.
    assert (Hl' : map QuranSurah.id l
                  = map (fun j => Z.of_nat j + (i + 1)) (seq 0 (length l))).
    { rewrite Hl. apply map_ext. intros j. lia. }
    cbn [find length]. destruct (QuranSurah.id s =? k) eqn:E.
    + apply Z.eqb_eq in E.
      replace (k - i) with 0 by lia. cbn [Z.to_nat nth_error].
      destruct (Z.leb_spec i k), (Z.ltb_spec k (i + Z.of_nat (S (length l))));
        cbn [andb]; try lia; reflexivity.
    + apply Z.eqb_neq in E. rewrite (IH (i + 1) k Hl').
      destruct (Z.leb_spec (i + 1) k),
               (Z.ltb_spec k (i + 1 + Z.of_nat (length l))),
               (Z.leb_spec i k),
               (Z.ltb_spec k (i + Z.of_nat (S (length l))));
        cbn [andb]; try lia; try reflexivity.
      replace (Z.to_nat (k - i)) with (S (Z.to_nat (k - (i + 1)))) by lia.
      reflexivity.
Qed.

Lemma fetchHandler_surah rt request p digits :
  quranData p <> [] ->
  method request = "GET" ->
  pathname request = "/api/surah/" ++ digits ->
  truthy digits && all_digits digits = true ->
  fetchHandler arabic rt request p
  = (Returned (route_surah (quranData p) digits), p).
Proof.
  intros Hdata Hm Hp Hd. unfold fetchHandler. cbv zeta.
  rewrite (loadQuranData_cached arabic (fetched rt) p Hdata).
  rewrite Hm, Hp, (surah_path_id_number digits Hd).
  cbv [String.append].
  destruct (quranData p) as [|su sus]; [congruence|]. reflexivity.
Qed.

(** X13. On a cached corpus numbered 1, 2, ... (as the loader numbers it),
    [GET /api/surah/k] for the decimal numeral of [k >= 0] answers 200 with
    the [k]-th surah of the corpus when there is one, and 404 when [k] is 0
    or beyond the last surah; the process is left as it was. *)
Theorem surah_is_found_by_number rt request p k :
  quranData p <> [] ->
  map QuranSurah.id (quranData p) = numbering (length (quranData p)) ->
  method request = "GET" ->
  pathname request = "/api/surah/" ++ Z_toString k ->
  0 <= k ->
  fetchHandler arabic rt request p
  = (Returned
       (match (if (1 <=? k) && (k <=? Z.of_nat (length (quranData p)))
               then nth_error (quranData p) (Z.to_nat (k - 1)) else None) with
        | Some surah => respond 200 (SurahBody surah)
        | None => respond 404 (JsonBody (ErrorBody "Surah not found" None None))
        end), p).
Proof.
  intros Hdata Hnum Hm Hp Hk.
  rewrite (fetchHandler_surah rt request p (Z_toString k) Hdata Hm Hp
             (Z_toString_digits k Hk)).
  f_equal. f_equal. unfold route_surah.
  assert (Hparse : parseInt (Z_toString k) = Some k).
  { destruct k as [|q|q]; [reflexivity|apply parseInt_positive|lia]. }
  rewrite Hparse. cbv zeta.
  rewrite (find_numbered (quranData p) 1 k Hnum).
  replace (k <? 1 + Z.of_nat (length (quranData p)))
    with (k <=? Z.of_nat (length (quranData p))).
  - reflexivity.
  - destruct (k <=? _) eqn:E1; destruct (k <? _) eqn:E2; lia.
Qed.

Lemma fetchHandler_search rt request p :
  quranData p <> [] ->
  method request = "GET" -> pathname request = "/api/search" ->
  fetchHandler arabic rt request p
  = (Returned (route_search (quranData p) (searchParams request)), p).
Proof.
  intros Hdata Hm Hp. unfold fetchHandler. cbv zeta.
  rewrite (loadQuranData_cached arabic (fetched rt) p Hdata), Hm, Hp.
  destruct (quranData p) as [|su sus]; [congruence|]. reflexivity.
Qed.

Lemma findRelevantVerses_none data keywords :
  findRelevantVerses data keywords 0 = [].
Proof.
  unfold findRelevantVerses, Array_slice0. cbv zeta. cbn [Z.ltb Z.compare].
  rewrite Z.min_l by lia. reflexivity.
Qed.

Lemma findRelevantVerses_length data keywords limit :
  0 <= limit ->
  Z.of_nat (length (findRelevantVerses data keywords limit)) <= limit.
Proof.
  intros H. unfold findRelevantVerses. rewrite length_map.
  now apply Array_slice0_length.
Qed.

(** X14. [GET /api/search] on a cached corpus. Without a usable [q] the
    answer is 400. With one, the answer is 200 and [total_results] is the
    number of results; these are the ranking of the keywords of [q], cut at
    10 when [limit] is absent or empty, at [n] when [limit] is the decimal
    numeral of [n >= 0] (so at most [n] results), and empty when [limit] is
    text that [parseInt] does not read. *)
Theorem search_reads_its_parameters rt request p :
  quranData p <> [] ->
  method request = "GET" -> pathname request = "/api/search" ->
  (absent_or_empty (searchParams request "q") ->
   fetchHandler arabic rt request p
   = (Returned
        (respond 400
           (JsonBody (ErrorBody ("Query parameter " ++ dq ++ "q" ++ dq ++ " is required")
                        None None))), p)) /\
  (forall query,
     searchParams request "q" = Some query -> truthy query = true ->
     exists results,
       fetchHandler arabic rt request p
       = (Returned
            (respond 200 (SearchBody query (Z.of_nat (length results)) results)),
          p) /\
       (absent_or_empty (searchParams request "limit") ->
        results = findRelevantVerses (quranData p) (extractKeywords query) 10) /\
       (forall n, searchParams request "limit" = Some (Z_toString n) -> 0 <= n ->
        results = findRelevantVerses (quranData p) (extractKeywords query) n /\
        Z.of_nat (length results) <= n) /\
       (forall text, searchParams request "limit" = Some text ->
        truthy text = true -> parseInt text = None -> results = [])).
Proof.
  intros Hdata Hm Hp. rewrite (fetchHandler_search rt request p Hdata Hm Hp).
  unfold route_search. cbv zeta. split.
  - intros [-> | ->]; reflexivity.
  - intros query Hq Ht. rewrite Hq.
    assert (Hquery : prop_or_else (Some query) "" = query).
    { unfold prop_or_else, or_else. now rewrite Ht. }
    rewrite Hquery, Ht. cbn [negb].
    eexists. split; [reflexivity|]. split; [|split].
    + intros [-> | ->]; reflexivity.
    + intros n Hl Hn. rewrite Hl.
      assert (Hparse : parseInt (Z_toString n) = Some n).
      { destruct n as [|q|q]; [reflexivity|apply parseInt_positive|lia]. }
      assert (Htruthy : truthy (Z_toString n) = true).
      { pose proof (Z_toString_digits n Hn) as H.
        now apply andb_prop in H as [H _]. }
      unfold prop_or_else, or_else. rewrite Htruthy, Hparse. cbn [to_integer].
      split; [reflexivity|]. now apply findRelevantVerses_length.
    + intros text Hl Htext Hnan. rewrite Hl.
      unfold prop_or_else, or_else. rewrite Htext, Hnan. cbn [to_integer].
      apply findRelevantVerses_none.
Qed.

Lemma Array_at_In {A} (l : list A) x a : Array_at l x = Some a -> In a l.
Proof.
  unfold Array_at. intros H.
  destruct (Prim2SF x) as [s| | |s m e]; try discriminate.
  - now apply nth_error_In in H.
  - destruct s; [discriminate|].
    destruct (0 <=? e); [now apply nth_error_In in H|].
    destruct (_ =? 0); [now apply nth_error_In in H|discriminate].
Qed.

Lemma fetchHandler_random rt request p :
  quranData p <> [] ->
  method request = "GET" -> pathname request = "/api/random" ->
  fetchHandler arabic rt request p
  = match route_random (quranData p) rt with
    | inl r => (Returned r, p)
    | inr property => internal_error (own_error (type_error rt property)) p
    end.
Proof.
  intros Hdata Hm Hp. unfold fetchHandler. cbv zeta.
  rewrite (loadQuranData_cached arabic (fetched rt) p Hdata), Hm, Hp.
  destruct (quranData p) as [|su sus]; [congruence|]. reflexivity.
Qed.

(** X15. Whatever [Math.random] gives, [GET /api/random] on a cached
    corpus answers, and a 200 answer names a verse that is in the corpus: a
    surah of the corpus and one of the verses of that surah, with the
    reference built from their name and numbers. *)
Theorem random_verse_is_from_corpus rt request p :
  quranData p <> [] ->
  method request = "GET" -> pathname request = "/api/random" ->
  exists r,
  fst (fetchHandler arabic rt request p) = Returned r /\
  (http_status r = 200 ->
  exists surah verse,
    In surah (quranData p) /\ In verse (QuranSurah.verses surah) /\
    http_body r
    = RandomBody {|
        rnd_surah_id := QuranSurah.id surah;
        rnd_surah_name := QuranSurah.name surah;
        rnd_surah_translation := QuranSurah.translation surah;
        rnd_verse_id := QuranVerse.id verse;
        rnd_verse_text := QuranVerse.text verse;
        rnd_verse_translation := QuranVerse.translation verse;
        rnd_reference :=
          (QuranSurah.name surah ++ " (" ++ Z_toString (QuranSurah.id surah)
           ++ ":" ++ Z_toString (QuranVerse.id verse) ++ ")")%string;
        rnd_message := "Random verse from the Holy Quran" |}).
Proof.
  intros Hdata Hm Hp. rewrite (fetchHandler_random rt request p Hdata Hm Hp).
  unfold route_random.
  destruct (Array_at (quranData p) _) as [surah|] eqn:Hs;
    [|eexists; split; [reflexivity|cbn; discriminate]].
  apply Array_at_In in Hs.
  destruct (QuranSurah.verses surah) as [|v vs] eqn:Hv;
    [eexists; split; [reflexivity|cbn; discriminate]|].
  destruct (Array_at (v :: vs) _) as [verse|] eqn:Hverse;
    [|eexists; split; [reflexivity|cbn; discriminate]].
  apply Array_at_In in Hverse.
  eexists. split; [reflexivity|]. intros _.
  exists surah, verse. rewrite Hv. repeat split; assumption.
Qed.

Lemma fetchHandler_chat rt request body p :
  quranData p <> [] ->
  method request = "POST" -> pathname request = "/api/chat" ->
  json_body request = Returned body ->
  fetchHandler arabic rt request p
  = match AI_run (ambient rt) MODEL_ID (chat_input body) with
    | Returned response => (Returned (respond 200 (ChatBody response)), p)
    | Thrown => internal_error (ai_error rt) p
    end.
Proof.
  intros Hdata Hm Hp Hb. unfold fetchHandler. cbv zeta.
  rewrite (loadQuranData_cached arabic (fetched rt) p Hdata), Hm, Hp, Hb.
  destruct (quranData p) as [|su sus]; [congruence|]. reflexivity.
Qed.

(** X16. [POST /api/chat] on a cached corpus calls the model with an input
    that always holds a message of the system role: the messages of the
    request as they are when one of them has that role, and otherwise the
    same messages after the default system message. The messages of the
    other roles are never changed. What the model returns is answered 200,
    the process left as it was. When the gateway fails, the outer [catch]
    takes the error the gateway rejected with: the answer is the 500 that
    carries the [message] of that error, and there is no answer when the
    error cannot be read. *)
Theorem chat_always_sends_a_system_message rt request body p :
  quranData p <> [] ->
  method request = "POST" -> pathname request = "/api/chat" ->
  json_body request = Returned body ->
  exists input,
    (forall response,
       AI_run (ambient rt) MODEL_ID input = Returned response ->
       fetchHandler arabic rt request p
       = (Returned (respond 200 (ChatBody response)), p)) /\
    (AI_run (ambient rt) MODEL_ID input = Thrown ->
     fetchHandler arabic rt request p = internal_error (ai_error rt) p /\
     (forall message, ai_error rt = Readable message ->
        fst (fetchHandler arabic rt request p)
        = Returned (respond 500
                      (InternalErrorBody "Internal server error" message))) /\
     (ai_error rt = Unreadable ->
        fst (fetchHandler arabic rt request p) = Thrown)) /\
    existsb is_system (messages input) = true /\
    List.filter (fun m => negb (is_system m)) (messages input)
    = List.filter (fun m => negb (is_system m))
        (match chat_messages body with Some m => m | None => [] end) /\
    (forall given, chat_messages body = Some given ->
       existsb is_system given = true -> messages input = given) /\
    (forall given, chat_messages body = Some given ->
       existsb is_system given = false ->
       messages input = default_system_message :: given).
Proof.
  intros Hdata Hm Hp Hb. exists (chat_input body).
  rewrite (fetchHandler_chat rt request body p Hdata Hm Hp Hb).
  split; [now intros response ->|].
  split.
  { intros ->. split; [reflexivity|].
    split; [now intros message ->|now intros ->]. }
  unfold chat_input. cbn [messages].
  destruct (chat_messages body) as [given|].
  - destruct (existsb is_system given) eqn:E; cbn [existsb List.filter].
    + repeat split; try assumption; intros g [= <-]; congruence.
    + repeat split; intros g [= <-]; congruence.
  - repeat split; discriminate.
Qed.

Lemma process_eta p : {| quranData := quranData p; world := world p |} = p.
Proof. now destruct p. Qed.

Lemma fetchHandler_ask_route rt request body p :
  quranData p <> [] ->
  method request = "POST" -> pathname request = "/api/ask" ->
  json_body request = Returned body ->
  fetchHandler arabic rt request p
  = (Returned
       (respond (status (fst (fetchHandler_ask (ambient rt) (quranData p)
                                (ask body) (world p))))
          (JsonBody (json (fst (fetchHandler_ask (ambient rt) (quranData p)
                                  (ask body) (world p)))))),
     {| quranData := quranData p;
        world := snd (fetchHandler_ask (ambient rt) (quranData p) (ask body)
                        (world p)) |}).
Proof.
  intros Hdata Hm Hp Hb. unfold fetchHandler. cbv zeta.
  rewrite (loadQuranData_cached arabic (fetched rt) p Hdata), Hm, Hp, Hb.
  destruct (quranData p) as [|su sus]; [congruence|]. cbv beta iota.
  change (String.eqb "POST" "OPTIONS") with false.
  cbn [orb andb String.eqb Ascii.eqb Bool.eqb surah_path_id].
  now destruct (fetchHandler_ask _ _ _ _).
Qed.

(** X17. [POST /api/ask] on a cached corpus, with a body whose [question]
    is absent or empty, or longer than 500 code units, is answered 400
    whatever the gateway and the store would do, and the process is left as
    it was: nothing is logged and nothing is counted. *)
Theorem ask_needs_a_usable_question rt request body p :
  quranData p <> [] ->
  method request = "POST" -> pathname request = "/api/ask" ->
  json_body request = Returned body ->
  (absent_or_empty (question (ask body)) ->
   fetchHandler arabic rt request p
   = (Returned
        (respond 400 (JsonBody (ErrorBody "Question is required" None None))),
      p)) /\
  (forall q, question (ask body) = Some q ->
     (500 < String.length q)%nat ->
     fetchHandler arabic rt request p
     = (Returned
          (respond 400
             (JsonBody (ErrorBody "Pertanyaan terlalu panjang"
                          (Some "Maksimal 500 karakter")
                          (Some "Sederhanakan pertanyaan Anda")))), p)).
Proof.
  intros Hdata Hm Hp Hb.
  rewrite (fetchHandler_ask_route rt request body p Hdata Hm Hp Hb).
  unfold fetchHandler_ask.
  destruct (quranData p) as [|su sus] eqn:E; [congruence|]. rewrite <- E.
  cbv zeta. split.
  - intros [-> | ->]; cbn; now rewrite process_eta.
  - intros q Hq Hlen. rewrite Hq.
    assert (Htruthy : truthy q = true).
    { destruct q; [cbn in Hlen; lia|reflexivity]. }
    assert (Hquestion : prop_or_else (Some q) "" = q).
    { unfold prop_or_else, or_else. now rewrite Htruthy. }
    apply Nat.ltb_lt in Hlen. rewrite Hquestion, Htruthy, Hlen. cbn.
    now rewrite process_eta.
Qed.

Lemma route_random_body data rt r message :
  route_random data rt = inl r ->
  http_body r <> InternalErrorBody "Internal server error" message.
Proof.
  unfold route_random.
  repeat branch; intros H; try discriminate; injection H as <-; discriminate.
Qed.

(** An answer of the outer [catch] with a given message is the answer to
    an error that carries this message. *)
Lemma internal_error_message error p r text :
  fst (internal_error error p) = Returned r ->
  http_body r = InternalErrorBody "Internal server error" (Some (JsonString text)) ->
  error = own_error text.
Proof.
  intros H Hb. apply internal_error_answer in H as (message & -> & ->).
  cbn in Hb. now injection Hb as ->.
Qed.

(** X18. A request that is not one of the routes answered before loading,
    and for which [loadQuranData] returns an empty corpus, is answered 500
    with the message [Quran data not available]. An answer with that
    message comes from there or from an error that carries this very
    message: one that [request.json()] rejected with, one that the gateway
    rejected with on the chat route, or the [TypeError] of the engine on
    the random route. The message alone does not tell these apart: a
    gateway error with this message gives the same answer on a loaded
    corpus. *)
Theorem data_unavailable_only_for_empty_corpus rt request p :
  (answers_without_corpus request = false /\
   fst (loadQuranData arabic (fetched rt) p) = [] ->
   fst (fetchHandler arabic rt request p)
   = Returned (respond 500
                 (InternalErrorBody "Internal server error"
                    (Some (JsonString "Quran data not available"))))) /\
  (forall r,
     fst (fetchHandler arabic rt request p) = Returned r ->
     http_body r
     = InternalErrorBody "Internal server error"
         (Some (JsonString "Quran data not available")) ->
     (answers_without_corpus request = false /\
      fst (loadQuranData arabic (fetched rt) p) = []) \/
     (json_body request = Thrown /\
      json_error rt = own_error "Quran data not available") \/
     (pathname request = "/api/chat" /\
      ai_error rt = own_error "Quran data not available") \/
     (pathname request = "/api/random" /\
      exists property, type_error rt property = "Quran data not available")) /\
  (exists rt' request' p',
     answers_without_corpus request' = false /\
     fst (loadQuranData arabic (fetched rt') p') <> [] /\
     fst (fetchHandler arabic rt' request' p')
     = Returned (respond 500
                   (InternalErrorBody "Internal server error"
                      (Some (JsonString "Quran data not available"))))).
Proof.
  split; [|split].
  - unfold fetchHandler, answers_without_corpus. cbv zeta.
    intros [Hroute Hempty]. revert Hroute.
    destruct (String.eqb (method request) "OPTIONS"); [discriminate|].
    destruct (String.eqb (pathname request) "/"); [discriminate|].
    destruct (String.eqb (pathname request) "/api"); [discriminate|].
    destruct (String.eqb (pathname request) "/api/health"); [discriminate|].
    intros _. cbn [orb].
    destruct (loadQuranData arabic (fetched rt) p) as [data p'].
    cbn [fst] in Hempty. now subst data.
  - unfold fetchHandler, answers_without_corpus. cbv zeta.
    destruct (String.eqb (method request) "OPTIONS");
      [intros r [= <-]; discriminate|].
    destruct (String.eqb (pathname request) "/");
      [intros r [= <-]; discriminate|].
    destruct (String.eqb (pathname request) "/api");
      [intros r [= <-]; discriminate|].
    destruct (String.eqb (pathname request) "/api/health");
      [intros r [= <-]; discriminate|].
    cbn [orb].
    destruct (loadQuranData arabic (fetched rt) p) as [data p'].
    destruct data as [|su sus]; [intros r _ _; left; now split|].
    cbv beta iota. intros r H Hb. right. revert r H Hb.
    destruct (String.eqb (pathname request) "/api/surah"
              && String.eqb (method request) "GET")%bool;
      [intros r [= <-]; discriminate|].
    destruct (if String.eqb (method request) "GET" then _ else None)
      as [digits|].
    { unfold route_surah. intros r [= <-]. repeat branch; discriminate. }
    destruct (String.eqb (pathname request) "/api/search"
              && String.eqb (method request) "GET")%bool.
    { unfold route_search. cbv zeta. intros r [= <-]. branch; discriminate. }
    destruct (String.eqb (pathname request) "/api/random"
              && String.eqb (method request) "GET")%bool eqn:Erandom.
    { apply andb_prop in Erandom as [Erandom _].
      apply String.eqb_eq in Erandom.
      destruct (route_random (su :: sus) rt) as [r0|property] eqn:E.
      - intros r [= <-] Hb. now apply (route_random_body _ _ _ _ E) in Hb.
      - intros r H Hb.
        pose proof (internal_error_message _ _ _ _ H Hb) as Hm.
        injection Hm as Hm. right; right.
        split; [exact Erandom|now exists property]. }
    destruct (String.eqb (pathname request) "/api/ask"
              && String.eqb (method request) "POST")%bool.
    { destruct (json_body request) as [body|].
      - destruct (fetchHandler_ask _ _ _ _) as [r0 w].
        intros r [= <-]; discriminate.
      - intros r H Hb. left. split; [reflexivity|].
        exact (internal_error_message _ _ _ _ H Hb). }
    destruct (String.eqb (pathname request) "/api/chat"
              && String.eqb (method request) "POST")%bool eqn:Echat;
      [|intros r [= <-]; discriminate].
    apply andb_prop in Echat as [Echat _]. apply String.eqb_eq in Echat.
    destruct (json_body request) as [body|].
    + destruct (AI_run _ _ _); [intros r [= <-]; discriminate|].
      intros r H Hb. right; left. split; [exact Echat|].
      exact (internal_error_message _ _ _ _ H Hb).
    + intros r H Hb. left. split; [reflexivity|].
      exact (internal_error_message _ _ _ _ H Hb).
  - exists {| ambient := sampleAmbient Thrown;
              fetched := Thrown;
              random_first := 0.5;
              random_second := 0.25;
              json_error := Unreadable;
              ai_error := own_error "Quran data not available";
              type_error := fun _ => "" |},
           (post_request "/api/chat" sampleBody), loadedProcess.
    split; [reflexivity|]. split.
    + rewrite loadQuranData_cached; discriminate.
    + rewrite (fetchHandler_chat _ _ sampleBody); try reflexivity.
      discriminate.
Qed.

End Routes.

(** *** Instances under [binary_conversions] *)

Lemma only_ask_is_metered_witness :
  NEURON_LIMITER
    (world (snd (@fetchHandler binary_conversions sampleArabic
                   (sampleRuntime (Returned emptyAnswer))
                   (post_request "/api/chat" sampleBody) loadedProcess)))
  = NEURON_LIMITER (world loadedProcess).
Proof.
  apply (@only_ask_is_metered binary_conversions sampleArabic
           (sampleRuntime (Returned emptyAnswer))
           (post_request "/api/chat" sampleBody) loadedProcess).
  reflexivity.
Defined.

Lemma serve_keeps_cap_and_cache_witness :
  @within_cap binary_conversions
    (world (snd (@serve binary_conversions sampleArabic
                   [ (sampleRuntime (Returned emptyAnswer),
                      post_request "/api/ask" sampleBody);
                     (sampleRuntime Thrown, get_request "/api/surah" no_params) ]
                   loadedProcess))) /\
  quranData (snd (@serve binary_conversions sampleArabic
                    [ (sampleRuntime (Returned emptyAnswer),
                       post_request "/api/ask" sampleBody);
                      (sampleRuntime Thrown, get_request "/api/surah" no_params) ]
                    loadedProcess))
  = quranData loadedProcess.
Proof.
  destruct (@serve_keeps_cap_and_cache binary_conversions sampleArabic
              binary_round_trips binary_nonempty
              [ (sampleRuntime (Returned emptyAnswer),
                 post_request "/api/ask" sampleBody);
                (sampleRuntime Thrown, get_request "/api/surah" no_params) ]
              loadedProcess) as [Hcap Hcache].
  - constructor; [|constructor; [|constructor]].
    + intros model input aiResponse H. cbn in H. injection H as <-.
      intros u Hu. discriminate.
    + intros model input aiResponse H. discriminate.
  - apply absent_or_zero_within_cap. intros key. reflexivity.
  - split; [exact Hcap|]. apply Hcache. discriminate.
Defined.

Lemma surah_is_found_by_number_witness :
  option_map
    (fun surah => (Returned (respond 200 (SurahBody surah)), loadedProcess))
    (nth_error sampleData 1)
  = Some (@fetchHandler binary_conversions sampleArabic (sampleRuntime Thrown)
            (get_request "/api/surah/2" no_params) loadedProcess).
Proof.
  rewrite (@surah_is_found_by_number binary_conversions sampleArabic
             (sampleRuntime Thrown) (get_request "/api/surah/2" no_params)
             loadedProcess 2);
    [reflexivity | discriminate | reflexivity | reflexivity | reflexivity | lia].
Defined.

Lemma search_reads_its_parameters_witness :
  exists results,
    @fetchHandler binary_conversions sampleArabic (sampleRuntime Thrown)
      (get_request "/api/search" (query_params "Allah")) loadedProcess
    = (Returned
         (respond 200 (SearchBody "Allah" (Z.of_nat (length results)) results)),
       loadedProcess) /\
    results = findRelevantVerses sampleData (extractKeywords "Allah") 10.
Proof.
  destruct (proj2 (@search_reads_its_parameters binary_conversions sampleArabic
                     (sampleRuntime Thrown)
                     (get_request "/api/search" (query_params "Allah"))
                     loadedProcess
                     ltac:(discriminate) eq_refl eq_refl)
              "Allah" eq_refl eq_refl)
    as (results & Hr & Hdefault & _).
  exists results. split; [exact Hr|]. apply Hdefault. now left.
Defined.

Lemma random_verse_is_from_corpus_witness :
  exists r surah verse,
    fst (@fetchHandler binary_conversions sampleArabic (sampleRuntime Thrown)
           (get_request "/api/random" no_params) loadedProcess)
    = Returned r /\
    In surah sampleData /\ In verse (QuranSurah.verses surah) /\
    http_body r
    = RandomBody {|
        rnd_surah_id := QuranSurah.id surah;
        rnd_surah_name := QuranSurah.name surah;
        rnd_surah_translation := QuranSurah.translation surah;
        rnd_verse_id := QuranVerse.id verse;
        rnd_verse_text := QuranVerse.text verse;
        rnd_verse_translation := QuranVerse.translation verse;
        rnd_reference :=
          QuranSurah.name surah ++ " (" ++ Z_toString (QuranSurah.id surah)
          ++ ":" ++ Z_toString (QuranVerse.id verse) ++ ")";
        rnd_message := "Random verse from the Holy Quran" |}.
Proof.
  destruct (@random_verse_is_from_corpus binary_conversions sampleArabic
              (sampleRuntime Thrown) (get_request "/api/random" no_params)
              loadedProcess ltac:(discriminate) eq_refl eq_refl)
    as (r & Hr & Hfound).
  destruct Hfound as (surah & verse & Hsurah & Hverse & Hbody).
  - vm_compute in Hr. now injection Hr as <-.
  - now exists r, surah, verse.
Defined.

Lemma chat_always_sends_a_system_message_witness :
  exists input,
    (forall response,
       AI_run (sampleAmbient Thrown) MODEL_ID input = Returned response ->
       @fetchHandler binary_conversions sampleArabic (sampleRuntime Thrown)
         (post_request "/api/chat" sampleBody) loadedProcess
       = (Returned (respond 200 (ChatBody response)), loadedProcess)) /\
    fst (@fetchHandler binary_conversions sampleArabic (sampleRuntime Thrown)
           (post_request "/api/chat" sampleBody) loadedProcess)
    = Returned (respond 500
                  (InternalErrorBody "Internal server error"
                     (Some (JsonString "Gateway timeout")))) /\
    messages input
    = default_system_message
        :: [ {| role := user; msg_content := Text "Assalamu alaikum" |} ].
Proof.
  destruct (@chat_always_sends_a_system_message binary_conversions sampleArabic
              (sampleRuntime Thrown)
              (post_request "/api/chat" sampleBody) sampleBody loadedProcess
              ltac:(discriminate) eq_refl eq_refl eq_refl)
    as (input & Hr & Hfailed & _ & _ & _ & Hdefault).
  exists input. split; [exact Hr|]. split.
  - destruct (Hfailed eq_refl) as (_ & Hreadable & _).
    now apply Hreadable.
  - now apply Hdefault.
Defined.

Lemma ask_needs_a_usable_question_witness :
  @fetchHandler binary_conversions sampleArabic (sampleRuntime Thrown)
    (post_request "/api/ask" emptyBody) loadedProcess
  = (Returned
       (respond 400 (JsonBody (ErrorBody "Question is required" None None))),
     loadedProcess).
Proof.
  apply (proj1 (@ask_needs_a_usable_question binary_conversions sampleArabic
                  (sampleRuntime Thrown) (post_request "/api/ask" emptyBody)
                  emptyBody loadedProcess
                  ltac:(discriminate) eq_refl eq_refl eq_refl)).
  now left.
Defined.

(** ** Keyword extraction: the keywords *)

Section KeywordsMore.

Lemma filter_map_commute {A B} (f : A -> B) (p : B -> bool) (l : list A) :
  List.filter p (map f l) = map f (List.filter (fun x => p (f x)) l).
Proof.
  induction l as [|x l IH]; [reflexivity|]. cbn [map List.filter].
  rewrite IH. now destruct (p (f x)).
Qed.

Lemma filter_filter_implied {A} (p q : A -> bool) (l : list A) :
  (forall x, p x = true -> q x = true) ->
  List.filter p (List.filter q l) = List.filter p l.
Proof.
  intros H. induction l as [|x l IH]; [reflexivity|]. cbn [List.filter].
  destruct (q x) eqn:Eq; cbn [List.filter]; rewrite IH; [reflexivity|].
  destruct (p x) eqn:Ep; [|reflexivity]. apply H in Ep. congruence.
Qed.

Lemma filter_all {A} (p : A -> bool) (l : list A) :
  Forall (fun x => p x = true) l -> List.filter p l = l.
Proof.
  induction 1 as [|x l Hx _ IH]; [reflexivity|]. cbn. now rewrite Hx, IH.
Qed.

Lemma is_keyword_lowercased word :
  is_keyword (toLowerCase word) = negb (insignificant word).
Proof.
  unfold is_keyword, insignificant, toLowerCase. rewrite map_chars_length.
  rewrite negb_orb. f_equal.
  destruct (2 <? String.length word)%nat eqn:E1;
    destruct (String.length word <=? 2)%nat eqn:E2; try reflexivity.
  - apply Nat.ltb_lt in E1. apply Nat.leb_le in E2. lia.
  - apply Nat.ltb_ge in E1. apply Nat.leb_gt in E2. lia.
Qed.

Lemma extractKeywords_word_runs question :
  extractKeywords question
  = map toLowerCase
      (List.filter (fun word => negb (insignificant word)) (word_runs question)).
Proof.
  unfold extractKeywords. rewrite tokens_are_lowercased_runs.
  rewrite filter_map_commute. f_equal. unfold word_runs.
  rewrite filter_filter_implied.
  - apply List.filter_ext. intros word. apply is_keyword_lowercased.
  - intros word H. now destruct word.
Qed.

(** X19. The keywords of a question are its maximal runs of word
    characters, lower-cased, in the order of the question and with their
    repetitions, less the runs of at most two characters and the runs that
    are stop-words in any letter case. *)
Theorem keywords_are_the_significant_words question :
  extractKeywords question
  = map toLowerCase
      (List.filter (fun word => negb (insignificant word)) (word_runs question)).
Proof. apply extractKeywords_word_runs. Qed.

Lemma char_toLowerCase_word c :
  is_word c = true -> is_lower_word (char_toLowerCase c) = true.
Proof.
  destruct c as [b0 b1 b2 b3 b4 b5 b6 b7];
    destruct b0, b1, b2, b3, b4, b5, b6, b7; (discriminate || reflexivity).
Qed.

Lemma is_lower_word_fixed c :
  is_lower_word c = true -> is_word c = true /\ char_toLowerCase c = c.
Proof.
  destruct c as [b0 b1 b2 b3 b4 b5 b6 b7];
    destruct b0, b1, b2, b3, b4, b5, b6, b7;
    (discriminate || (split; reflexivity)).
Qed.

Lemma char_toLowerCase_idempotent c :
  char_toLowerCase (char_toLowerCase c) = char_toLowerCase c.
Proof.
  destruct c as [b0 b1 b2 b3 b4 b5 b6 b7];
    destruct b0, b1, b2, b3, b4, b5, b6, b7; reflexivity.
Qed.

Lemma toLowerCase_idempotent s : toLowerCase (toLowerCase s) = toLowerCase s.
Proof.
  unfold toLowerCase. rewrite map_chars_compose.
  induction s as [|c r IH]; [reflexivity|]. cbn [map_chars].
  now rewrite char_toLowerCase_idempotent, IH.
Qed.

Lemma toLowerCase_lower_word piece :
  all_chars is_word piece = true ->
  all_chars is_lower_word (toLowerCase piece) = true.
Proof.
  induction piece as [|c r IH]; [reflexivity|]. cbn [all_chars].
  intros H. apply andb_prop in H as [Hc Hr].
  unfold toLowerCase. cbn [map_chars all_chars].
  rewrite (char_toLowerCase_word c Hc). now apply IH.
Qed.

Lemma lower_word_fixed s :
  all_chars is_lower_word s = true ->
  all_chars is_word s = true /\ toLowerCase s = s.
Proof.
  induction s as [|c r IH]; [now split|]. cbn [all_chars].
  intros H. apply andb_prop in H as [Hc Hr].
  destruct (is_lower_word_fixed c Hc) as [Hw Hf].
  destruct (IH Hr) as [Hws Hfs].
  split; [now rewrite Hw, Hws|].
  unfold toLowerCase in *. cbn [map_chars]. now rewrite Hf, Hfs.
Qed.

Lemma word_runs_are_words question :
  Forall (fun piece => all_chars is_word piece = true) (word_runs question).
Proof.
  unfold word_runs. apply List.Forall_forall. intros piece Hin.
  apply List.filter_In in Hin as [Hin _].
  pose proof (split_runs_pieces not_word question false) as Hp.
  rewrite List.Forall_forall in Hp. specialize (Hp piece Hin).
  erewrite <- Hp. clear. induction piece as [|c r IH]; [reflexivity|].
  cbn [all_chars]. unfold not_word at 1. now rewrite negb_involutive, IH.
Qed.

Lemma extractKeywords_shape question :
  Forall (fun keyword =>
            is_keyword keyword = true /\
            all_chars is_lower_word keyword = true)
    (extractKeywords question).
Proof.
  rewrite extractKeywords_word_runs. apply Forall_map.
  apply List.Forall_forall. intros word Hin.
  apply List.filter_In in Hin as [Hin Hsig]. cbn. split.
  - now rewrite is_keyword_lowercased.
  - apply toLowerCase_lower_word.
    pose proof (word_runs_are_words question) as Hw.
    rewrite List.Forall_forall in Hw. now apply Hw.
Qed.

(** X20. Every keyword [extractKeywords] returns has more than two
    characters, is not a stop-word, and is written in the characters [a-z],
    [0-9] and [_] only. *)
Theorem keywords_are_lowercase_words question :
  Forall (fun keyword =>
            (2 < String.length keyword)%nat /\
            (keyword ∉ stopWords) /\
            all_chars is_lower_word keyword = true)
    (extractKeywords question).
Proof.
  eapply Forall_impl; [apply extractKeywords_shape|].
  intros keyword [Hk Hl]. unfold is_keyword in Hk.
  apply andb_prop in Hk as [Hlen Hstop].
  split; [now apply Nat.ltb_lt|]. split; [|exact Hl].
  unfold has in Hstop. apply negb_true_iff in Hstop.
  now apply bool_decide_eq_false in Hstop.
Qed.

Lemma assemble_lead lead parts : assemble lead parts = lead ++ assemble "" parts.
Proof.
  destruct parts as [|[word gap] rest]; cbn [assemble].
  - now rewrite append_nil_r.
  - now rewrite append_nil_l.
Qed.

Lemma join_assembled keywords :
  Forall (fun keyword => truthy keyword = true /\
                         all_chars is_word keyword = true) keywords ->
  exists parts,
    join " " keywords = assemble "" parts /\
    map fst parts = keywords /\ well_separated parts = true.
Proof.
  induction 1 as [|k ks [Ht Hw] Hks (parts & Hj & Hm & Hs)].
  - exists []. now repeat split.
  - destruct ks as [|k' ks'].
    + exists [(k, "")]. cbn [join assemble map fst well_separated].
      rewrite append_nil_l, append_nil_r, Ht, Hw. now repeat split.
    + exists ((k, " ") :: parts). split; [|split].
      * change (join " " (k :: k' :: ks'))
          with (k ++ " " ++ join " " (k' :: ks')).
        rewrite Hj. cbn [assemble].
        now rewrite append_nil_l, (assemble_lead " " parts).
      * cbn [map fst]. now rewrite Hm.
      * cbn [well_separated]. rewrite Ht, Hw, Hs. reflexivity.
Qed.

Lemma extractKeywords_join keywords :
  Forall (fun keyword =>
            is_keyword keyword = true /\
            all_chars is_lower_word keyword = true) keywords ->
  extractKeywords (join " " keywords) = keywords.
Proof.
  intros H.
  assert (Hparts : Forall (fun keyword => truthy keyword = true /\
                             all_chars is_word keyword = true) keywords).
  { eapply Forall_impl; [exact H|]. intros k [Hk Hl]. split.
    - destruct k; [discriminate|reflexivity].
    - now apply lower_word_fixed. }
  destruct (join_assembled keywords Hparts) as (parts & Hj & Hm & Hs).
  rewrite extractKeywords_word_runs, Hj.
  rewrite (word_runs_assemble "" parts eq_refl Hs), Hm.
  rewrite filter_all.
  - clear Hparts parts Hj Hm Hs.
    induction H as [|k ks [_ Hl] _ IH]; [reflexivity|]. cbn [map].
    rewrite IH. f_equal. now apply lower_word_fixed.
  - eapply Forall_impl; [exact H|]. intros k [Hk Hl]. cbn.
    rewrite <- is_keyword_lowercased.
    destruct (lower_word_fixed k Hl) as [_ ->]. exact Hk.
Qed.

(** X21. Keyword extraction ignores the letter case of the question, and
    is idempotent: the keywords of a question, joined by spaces, have
    themselves as keywords. *)
Theorem extractKeywords_is_stable question :
  extractKeywords (toLowerCase question) = extractKeywords question /\
  extractKeywords (join " " (extractKeywords question))
  = extractKeywords question.
Proof.
  split.
  - unfold extractKeywords. now rewrite toLowerCase_idempotent.
  - apply extractKeywords_join, extractKeywords_shape.
Qed.

End KeywordsMore.

(** ** Relevance ranking: what is kept *)

Section RankingMore.

Local Open Scope Z_scope.
Local Open Scope list_scope.

(** X22. For a limit that is not negative, [findRelevantVerses] keeps the
    best candidates: the candidates the loops collect split into the kept
    ones, which are returned, and the dropped ones; no dropped candidate
    has a higher score than a kept one, and a candidate is dropped only
    when as many as the limit are kept. *)
Theorem findRelevantVerses_keeps_the_best quranData keywords limit :
  0 <= limit ->
  exists kept dropped,
    findRelevantVerses quranData keywords limit = map with_reference kept /\
    Permutation (kept ++ dropped) (collect_relevant quranData keywords) /\
    (forall a b, In a kept -> In b dropped -> score b <= score a) /\
    (dropped <> [] -> Z.of_nat (length kept) = limit).
Proof.
  intros Hlimit.
  exists (firstn (Z.to_nat limit)
            (Array_sort by_score_desc (collect_relevant quranData keywords))),
         (skipn (Z.to_nat limit)
            (Array_sort by_score_desc (collect_relevant quranData keywords))).
  split; [now apply findRelevantVerses_firstn|]. split; [|split].
  - rewrite firstn_skipn. apply (Array_sort_perm score).
  - apply (sorted_firstn_skipn (fun a b => score b <= score a)).
    apply (Array_sort_sorted score).
  - intros Hdropped. rewrite length_firstn.
    destruct (Nat.le_gt_cases
                (length (Array_sort by_score_desc
                           (collect_relevant quranData keywords)))
                (Z.to_nat limit)) as [Hle|Hgt]; [|lia].
    exfalso. apply Hdropped. now apply skipn_all2.
Qed.

(** X23. The number of results is the smaller of the limit and the number
    of verses of the corpus that have a translation and a positive score,
    and a smaller limit returns a prefix of what a larger one returns:
    raising the limit only appends results. *)
Theorem findRelevantVerses_grows_with_limit quranData keywords m n :
  0 <= m <= n ->
  findRelevantVerses quranData keywords m
  = firstn (Z.to_nat m) (findRelevantVerses quranData keywords n) /\
  Z.of_nat (length (findRelevantVerses quranData keywords n))
  = Z.min n (Z.of_nat (length (spec_candidates quranData keywords))) /\
  length (spec_candidates quranData keywords)
  = list_sum (map (fun surah =>
                     length (List.filter (spec_relevant keywords)
                               (QuranSurah.verses surah)))
                quranData).
Proof.
  intros [Hm Hmn]. split; [|split].
  - rewrite !findRelevantVerses_firstn by lia.
    rewrite firstn_map, firstn_firstn. do 2 f_equal. lia.
  - apply findRelevantVerses_count. lia.
  - unfold spec_candidates.
    induction quranData as [|surah rest IH]; [reflexivity|].
    cbn [flat_map map list_sum]. now rewrite length_app, length_map, IH.
Qed.

(** X24. Whatever the limit, every result of [findRelevantVerses] is taken
    from the corpus: it carries the number and the name of a surah of the
    corpus, the number, the Arabic text and the translation of a verse of
    that surah whose translation is not empty, and the reference built
    from that name and those numbers. *)
Theorem results_come_from_the_corpus quranData keywords limit :
  Forall (fun v =>
            exists surah verse,
              In surah quranData /\ In verse (QuranSurah.verses surah) /\
              truthy (QuranVerse.translation verse) = true /\
              surah_id v = QuranSurah.id surah /\
              surah_name v = QuranSurah.name surah /\
              verse_id v = QuranVerse.id verse /\
              verse_text_arabic v = QuranVerse.text verse /\
              verse_text_translation v = QuranVerse.translation verse /\
              reference v
              = Some (QuranSurah.name surah ++ " ("
                      ++ Z_toString (QuranSurah.id surah) ++ ":"
                      ++ Z_toString (QuranVerse.id verse) ++ ")")%string)
    (findRelevantVerses quranData keywords limit).
Proof.
  apply List.Forall_forall. intros v Hv.
  apply findRelevantVerses_source in Hv as (c & Hc & ->).
  apply collect_relevant_source in Hc as (surah & verse & Hs & Hverse & Hc).
  apply candidate_source in Hc as [Ht ->].
  exists surah, verse. now repeat split.
Qed.

Lemma mapi_from_In {A B} (f : A -> Z -> B) (l : list A) : forall i y,
  In y (mapi_from f i l) -> exists x k, In x l /\ y = f x k.
Proof.
  induction l as [|x l IH]; intros i y; cbn [mapi_from]; [contradiction|].
  intros [<- | H].
  - exists x, i. split; [now left|reflexivity].
  - destruct (IH _ _ H) as (x' & k & Hin & ->).
    exists x', k. split; [now right|reflexivity].
Qed.

(** X25. Loading and ranking together: when no verse of the downloaded
    document carries a translation, as in a document that holds the Arabic
    text only, the corpus built from it yields no result for any keywords
    and any limit. *)
Theorem corpus_without_translations_yields_nothing
    arabic data surahs p keywords limit :
  quranData p = [] -> accepted_surahs data = Some surahs ->
  (forall surah ayahs ayah,
     In surah surahs -> Api.ayahs surah = Some ayahs -> In ayah ayahs ->
     absent_or_empty (Api.translation ayah)) ->
  findRelevantVerses (fst (loadQuranData arabic (Returned data) p))
    keywords limit = [].
Proof.
  intros Hempty Hdoc Hnone.
  destruct (findRelevantVerses _ keywords limit) as [|v vs] eqn:E;
    [reflexivity|exfalso].
  assert (Hv : In v (findRelevantVerses
                       (fst (loadQuranData arabic (Returned data) p))
                       keywords limit)) by (rewrite E; now left).
  apply findRelevantVerses_source in Hv as (c & Hc & _).
  apply collect_relevant_source in Hc as (surah & verse & Hs & Hverse & Hc).
  apply candidate_source in Hc as [Ht _].
  unfold loadQuranData in Hs. rewrite Hempty, Hdoc in Hs. cbn in Hs.
  apply mapi_from_In in Hs as (apiSurah & i & Hin & ->).
  cbn in Hverse. destruct (Api.ayahs apiSurah) as [ayahs|] eqn:Ha;
    [|contradiction].
  apply mapi_from_In in Hverse as (ayah & j & Hayah & ->).
  cbn in Ht.
  destruct (Hnone apiSurah ayahs ayah Hin Ha Hayah) as [Hn | Hn];
    rewrite Hn in Ht; discriminate.
Qed.

End RankingMore.

Lemma findRelevantVerses_keeps_the_best_witness :
  exists kept dropped,
    findRelevantVerses sampleData (extractKeywords "Allah Tuhan") 1
      = map with_reference kept /\
    Permutation (kept ++ dropped)%list
      (collect_relevant sampleData (extractKeywords "Allah Tuhan")) /\
    (forall a b, In a kept -> In b dropped -> (score b <= score a)%Z) /\
    (dropped <> [] -> Z.of_nat (length kept) = 1%Z).
Proof.
  apply (findRelevantVerses_keeps_the_best sampleData
           (extractKeywords "Allah Tuhan") 1).
  lia.
Defined.

Lemma findRelevantVerses_grows_with_limit_witness :
  findRelevantVerses sampleData (extractKeywords "Allah Tuhan") 1
  = firstn (Z.to_nat 1)
      (findRelevantVerses sampleData (extractKeywords "Allah Tuhan") 3) /\
  Z.of_nat (length (findRelevantVerses sampleData
                      (extractKeywords "Allah Tuhan") 3))
  = Z.min 3 (Z.of_nat (length (spec_candidates sampleData
                                 (extractKeywords "Allah Tuhan")))) /\
  length (spec_candidates sampleData (extractKeywords "Allah Tuhan"))
  = list_sum (map (fun surah =>
                     length (List.filter
                               (spec_relevant (extractKeywords "Allah Tuhan"))
                               (QuranSurah.verses surah)))
                sampleData).
Proof.
  apply (findRelevantVerses_grows_with_limit sampleData
           (extractKeywords "Allah Tuhan") 1 3).
  lia.
Defined.

Lemma corpus_without_translations_yields_nothing_witness :
  findRelevantVerses
    (fst (loadQuranData sampleArabic (Returned sampleDocument) freshProcess))
    ["bismillah"] 3 = [].
Proof.
  apply (corpus_without_translations_yields_nothing sampleArabic sampleDocument
           _ freshProcess ["bismillah"] 3 eq_refl eq_refl).
  intros surah ayahs ayah Hs Ha Hayah.
  destruct Hs as [<- | [<- | []]]; [|discriminate].
  injection Ha as <-.
  destruct Hayah as [<- | [<- | []]]; now left.
Defined.

(** ** The prompt *)

Section Prompt.

Lemma append_assoc (a b c : string) : (a ++ b) ++ c = a ++ b ++ c.
Proof.
  induction a as [|x a IH]; [reflexivity|]. now rewrite !append_cons, IH.
Qed.

Lemma prefix_spec k : forall s,
  String.prefix k s = true <-> exists b, s = k ++ b.
Proof.
  induction k as [|c k IH]; intros s.
  - split; [intros _; now exists s|]. intros _. now destruct s.
  - destruct s as [|d s]; cbn [String.prefix].
    + split; [discriminate|]. intros [b Hb]. discriminate.
    + destruct (ascii_dec c d) as [<- | Hcd].
      * rewrite IH. split; intros [b Hb]; exists b.
        -- now rewrite append_cons, Hb.
        -- rewrite append_cons in Hb. now injection Hb.
      * split; [discriminate|]. intros [b Hb].
        rewrite append_cons in Hb. injection Hb as Hd _. congruence.
Qed.

Lemma includes_spec k : forall s,
  includes s k = true <-> exists a b, s = a ++ k ++ b.
Proof.
  induction s as [|c s IH].
  - cbn [includes]. destruct (String.prefix k "") eqn:E.
    + split; [intros _|reflexivity]. apply prefix_spec in E as [b Hb].
      now exists "", b.
    + split; [discriminate|]. intros (a & b & H).
      destruct a; [|discriminate]. rewrite append_nil_l in H.
      assert (Hp : String.prefix k "" = true) by (apply prefix_spec; eauto).
      congruence.
  - cbn [includes]. destruct (String.prefix k (String c s)) eqn:E.
    + split; [intros _|reflexivity]. apply prefix_spec in E as [b Hb].
      now exists "", b.
    + rewrite IH. split.
      * intros (a & b & ->). exists (String c a), b. now rewrite append_cons.
      * intros (a & b & H). destruct a as [|x a].
        -- rewrite append_nil_l in H.
           assert (Hp : String.prefix k (String c s) = true)
             by (apply prefix_spec; eauto).
           congruence.
        -- rewrite append_cons in H. injection H as _ ->. eauto.
Qed.

Lemma includes_app_r a s k : includes s k = true -> includes (a ++ s) k = true.
Proof.
  rewrite !includes_spec. intros (x & y & ->).
  exists (a ++ x), y. now rewrite append_assoc.
Qed.

Lemma includes_app_l s b k : includes s k = true -> includes (s ++ b) k = true.
Proof.
  rewrite !includes_spec. intros (x & y & ->).
  exists x, (y ++ b). now rewrite !append_assoc.
Qed.

Lemma includes_self k : includes k k = true.
Proof. apply includes_spec. exists "", "". now rewrite append_nil_r. Qed.

Lemma includes_quoted a s b : includes (a ++ dq ++ s ++ dq ++ b) (dq ++ s ++ dq) = true.
Proof.
  apply includes_spec. exists a, b. now rewrite !append_assoc.
Qed.

Lemma includes_join sep pieces piece :
  In piece pieces -> includes (join sep pieces) piece = true.
Proof.
  induction pieces as [|p ps IH]; [contradiction|].
  intros [-> | Hin].
  - destruct ps; cbn [join]; [apply includes_self|].
    apply includes_app_l, includes_self.
  - destruct ps as [|p' ps']; [contradiction|].
    change (join sep (p :: p' :: ps')) with (p ++ sep ++ join sep (p' :: ps')).
    now apply includes_app_r, includes_app_r, IH.
Qed.

Lemma createQuranPrompt_context question relevantVerses language context :
  includes (join (String "010" (String "010" EmptyString))
              (map (verse_context language) relevantVerses)) context = true ->
  relevantVerses <> [] ->
  includes (createQuranPrompt question relevantVerses language) context = true.
Proof.
  intros H Hne. unfold createQuranPrompt.
  destruct relevantVerses as [|v vs]; [congruence|]. cbv zeta.
  destruct (String.eqb language "id");
    do 5 apply includes_app_r; now apply includes_app_l.
Qed.

(** X26. The prompt [createQuranPrompt] builds contains, in every
    language, the question between double quotes and, for every verse
    given, its context block; the block of a verse contains its Arabic
    text and its translation, each between double quotes. *)
Theorem prompt_quotes_question_and_verses question relevantVerses language :
  includes (createQuranPrompt question relevantVerses language)
    (dq ++ question ++ dq) = true /\
  Forall (fun v =>
            includes (createQuranPrompt question relevantVerses language)
              (verse_context language v) = true /\
            includes (verse_context language v)
              (dq ++ verse_text_arabic v ++ dq) = true /\
            includes (verse_context language v)
              (dq ++ verse_text_translation v ++ dq) = true)
    relevantVerses.
Proof.
  split.
  - unfold createQuranPrompt. destruct relevantVerses as [|v vs]; cbv zeta;
      destruct (String.eqb language "id"); apply includes_quoted.
  - apply List.Forall_forall. intros v Hin. split; [|split].
    + apply createQuranPrompt_context.
      * apply includes_join, in_map, Hin.
      * intros ->. contradiction.
    + unfold verse_context. destruct (String.eqb language "id");
        do 7 apply includes_app_r; apply (includes_quoted "").
    + unfold verse_context. destruct (String.eqb language "id");
        do 11 apply includes_app_r; apply includes_self.
Qed.

End Prompt.

(** ** The [/api/ask] handler: the admitted answer *)

(** X27. When the gateway call of a well-formed request returns, the check
    admits it and the write succeeds, the answer reports what the meter
    recorded: [success = true], the answer text and the projection of the
    ranking; token counts that add up; as neurons consumed the consumption
    computed from those counts; as remaining the daily limit less the new
    total; and the total stored for the day is the total read before the
    call plus the consumption reported. *)
Theorem admitted_answer_reports_what_is_recorded `{NumberConversions}
    (amb : Ambient) (quranData : list QuranSurah.t) (body : AIRequest)
    (q : string) (aiResponse : AIResponse) (w : World) :
  toString_round_trips -> toString_nonempty -> put_rejects amb = false ->
  well_formed_ask quranData body q ->
  AI_run amb MODEL_ID (ask_input q (language_of body) (ranking_of quranData q))
    = Returned aiResponse ->
  allowed (fst (checkAndUpdateNeuronLimit amb
                  (promptTokens_of aiResponse
                     (system_prompt_for (language_of body))
                     (createQuranPrompt q (ranking_of quranData q)
                        (language_of body)))
                  (completionTokens_of aiResponse (answer_of aiResponse)) w))
    = true ->
  exists out u,
    fst (fetchHandler_ask amb quranData body w)
      = {| status := 200; json := AskBody out |} /\
    AIResponseOutput.success out = true /\
    AIResponseOutput.answer out = answer_of aiResponse /\
    AIResponseOutput.verses_data out
      = map verse_data (ranking_of quranData q) /\
    AIResponseOutput.usage out = Some u /\
    total (tokens u) = (input (tokens u) + output (tokens u))%float /\
    neurons_consumed (neurons u)
      = calculateNeuronsConsumed (input (tokens u)) (output (tokens u)) /\
    formatted (neurons u) = formatNeurons (neurons_consumed (neurons u)) /\
    neurons_remaining (neurons u)
      = (DAILY_NEURON_LIMIT
         - (current_total amb w + neurons_consumed (neurons u)))%float /\
    daily_limit (neurons u) = DAILY_NEURON_LIMIT /\
    stored_total (snd (fetchHandler_ask amb quranData body w)) (KV_KEY amb)
      = normal_zero (current_total amb w + neurons_consumed (neurons u))%float.
Proof.
  intros RT NE Hput Hwf Hret Hallowed.
  rewrite (fetchHandler_ask_reaches_gateway amb quranData body q Hwf), Hret.
  unfold after_generation, bind.
  revert Hallowed. rewrite check_unfold. cbv zeta.
  destruct (DAILY_NEURON_LIMIT <? _)%float; cbn [fst allowed denied_result];
    [discriminate|intros _].
  cbn [negb allowed allowed_result]. unfold ret.
  eexists. eexists. split; [reflexivity|].
  cbn -[formatNeurons calculateNeuronsConsumed stored_total toFixed].
  repeat split.
  rewrite (stored_total_after_put _ _ _ _ RT NE Hput).
  destruct (decide (KV_KEY amb = KV_KEY amb)); [reflexivity|congruence].
Qed.

Lemma admitted_answer_reports_what_is_recorded_witness :
  exists out u,
    fst (@fetchHandler_ask binary_conversions
           (sampleAmbient (Returned emptyAnswer)) sampleData sampleRequest
           emptyWorld)
      = {| status := 200; json := AskBody out |} /\
    AIResponseOutput.success out = true /\
    AIResponseOutput.answer out = answer_of emptyAnswer /\
    AIResponseOutput.verses_data out
      = map verse_data (ranking_of sampleData "Apa itu Allah?") /\
    AIResponseOutput.usage out = Some u /\
    total (tokens u) = (input (tokens u) + output (tokens u))%float /\
    neurons_consumed (neurons u)
      = calculateNeuronsConsumed (input (tokens u)) (output (tokens u)) /\
    formatted (neurons u)
      = @formatNeurons binary_conversions (neurons_consumed (neurons u)) /\
    neurons_remaining (neurons u)
      = (DAILY_NEURON_LIMIT
         - (@current_total binary_conversions
              (sampleAmbient (Returned emptyAnswer)) emptyWorld
            + neurons_consumed (neurons u)))%float /\
    daily_limit (neurons u) = DAILY_NEURON_LIMIT /\
    @stored_total binary_conversions
      (snd (@fetchHandler_ask binary_conversions
              (sampleAmbient (Returned emptyAnswer)) sampleData sampleRequest
              emptyWorld))
      (KV_KEY (sampleAmbient (Returned emptyAnswer)))
      = normal_zero
          (@current_total binary_conversions
             (sampleAmbient (Returned emptyAnswer)) emptyWorld
           + neurons_consumed (neurons u))%float.
Proof.
  apply (@admitted_answer_reports_what_is_recorded binary_conversions
           (sampleAmbient (Returned emptyAnswer)) sampleData sampleRequest
           "Apa itu Allah?" emptyAnswer emptyWorld
           binary_round_trips binary_nonempty eq_refl).
  - repeat split; try reflexivity. discriminate.
  - reflexivity.
  - vm_compute; reflexivity.
Defined.

(** ** The router: the routes that need no corpus, and the other methods *)

Section RoutesMore.

Context `{NC : NumberConversions}.
Variable arabic : ArabicTexts.

(** X28. The preflight, the index and the health check are answered 200
    without loading the corpus: whatever the state of the process and of
    the network, the process is left exactly as it was. *)
Theorem early_routes_need_no_corpus rt request p :
  answers_without_corpus request = true ->
  exists r,
    fst (fetchHandler arabic rt request p) = Returned r /\
    http_status r = 200%Z /\
    snd (fetchHandler arabic rt request p) = p.
Proof.
  unfold answers_without_corpus, fetchHandler. cbv zeta. intros H.
  destruct (String.eqb (method request) "OPTIONS");
    [eexists; now repeat split|].
  destruct (String.eqb (pathname request) "/");
    [eexists; now repeat split|].
  destruct (String.eqb (pathname request) "/api");
    [eexists; now repeat split|].
  destruct (String.eqb (pathname request) "/api/health");
    [eexists; now repeat split|].
  discriminate.
Qed.

(** X29. With a cached corpus, a request whose method is neither [GET] nor
    [POST], to a path that is not answered before loading, is answered 404
    [Endpoint not found], and the process is left as it was: no data is
    served, the model is not called and nothing is counted. *)
Theorem other_methods_are_not_found rt request p :
  quranData p <> [] ->
  answers_without_corpus request = false ->
  method request <> "GET" -> method request <> "POST" ->
  fetchHandler arabic rt request p
  = (Returned
       (respond 404 (JsonBody (ErrorBody "Endpoint not found" None None))), p).
Proof.
  intros Hdata Hearly Hget Hpost.
  unfold answers_without_corpus in Hearly.
  apply orb_false_elim in Hearly as [Hearly Hhealth].
  apply orb_false_elim in Hearly as [Hearly Hapi].
  apply orb_false_elim in Hearly as [Hoptions Hroot].
  apply String.eqb_neq in Hget, Hpost.
  unfold fetchHandler. cbv zeta.
  rewrite Hoptions, Hroot, Hapi, Hhealth. cbn [orb].
  rewrite (loadQuranData_cached arabic (fetched rt) p Hdata).
  destruct (quranData p) as [|su sus]; [congruence|].
  rewrite Hget, Hpost, !andb_false_r. reflexivity.
Qed.

End RoutesMore.

Lemma early_routes_need_no_corpus_witness :
  exists r,
    fst (@fetchHandler binary_conversions sampleArabic (sampleRuntime Thrown)
           (get_request "/api/health" no_params) freshProcess)
    = Returned r /\
    http_status r = 200%Z /\
    snd (@fetchHandler binary_conversions sampleArabic (sampleRuntime Thrown)
           (get_request "/api/health" no_params) freshProcess)
    = freshProcess.
Proof.
  apply (@early_routes_need_no_corpus binary_conversions sampleArabic
           (sampleRuntime Thrown) (get_request "/api/health" no_params)
           freshProcess).
  reflexivity.
Defined.

Lemma other_methods_are_not_found_witness :
  @fetchHandler binary_conversions sampleArabic (sampleRuntime Thrown)
    {| method := "DELETE"; pathname := "/api/surah/1";
       searchParams := no_params; json_body := Thrown |}
    loadedProcess
  = (Returned
       (respond 404 (JsonBody (ErrorBody "Endpoint not found" None None))),
     loadedProcess).
Proof.
  apply (@other_methods_are_not_found binary_conversions sampleArabic
           (sampleRuntime Thrown)
           {| method := "DELETE"; pathname := "/api/surah/1";
              searchParams := no_params; json_body := Thrown |}
           loadedProcess);
    [discriminate | reflexivity | discriminate | discriminate].
Defined.

(** ** The key of the daily record *)

(** X30. The record of a call is kept under [neuron_usage:] followed by
    the date of its ISO timestamp, the text before the first [T]: calls
    made at any time of one date share one record. *)
Theorem key_is_the_date_of_the_call (amb : Ambient) (date time : string) :
  isoNow amb = date ++ "T" ++ time ->
  all_chars (fun c => negb (Ascii.eqb "T" c)) date = true ->
  KV_KEY amb = "neuron_usage:" ++ date.
Proof.
  intros Hiso Hdate. unfold KV_KEY, today. rewrite Hiso. f_equal.
  rewrite (split_runs_word (Ascii.eqb "T") date ("T" ++ time) Hdate).
  rewrite append_cons, append_nil_l. cbn [split_runs Ascii.eqb Bool.eqb].
  cbn [hd]. apply append_nil_r.
Qed.

Lemma key_is_the_date_of_the_call_witness :
  KV_KEY (sampleAmbient Thrown) = "neuron_usage:" ++ "2023-11-14".
Proof.
  apply (key_is_the_date_of_the_call (sampleAmbient Thrown)
           "2023-11-14" "22:13:20.000Z");
    reflexivity.
Defined.
